(** * Resumable batch analysis of gene clusters: a shallow embedding

    The development follows [src/analysis/11.mozzarellm.py]: the checkpoint
    store ([load_existing_results], [save_cluster_result]), the aggregation
    step ([combine_results]) and the batch loop of [main].

    Python values are modelled by the type [value] (what [json.load] can
    return), dictionaries that the script uses as maps by [gmap], JSON
    objects and directories by association lists (their order is visible:
    [json.dump] keeps key order, [sorted] is stable over [os.listdir]).
    Effects (the output directory, the lines printed, the calls made to the
    external analyzer) are threaded through a state-and-exception monad. *)

From Stdlib Require Import Ascii.
From Stdlib Require String.
From stdpp Require Import base numbers list strings pretty gmap fin_maps sorting.

(** ** Python strings

    A string is a sequence of characters with code points below 256. *)
Module PyStr.

(** [s[k:] == suf] *)
Fixpoint endswith_go (s suf : string) (k : nat) {struct k} : bool :=
  match k with
  | O => String.eqb s suf
  | S n => match s with
           | EmptyString => false
           | String _ s' => endswith_go s' suf n
           end
  end.

(** [s.endswith(suf)] *)
Definition endswith (s suf : string) : bool :=
  endswith_go s suf (String.length s - String.length suf).

(** [s.startswith(pre)] *)
Definition startswith (s pre : string) : bool := String.prefix pre s.

(** [s.split(sep)] for a separator of one character: never empty. *)
Fixpoint split (sep : ascii) (s : string) : list string :=
  match s with
  | EmptyString => [EmptyString]
  | String c s' =>
      if Ascii.eqb c sep then EmptyString :: split sep s'
      else match split sep s' with
           | h :: t => String c h :: t
           | [] => [String c EmptyString]
           end
  end.

(** [s.replace(a, b)] for single characters. *)
Fixpoint replace (a b : ascii) (s : string) : string :=
  match s with
  | EmptyString => EmptyString
  | String c s' => String (if Ascii.eqb c a then b else c) (replace a b s')
  end.

(** [c in s] *)
Fixpoint contains (c : ascii) (s : string) : bool :=
  match s with
  | EmptyString => false
  | String d s' => Ascii.eqb d c || contains c s'
  end.

(** The characters that [int] skips around a literal: TAB, LF, VT, FF, CR
    and the space, and beyond ASCII the next-line character 0x85 and the
    no-break space 0xa0. The separators 0x1c-0x1f are not among them. *)
Definition is_space (c : ascii) : bool :=
  let n := nat_of_ascii c in
  ((9 <=? n) && (n <=? 13)) || (n =? 32) || (n =? 133) || (n =? 160).

Definition is_digit (c : ascii) : bool :=
  let n := nat_of_ascii c in (48 <=? n) && (n <=? 57).

Definition digit_val (c : ascii) : Z := (Z.of_nat (nat_of_ascii c) - 48)%Z.

Fixpoint lstrip (s : string) : string :=
  match s with
  | String c s' => if is_space c then lstrip s' else s
  | EmptyString => EmptyString
  end.

Definition rstrip (s : string) : string :=
  String.rev (lstrip (String.rev s)).

Definition strip (s : string) : string := rstrip (lstrip s).

(** The digits of an integer literal: at least one digit, single
    underscores allowed between digits only. [prev] tells whether the
    previous character was a digit. *)
Fixpoint parse_digits (s : string) (acc : Z) (prev : bool) : option Z :=
  match s with
  | EmptyString => if prev then Some acc else None
  | String c s' =>
      if is_digit c then parse_digits s' (10 * acc + digit_val c)%Z true
      else if Ascii.eqb c "_" then
             if prev then parse_digits s' acc false else None
           else None
  end.

Fixpoint count_digits (s : string) : nat :=
  match s with
  | EmptyString => 0
  | String c s' => (if is_digit c then 1 else 0) + count_digits s'
  end.

(** [sys.get_int_max_str_digits()], the default. *)
Definition int_max_str_digits : nat := 4300.

(** [int(s)] in base 10: [None] stands for [ValueError]. *)
Definition int (s : string) : option Z :=
  let body := strip s in
  let '(neg, ds) :=
    match body with
    | String "-" r => (true, r)
    | String "+" r => (false, r)
    | _ => (false, body)
    end in
  if int_max_str_digits <? count_digits ds then None
  else match parse_digits ds 0%Z false with
       | Some n => Some (if neg then Z.opp n else n)
       | None => None
       end.

End PyStr.

(** ** Python values

    The values that [json.load] returns and [json.dump] accepts: [None],
    booleans, integers, floats, strings, lists and dictionaries with string
    keys. A float is carried by its [repr] (no arithmetic is done on floats
    here). A dictionary keeps its keys in insertion order. *)
#[warnings="-register-all"] Inductive value : Type :=
  | VNone
  | VBool (b : bool)
  | VInt (z : Z)
  | VFloat (repr : string)
  | VStr (s : string)
  | VList (l : list value)
  | VDict (d : list (string * value)).

(** ** Association lists: dictionaries in insertion order, directories *)
Section Assoc.
Context {V : Type}.

(** [d.get(k)] as an option, [d[k]] *)
Fixpoint assoc_get (k : string) (l : list (string * V)) : option V :=
  match l with
  | [] => None
  | (k', v) :: l' => if decide (k = k') then Some v else assoc_get k l'
  end.

(** [d[k] = v]: an existing key keeps its place, a new one goes last. *)
Fixpoint assoc_set (k : string) (v : V) (l : list (string * V))
  : list (string * V) :=
  match l with
  | [] => [(k, v)]
  | (k', v') :: l' =>
      if decide (k = k') then (k, v) :: l' else (k', v') :: assoc_set k v l'
  end.
End Assoc.

(** ** [repr] and [str] *)
Module PyRepr.

Definition hex_digit (n : nat) : ascii :=
  match n with
  | 0 => "0" | 1 => "1" | 2 => "2" | 3 => "3" | 4 => "4" | 5 => "5"
  | 6 => "6" | 7 => "7" | 8 => "8" | 9 => "9" | 10 => "a" | 11 => "b"
  | 12 => "c" | 13 => "d" | 14 => "e" | _ => "f"
  end%char.

Definition escape_char (quote c : ascii) : string :=
  let n := nat_of_ascii c in
  if Ascii.eqb c quote || Ascii.eqb c "\" then String "\" (String c "")
  else if n =? 9 then "\t"
  else if n =? 10 then "\n"
  else if n =? 13 then "\r"
  else if (n <? 32) || ((127 <=? n) && (n <=? 160)) || (n =? 173) then
    String "\" (String "x" (String (hex_digit (n / 16))
                                (String (hex_digit (n mod 16)) "")))
  else String c "".

Fixpoint escape (quote : ascii) (s : string) : string :=
  match s with
  | EmptyString => EmptyString
  | String c s' => escape_char quote c +:+ escape quote s'
  end.

(** The double quote. *)
Definition dquote : ascii := ascii_of_nat 34.

(** [repr(s)] of a string: single quotes, unless the string has a single
    quote and no double quote. *)
Definition repr_str (s : string) : string :=
  let quote : ascii :=
    if PyStr.contains "'" s && negb (PyStr.contains dquote s)
    then dquote else "'"%char in
  String quote (escape quote s +:+ String quote "").

(** [", ".join(l)] *)
Fixpoint join (l : list string) : string :=
  match l with
  | [] => ""
  | [x] => x
  | x :: l' => x +:+ ", " +:+ join l'
  end.

Fixpoint repr (v : value) : string :=
  match v with
  | VNone => "None"
  | VBool true => "True"
  | VBool false => "False"
  | VInt z => pretty z
  | VFloat r => r
  | VStr s => repr_str s
  | VList l => "[" +:+ join (map repr l) +:+ "]"
  | VDict d =>
      "{" +:+ join (map (fun kv => repr_str (fst kv) +:+ ": " +:+ repr (snd kv)) d)
          +:+ "}"
  end.

End PyRepr.

(** [str(v)] *)
Definition str (v : value) : string :=
  match v with
  | VStr s => s
  | _ => PyRepr.repr v
  end.

(** ** Exceptions *)
Inductive exn_class : Type :=
  | JSONDecodeError
  | KeyError
  | ValueError
  | AttributeError
  | TypeError
  | IndexError
  | FileNotFoundError
  | NotADirectoryError
  | UnicodeDecodeError
  | RecursionError
  | OtherException (name : string)
  | KeyboardInterrupt
  | SystemExit
  | OtherBaseException (name : string).

(** An exception: its class and [str(e)]. The classes up to
    [OtherException] derive from [Exception], and [OtherException] stands
    for any other class that does. [KeyboardInterrupt], [SystemExit] and
    [OtherBaseException] (any other such class) derive from [BaseException]
    only. The texts of the built-in exceptions are abridged. *)
Record exn : Type := Exn { exn_class_of : exn_class; exn_str : string }.

(** [isinstance(e, Exception)] *)
Definition is_exception (e : exn) : bool :=
  match exn_class_of e with
  | KeyboardInterrupt | SystemExit | OtherBaseException _ => false
  | _ => true
  end.

Inductive result (A : Type) : Type :=
  | Ok (a : A)
  | Raise (e : exn).
Arguments Ok {A} a.
Arguments Raise {A} e.

(** ** The world: the output directory, the terminal, the analyzer *)

(** One row of the summaries table written by [combine_results]. *)
Record summary_row : Type := SummaryRow {
  s_cluster_id : value;
  s_dominant_process : value;
  s_pathway_confidence : value;
  s_summary : value;
  s_num_established : nat;
  s_num_novel : nat;
  s_num_uncharacterized : nat
}.

(** Why [open] and [json.load] fail on a file whose text is not simply
    rejected by the parser: the bytes are no UTF-8 text, the text has an
    integer literal with more digits than the conversion allows, or it is
    nested deeper than the recursion limit. *)
Inductive unreadable : Type :=
  | NotUtf8
  | HugeInteger
  | TooDeep.

(** What [json.load] raises then. None of them is a [JSONDecodeError]. *)
Definition unreadable_error (u : unreadable) : exn :=
  match u with
  | NotUtf8 => Exn UnicodeDecodeError "'utf-8' codec can't decode byte"
  | HugeInteger =>
      Exn ValueError
        "Exceeds the limit (4300 digits) for integer string conversion"
  | TooDeep => Exn RecursionError "maximum recursion depth exceeded"
  end.

(** What a file holds. [Json v]: a text that [json.load] reads as [v], as
    [json.dump] writes it for [v]. [Raw s]: a text that
    [json.load] rejects with [JSONDecodeError] (empty, truncated, not JSON).
    [Tsv rows]: the table that [DataFrame.to_csv] writes. [Unloadable u]:
    a file on which [json.load] raises another exception, for the reason
    [u]. *)
Inductive content : Type :=
  | Json (v : value)
  | Raw (text : string)
  | Tsv (rows : list summary_row)
  | Unloadable (why : unreadable).

(** A directory of regular files, in the order [os.listdir] gives. *)
Abbreviation directory := (list (string * content)).

(** The output directory: its sub-directory [clusters] (if it exists) and
    its other files (none of them is called [clusters]). Reads and writes
    of files that are there do not fail. *)
Record FS : Type := {
  fs_clusters : option directory;
  fs_top : directory
}.

(** One row of the cluster-level table that [reshape_to_clusters] returns. *)
Record Row : Type := {
  row_cluster_id : value;
  row_payload : string
}.

(** What [analyzer.analyze] does with a one-row table: it raises, or it
    returns a result whose [clusters] is a dictionary from the analyzer's
    id to a cluster result (given by its [model_dump()]). *)
Inductive analysis : Type :=
  | Raised (e : exn)
  | Returned (clusters : list (string * list (string * value))).

(** The external analyzer: the outcome may depend on the number of calls
    made before and on the row. *)
Definition Analyzer : Type := nat -> Row -> analysis.

Record World : Type := {
  fs : FS;
  stdout : list string;
  calls : list Row
}.

(** ** The monad of the script: state and exceptions *)
Definition M (A : Type) : Type := World -> World * result A.

Definition ret {A} (a : A) : M A := fun w => (w, Ok a).

Definition bind {A B} (m : M A) (f : A -> M B) : M B :=
  fun w => match m w with
           | (w', Ok a) => f a w'
           | (w', Raise e) => (w', Raise e)
           end.

Definition raise {A} (c : exn_class) (msg : string) : M A :=
  fun w => (w, Raise (Exn c msg)).

Notation "x <- m ;; k" := (bind m (fun x => k))
  (at level 100, m at next level, right associativity).
Notation "m ;;; k" := (bind m (fun _ => k))
  (at level 100, right associativity).

(** [try: m  except <classes>: handler]: [catches] tells which exceptions
    the clause takes. *)
Definition try_except {A} (m : M A) (catches : exn -> bool)
    (handler : exn -> M A) : M A :=
  fun w => match m w with
           | (w', Raise e) => if catches e then handler e w' else (w', Raise e)
           | r => r
           end.

(** [for x in l: s = body x s] *)
Fixpoint for_each {A S} (l : list A) (body : A -> S -> M S) (s : S) : M S :=
  match l with
  | [] => ret s
  | x :: l' => s' <- body x s ;; for_each l' body s'
  end.

Definition get_fs : M FS := fun w => (w, Ok (fs w)).
Definition put_fs (f : FS) : M unit :=
  fun w => ({| fs := f; stdout := stdout w; calls := calls w |}, Ok tt).

(** [print(line)] and [tqdm.write(line)] *)
Definition print (line : string) : M unit :=
  fun w => ({| fs := fs w; stdout := stdout w ++ [line]; calls := calls w |},
            Ok tt).

(** [analyzer.analyze(single_cluster_df, ...)] *)
Definition analyze (a : Analyzer) (row : Row) : M (list (string * list (string * value))) :=
  fun w =>
    let w' := {| fs := fs w; stdout := stdout w; calls := calls w ++ [row] |} in
    match a (length (calls w)) row with
    | Raised e => (w', Raise e)
    | Returned cl => (w', Ok cl)
    end.

(** A computation that cannot touch the world. *)
Definition lift {A} (r : result A) : M A := fun w => (w, r).

(** ** Files *)

(** [os.path.join(a, b)] on POSIX *)
Definition path_join (a b : string) : string :=
  if PyStr.startswith b "/" then b
  else if String.eqb a "" || PyStr.endswith a "/" then a +:+ b
  else a +:+ "/" +:+ b.

(** [os.listdir(os.path.join(output_dir, "clusters"))] *)
Definition listdir_clusters (output_dir : string) : M (list string) :=
  f0 <- get_fs ;;
  match fs_clusters f0 with
  | Some dir => ret (map fst dir)
  | None =>
      raise FileNotFoundError
        ("[Errno 2] No such file or directory: "
           +:+ PyRepr.repr_str (path_join output_dir "clusters"))
  end.

(** [with open(os.path.join(results_dir, f)) as fh: json.load(fh)] *)
Definition json_load (output_dir f : string) : M value :=
  f0 <- get_fs ;;
  match fs_clusters f0 ≫= assoc_get f with
  | Some (Json v) => ret v
  | Some (Unloadable u) => lift (Raise (unreadable_error u))
  | Some _ => raise JSONDecodeError "Expecting value"
  | None =>
      raise FileNotFoundError
        ("[Errno 2] No such file or directory: "
           +:+ PyRepr.repr_str (path_join (path_join output_dir "clusters") f))
  end.

(** [data.get(k, default)]: only a dictionary has the method. *)
Definition get (data : value) (k : string) (default : value) : result value :=
  match data with
  | VDict d => Ok (from_option id default (assoc_get k d))
  | _ => Raise (Exn AttributeError "object has no attribute 'get'")
  end.

(** [len(v)] *)
Definition len (v : value) : result nat :=
  match v with
  | VList l => Ok (length l)
  | VDict d => Ok (length d)
  | VStr s => Ok (String.length s)
  | _ => Raise (Exn TypeError "object has no len()")
  end.

(** ** The checkpoint store *)

(** [except (json.JSONDecodeError, KeyError)] *)
Definition is_decode_or_key_error (e : exn) : bool :=
  match exn_class_of e with
  | JSONDecodeError | KeyError => true
  | _ => false
  end.

Definition load_existing_results (output_dir model_name : string)
  : M (gmap string value) :=
  f0 <- get_fs ;;
  match fs_clusters f0 with
  | Some dir =>
      for_each (map fst dir)
        (fun f completed =>
           if PyStr.endswith f ".json" then
             try_except
               (data <- json_load output_dir f ;;
                cluster_id <- lift (get data "cluster_id" VNone) ;;
                match cluster_id with
                | VNone => ret completed
                | _ => ret (<[str cluster_id := data]> completed)
                end)
               is_decode_or_key_error
               (fun _ => ret completed)
           else ret completed)
        ∅
  | None => ret ∅
  end.

(** [f"cluster_{cluster_id}.json"] *)
Definition cluster_file (cluster_id : string) : string :=
  "cluster_" +:+ cluster_id +:+ ".json".

Definition nul : ascii := ascii_of_nat 0.

(** [open(filepath, "w")] for a file of [clusters], then [json.dump]. The
    directory holds regular files only, so a name with a slash points into
    a sub-directory that does not exist. *)
Definition open_w_dump (output_dir name : string) (v : value) : M unit :=
  f0 <- get_fs ;;
  let dir := default [] (fs_clusters f0) in
  let path := path_join (path_join output_dir "clusters") name in
  if PyStr.contains nul name then raise ValueError "embedded null byte"
  else if PyStr.contains "/" name then
    match assoc_get (hd "" (PyStr.split "/" name)) dir with
    | Some _ =>
        raise NotADirectoryError
          ("[Errno 20] Not a directory: " +:+ PyRepr.repr_str path)
    | None =>
        raise FileNotFoundError
          ("[Errno 2] No such file or directory: " +:+ PyRepr.repr_str path)
    end
  else
    put_fs {| fs_clusters := Some (assoc_set name (Json v) dir);
              fs_top := fs_top f0 |}.

(** [os.makedirs(results_dir, exist_ok=True)] *)
Definition makedirs_clusters : M unit :=
  f0 <- get_fs ;;
  put_fs {| fs_clusters := Some (default [] (fs_clusters f0));
            fs_top := fs_top f0 |}.

Definition save_cluster_result (output_dir cluster_id : string)
    (result_dict : list (string * value)) : M unit :=
  makedirs_clusters ;;;
  open_w_dump output_dir (cluster_file cluster_id) (VDict result_dict).

(** ** The aggregation step *)

(** The key of [sorted] in [combine_results]:
    [int(x.split("_")[1].split(".")[0]) if x.startswith("cluster_") else 0] *)
Definition sort_key (x : string) : result Z :=
  if PyStr.startswith x "cluster_" then
    match PyStr.split "_" x !! 1%nat with
    | Some y =>
        match PyStr.split "." y !! 0%nat with
        | Some z =>
            match PyStr.int z with
            | Some n => Ok n
            | None =>
                Raise (Exn ValueError
                         ("invalid literal for int() with base 10: "
                            +:+ PyRepr.repr_str z))
            end
        | None => Raise (Exn IndexError "list index out of range")
        end
    | None => Raise (Exn IndexError "list index out of range")
    end
  else Ok 0%Z.

(** [sorted] computes every key first, in the order of the list. *)
Fixpoint keyed (key : string -> result Z) (l : list string)
  : result (list (Z * string)) :=
  match l with
  | [] => Ok []
  | x :: l' =>
      match key x with
      | Raise e => Raise e
      | Ok k => match keyed key l' with
                | Raise e => Raise e
                | Ok kl => Ok ((k, x) :: kl)
                end
      end
  end.

(** A stable sort: an element goes before the first one whose key is not
    smaller, so equal keys keep the order of the input. *)
Fixpoint insert_by_key (x : Z * string) (l : list (Z * string))
  : list (Z * string) :=
  match l with
  | [] => [x]
  | y :: l' => if (x.1 <=? y.1)%Z then x :: l else y :: insert_by_key x l'
  end.

Definition sort_by_key (l : list (Z * string)) : list (Z * string) :=
  foldr insert_by_key [] l.

(** [sorted(l, key=key)] *)
Definition sorted (l : list string) (key : string -> result Z)
  : result (list string) :=
  match keyed key l with
  | Raise e => Raise e
  | Ok kl => Ok (map snd (sort_by_key kl))
  end.

(** One row of the summaries: the dictionary built in the second loop of
    [combine_results], its entries evaluated in order. *)
Definition summary_of (r : value) : result summary_row :=
  match get r "cluster_id" VNone with Raise e => Raise e | Ok cid =>
  match get r "dominant_process" VNone with Raise e => Raise e | Ok dp =>
  match get r "pathway_confidence" VNone with Raise e => Raise e | Ok pc =>
  match get r "summary" VNone with Raise e => Raise e | Ok sm =>
  match get r "established_genes" (VList []) with Raise e => Raise e | Ok eg =>
  match len eg with Raise e => Raise e | Ok n1 =>
  match get r "novel_role_genes" (VList []) with Raise e => Raise e | Ok ng =>
  match len ng with Raise e => Raise e | Ok n2 =>
  match get r "uncharacterized_genes" (VList []) with Raise e => Raise e | Ok ug =>
  match len ug with Raise e => Raise e | Ok n3 =>
    Ok (SummaryRow cid dp pc sm n1 n2 n3)
  end end end end end end end end end end.

(** [with open(os.path.join(output_dir, name), "w")] and a dump. *)
Definition write_top (name : string) (c : content) : M unit :=
  f0 <- get_fs ;;
  put_fs {| fs_clusters := fs_clusters f0;
            fs_top := assoc_set name c (fs_top f0) |}.

(** The base name of the two aggregate files:
    [f"{model_name.replace('/', '_')}_results"] *)
Definition results_base (model_name : string) : string :=
  PyStr.replace "/" "_" model_name +:+ "_results".

Definition combine_results (output_dir model_name : string)
  : M (string * string) :=
  names <- listdir_clusters output_dir ;;
  ordered <- lift (sorted names sort_key) ;;
  all_results <-
    for_each ordered
      (fun f all_results =>
         if PyStr.endswith f ".json" then
           data <- json_load output_dir f ;; ret (all_results ++ [data])
         else ret all_results)
      [] ;;
  let output_base := path_join output_dir (results_base model_name) in
  let combined_json := output_base +:+ ".json" in
  write_top (results_base model_name +:+ ".json")
    (Json (VDict [("clusters", VList all_results);
                  ("model", VStr model_name)])) ;;;
  summaries <-
    for_each all_results
      (fun r summaries => row <- lift (summary_of r) ;; ret (summaries ++ [row]))
      [] ;;
  let summaries_tsv := output_base +:+ "_summaries.tsv" in
  write_top (results_base model_name +:+ "_summaries.tsv") (Tsv summaries) ;;;
  ret (combined_json, summaries_tsv).

(** ** The batch runner *)

(** The command line, as [argparse] returns it. *)
Record Args : Type := {
  args_model : string;
  args_temperature : string;
  args_input_file : string;
  args_output_dir : string;
  args_resume : bool
}.

(** The local variables that the loop of [main] updates. *)
Record LoopState : Type := {
  completed : gmap string value;
  skipped : nat
}.

(** The body of the loop of [main], for one row of [cluster_df]. *)
Definition process_cluster (analyzer : Analyzer) (output_dir : string)
    (row : Row) (st : LoopState) : M LoopState :=
  let cluster_id := str (row_cluster_id row) in
  match completed st !! cluster_id with
  | Some _ => ret {| completed := completed st; skipped := S (skipped st) |}
  | None =>
      try_except
        (result_clusters <- analyze analyzer row ;;
         match result_clusters with
         | (result_cluster_id, dumped) :: _ =>
             let cluster_result :=
               assoc_set "cluster_id" (VStr cluster_id) dumped in
             save_cluster_result output_dir cluster_id cluster_result ;;;
             let completed' :=
               <[cluster_id := VDict cluster_result]> (completed st) in
             print ("  Saved cluster " +:+ cluster_id) ;;;
             ret {| completed := completed'; skipped := skipped st |}
         | [] => ret st
         end)
        is_exception (* except Exception *)
        (fun e =>
           print ("Error analyzing cluster " +:+ cluster_id +:+ ": "
                    +:+ exn_str e) ;;;
           ret st)
  end.

(** [for i in tqdm(range(total_clusters))] *)
Definition process_clusters (analyzer : Analyzer) (output_dir : string)
    (cluster_df : list Row) (st : LoopState) : M LoopState :=
  for_each cluster_df (process_cluster analyzer output_dir) st.

Definition newline : string := String (ascii_of_nat 10) "".

(** [main], from the search for existing results on. What comes before
    (reading the table, [reshape_to_clusters]) gives [cluster_df];
    [ClusterAnalyzer] is the constructor of the external analyzer. *)
Definition main (args : Args) (script_dir : string)
    (ClusterAnalyzer : string -> string -> Analyzer)
    (cluster_df : list Row) : M unit :=
  let output_dir := path_join script_dir (args_output_dir args) in
  completed0 <- load_existing_results output_dir (args_model args) ;;
  (if (0 <? size completed0)%nat
   then print ("Found " +:+ pretty (size completed0)
                 +:+ " previously completed clusters")
   else ret tt) ;;;
  let analyzer := ClusterAnalyzer (args_model args) (args_temperature args) in
  print "Running LLM analysis (with incremental saving)..." ;;;
  st <- process_clusters analyzer output_dir cluster_df
          {| completed := completed0; skipped := 0 |} ;;
  (if (0 <? skipped st)%nat
   then print ("Skipped " +:+ pretty (skipped st)
                 +:+ " previously completed clusters")
   else ret tt) ;;;
  print "Combining results..." ;;;
  paths <- combine_results output_dir (args_model args) ;;
  print (newline +:+ "Analysis complete!") ;;;
  print ("  - Individual results: " +:+ output_dir +:+ "/clusters/") ;;;
  print ("  - Combined JSON: " +:+ paths.1) ;;;
  print ("  - Summaries TSV: " +:+ paths.2).

(** A fresh process on the output directory [f]. *)
Definition start (f : FS) : World := {| fs := f; stdout := []; calls := [] |}.


(** ** Notions used to state the properties *)

(** The id that the loop uses for a row: [str(row["cluster_id"])]. *)
Definition row_id (row : Row) : string := str (row_cluster_id row).

(** The file of [clusters] with a given name, if any. *)
Definition cluster_lookup (f : FS) (name : string) : option content :=
  fs_clusters f ≫= assoc_get name.

(** The world after a line is printed, after the analyzer is called, after
    [clusters] is created if it was missing. *)
Definition logged (w : World) (line : string) : World :=
  {| fs := fs w; stdout := stdout w ++ [line]; calls := calls w |}.

Definition called (w : World) (row : Row) : World :=
  {| fs := fs w; stdout := stdout w; calls := calls w ++ [row] |}.

Definition made_dir (w : World) : World :=
  {| fs := {| fs_clusters := Some (default [] (fs_clusters (fs w)));
              fs_top := fs_top (fs w) |};
     stdout := stdout w; calls := calls w |}.

(** The lines of the loop. *)
Definition saved_line (row : Row) : string := "  Saved cluster " +:+ row_id row.

Definition error_line (row : Row) (e : exn) : string :=
  "Error analyzing cluster " +:+ row_id row +:+ ": " +:+ exn_str e.

(** The result that is filed for a row, from what the analyzer dumped. *)
Definition filed (row : Row) (dumped : list (string * value))
  : list (string * value) :=
  assoc_set "cluster_id" (VStr (row_id row)) dumped.

(** A name under which [open_w_dump] can create a file of [clusters]. *)
Definition can_create (name : string) : bool :=
  negb (PyStr.contains nul name) && negb (PyStr.contains "/" name).

Definition saved_world (w : World) (row : Row) (dumped : list (string * value))
  : World :=
  {| fs := {| fs_clusters :=
                Some (assoc_set (cluster_file (row_id row))
                        (Json (VDict (filed row dumped)))
                        (default [] (fs_clusters (fs w))));
              fs_top := fs_top (fs w) |};
     stdout := stdout w ++ [saved_line row];
     calls := calls w ++ [row] |}.

Definition saved_state (st : LoopState) (row : Row)
    (dumped : list (string * value)) : LoopState :=
  {| completed := <[row_id row := VDict (filed row dumped)]> (completed st);
     skipped := skipped st |}.

(** The state machine of one work item, as the loop body runs it to its
    end: skipped; analyzed and saved; analyzed and failed (the analyzer
    raised an [Exception], it returned no cluster, or the file could not be
    created). *)
Inductive item_step (analyzer : Analyzer) (row : Row) (st : LoopState)
    (w : World) : World -> LoopState -> Prop :=
  | step_skipped v :
      completed st !! row_id row = Some v ->
      item_step analyzer row st w w
        {| completed := completed st; skipped := S (skipped st) |}
  | step_saved k dumped rest :
      completed st !! row_id row = None ->
      analyzer (length (calls w)) row = Returned ((k, dumped) :: rest) ->
      can_create (cluster_file (row_id row)) = true ->
      item_step analyzer row st w
        (saved_world w row dumped) (saved_state st row dumped)
  | step_failed e :
      completed st !! row_id row = None ->
      analyzer (length (calls w)) row = Raised e ->
      is_exception e = true ->
      item_step analyzer row st w
        (logged (called w row) (error_line row e)) st
  | step_empty :
      completed st !! row_id row = None ->
      analyzer (length (calls w)) row = Returned [] ->
      item_step analyzer row st w (called w row) st
  | step_unsaved k dumped rest e :
      completed st !! row_id row = None ->
      analyzer (length (calls w)) row = Returned ((k, dumped) :: rest) ->
      can_create (cluster_file (row_id row)) = false ->
      item_step analyzer row st w
        (logged (made_dir (called w row)) (error_line row e)) st.

(** The loop body does not take an exception that is no [Exception]: when
    the analyzer raises one for a row that is not completed, the body ends
    with it, and so does the loop. *)
Definition interrupted (analyzer : Analyzer) (row : Row) (st : LoopState)
    (w : World) (e : exn) : Prop :=
  completed st !! row_id row = None /\
  analyzer (length (calls w)) row = Raised e /\
  is_exception e = false.

(** An analyzer whose failures are instances of [Exception]. *)
Definition raises_exceptions (analyzer : Analyzer) : Prop :=
  forall n row e, analyzer n row = Raised e -> is_exception e = true.

(** The run of the loop over a list of rows, as a chain of item steps. *)
Inductive items_run (analyzer : Analyzer)
  : list Row -> LoopState -> World -> World -> LoopState -> Prop :=
  | run_nil st w : items_run analyzer [] st w w st
  | run_cons row rows st w w1 st1 w2 st2 :
      item_step analyzer row st w w1 st1 ->
      items_run analyzer rows st1 w1 w2 st2 ->
      items_run analyzer (row :: rows) st w w2 st2.


(** ** The aggregation step without the monad

    [combine_results] only reads [clusters] and writes two files of the
    output directory: [aggregate] is what it computes from the one and
    does to the other (proved equal to the code in [combine_results_eq]). *)

(** A loop whose body does not touch the world. *)
Fixpoint fold_result {A S} (g : A -> S -> result S) (l : list A) (s : S)
  : result S :=
  match l with
  | [] => Ok s
  | x :: l' => match g x s with
               | Ok s' => fold_result g l' s'
               | Raise e => Raise e
               end
  end.

Definition read_document (output_dir : string) (dir : directory) (f : string)
    (all_results : list value) : result (list value) :=
  if PyStr.endswith f ".json" then
    match assoc_get f dir with
    | Some (Json v) => Ok (all_results ++ [v])
    | Some (Unloadable u) => Raise (unreadable_error u)
    | Some _ => Raise (Exn JSONDecodeError "Expecting value")
    | None =>
        Raise (Exn FileNotFoundError
                 ("[Errno 2] No such file or directory: "
                    +:+ PyRepr.repr_str
                          (path_join (path_join output_dir "clusters") f)))
    end
  else Ok all_results.

Definition add_summary (r : value) (summaries : list summary_row)
  : result (list summary_row) :=
  match summary_of r with
  | Ok row => Ok (summaries ++ [row])
  | Raise e => Raise e
  end.

Definition combined_report (model_name : string) (all_results : list value)
  : content :=
  Json (VDict [("clusters", VList all_results); ("model", VStr model_name)]).

Definition aggregate (output_dir model_name : string) (dir top : directory)
  : directory * result (string * string) :=
  match sorted (map fst dir) sort_key with
  | Raise e => (top, Raise e)
  | Ok ordered =>
      match fold_result (read_document output_dir dir) ordered [] with
      | Raise e => (top, Raise e)
      | Ok all_results =>
          let top1 :=
            assoc_set (results_base model_name +:+ ".json")
              (combined_report model_name all_results) top in
          match fold_result add_summary all_results [] with
          | Raise e => (top1, Raise e)
          | Ok summaries =>
              (assoc_set (results_base model_name +:+ "_summaries.tsv")
                 (Tsv summaries) top1,
               Ok (path_join output_dir (results_base model_name) +:+ ".json",
                   path_join output_dir (results_base model_name)
                     +:+ "_summaries.tsv"))
          end
      end
  end.

(** ** The discovery of checkpoints without the monad

    What the body of the loop of [load_existing_results] does with one
    name of the listing (proved equal to the code in
    [load_existing_results_eq]). *)
Definition load_entry (output_dir : string) (dir : directory) (f : string)
    (completed : gmap string value) : result (gmap string value) :=
  if PyStr.endswith f ".json" then
    match assoc_get f dir with
    | Some (Json data) =>
        match get data "cluster_id" VNone with
        | Ok VNone => Ok completed
        | Ok cluster_id => Ok (<[str cluster_id := data]> completed)
        | Raise e => Raise e
        end
    | Some (Unloadable u) => Raise (unreadable_error u)
    | Some _ => Ok completed
    | None =>
        Raise (Exn FileNotFoundError
                 ("[Errno 2] No such file or directory: "
                    +:+ PyRepr.repr_str
                          (path_join (path_join output_dir "clusters") f)))
    end
  else Ok completed.

Definition discover (output_dir : string) (f : FS) : result (gmap string value) :=
  match fs_clusters f with
  | Some dir => fold_result (load_entry output_dir dir) (map fst dir) ∅
  | None => Ok ∅
  end.

(** ** The worlds of [main] between its steps *)
Definition banner (completed0 : gmap string value) (w : World) : World :=
  logged (if (0 <? size completed0)%nat
          then logged w ("Found " +:+ pretty (size completed0)
                           +:+ " previously completed clusters")
          else w)
    "Running LLM analysis (with incremental saving)...".

Definition before_combine (st : LoopState) (w : World) : World :=
  logged (if (0 <? skipped st)%nat
          then logged w ("Skipped " +:+ pretty (skipped st)
                           +:+ " previously completed clusters")
          else w)
    "Combining results...".

Definition report (output_dir : string) (paths : string * string) (w : World)
  : World :=
  logged (logged (logged (logged w (newline +:+ "Analysis complete!"))
                    ("  - Individual results: " +:+ output_dir +:+ "/clusters/"))
            ("  - Combined JSON: " +:+ paths.1))
    ("  - Summaries TSV: " +:+ paths.2).

(** The command line with the resume flag set to [b]. *)
Definition with_resume (b : bool) (args : Args) : Args :=
  {| args_model := args_model args;
     args_temperature := args_temperature args;
     args_input_file := args_input_file args;
     args_output_dir := args_output_dir args;
     args_resume := b |}.

(** The rows that a run starting with the checkpoint set [C] has to
    analyze, and those it finds completed. *)
Definition pending (C : gmap string value) (cluster_df : list Row) : list Row :=
  filter (fun row => C !! row_id row = None) cluster_df.

Definition done_before (C : gmap string value) (cluster_df : list Row)
  : list Row :=
  filter (fun row => is_Some (C !! row_id row)) cluster_df.

(** The line that reports how many rows were skipped. *)
Definition skipped_line (n : nat) : string :=
  "Skipped " +:+ pretty n +:+ " previously completed clusters".

(** ** Persisted results, as the aggregation step expects them *)

(** A file of [clusters] that the aggregation step loads. *)
Definition is_json_file (e : string * content) : bool :=
  PyStr.endswith e.1 ".json".

(** A name for which the key of [sorted] is defined. *)
Definition sortable (name : string) : bool :=
  match sort_key name with
  | Ok _ => true
  | Raise _ => false
  end.

(** A member list of a result: a list, or absent. *)
Definition list_or_absent (d : list (string * value)) (k : string) : bool :=
  match assoc_get k d with
  | None | Some (VList _) => true
  | Some _ => false
  end.

(** A persisted result: a dictionary whose three member lists are lists
    when they are there. *)
Definition is_result (c : content) : bool :=
  match c with
  | Json (VDict d) =>
      list_or_absent d "established_genes"
      && list_or_absent d "novel_role_genes"
      && list_or_absent d "uncharacterized_genes"
  | _ => false
  end.

(** The length of a member list, 0 when the list is absent. *)
Definition member_count (d : list (string * value)) (k : string) : nat :=
  match assoc_get k d with
  | Some (VList l) => length l
  | _ => 0
  end.

(** The field of a result, [None] when it is absent. *)
Definition field (d : list (string * value)) (k : string) : value :=
  default VNone (assoc_get k d).

(** The row of the summaries that belongs to a result, in the words of the
    specification: id, label, confidence, summary and the three counts. *)
Definition row_of_result (d : list (string * value)) : summary_row :=
  {| s_cluster_id := field d "cluster_id";
     s_dominant_process := field d "dominant_process";
     s_pathway_confidence := field d "pathway_confidence";
     s_summary := field d "summary";
     s_num_established := member_count d "established_genes";
     s_num_novel := member_count d "novel_role_genes";
     s_num_uncharacterized := member_count d "uncharacterized_genes" |}.

(** The dictionary that the file [f] of the directory holds, for a file
    that the aggregation step loads. *)
Definition dict_of (dir : directory) (f : string)
  : option (list (string * value)) :=
  if PyStr.endswith f ".json" then
    match assoc_get f dir with
    | Some (Json (VDict d)) => Some d
    | _ => None
    end
  else None.

(** The classes of what [json.load] raises on a file that is there. *)
Definition is_load_error (e : exn) : bool :=
  match exn_class_of e with
  | JSONDecodeError | UnicodeDecodeError | ValueError | RecursionError => true
  | _ => false
  end.

(** ** The ids that the checkpoint files declare *)

(** The file [name] of the directory declares the id [cid]: it ends in
    [.json], it parses to a dictionary, and its [cluster_id] is there and is
    not [None]. *)
Definition declares (dir : directory) (name : string) (cid : value) : Prop :=
  PyStr.endswith name ".json" = true /\
  exists d,
    assoc_get name dir = Some (Json (VDict d)) /\
    assoc_get "cluster_id" d = Some cid /\
    cid <> VNone.

(** The string [k] is the string form of an id declared in [clusters]. *)
Definition declared (f : FS) (k : string) : Prop :=
  exists dir name cid,
    fs_clusters f = Some dir /\ declares dir name cid /\ k = str cid.


(** ** Directories written by the loop *)

(** Every file that declares an id is the file of that id (the invariant of
    the checkpoint set: the id is derived from the file name). *)
Definition consistent (f : FS) : Prop :=
  forall dir name cid,
    fs_clusters f = Some dir -> declares dir name cid ->
    name = cluster_file (str cid).

(** The discovery gets through the file [name]: if it ends in [.json],
    either the parser rejects its text, or it parses and the document is a
    dictionary. *)
Definition entry_loads (dir : directory) (name : string) : Prop :=
  PyStr.endswith name ".json" = true ->
  exists c,
    assoc_get name dir = Some c /\
    (forall v, c = Json v -> exists d, v = VDict d) /\
    (forall u, c <> Unloadable u).

Definition loadable (f : FS) : Prop :=
  forall dir, fs_clusters f = Some dir -> Forall (entry_loads dir) (map fst dir).

(** An analyzer that returns a cluster at every call. *)
Definition always_returns (analyzer : Analyzer) : Prop :=
  forall n row, exists k dumped rest,
    analyzer n row = Returned ((k, dumped) :: rest).

(** The files of [clusters], none when the directory is missing. *)
Definition dir_of (f : FS) : directory := default [] (fs_clusters f).

(** The loop and the directory agree: the ids of the completed set are the
    ids that the files declare, in a directory that the discovery can read
    and in which every declaring file is named after its id. *)
Definition in_step (f : FS) (st : LoopState) : Prop :=
  consistent f /\ loadable f /\
  forall k, declared f k <-> is_Some (completed st !! k).

(** ** Sample data *)
Module Sample.

Definition args : Args :=
  {| args_model := "org/model-1"; args_temperature := "0.0";
     args_input_file := "clustering.tsv"; args_output_dir := "out";
     args_resume := false |}.

Definition output_dir : string := "/work/out".

(** A row of the table with an integer or a textual cluster id. *)
Definition row (n : Z) : Row :=
  {| row_cluster_id := VInt n; row_payload := "GENE1;GENE2" |}.

Definition row_named (s : string) : Row :=
  {| row_cluster_id := VStr s; row_payload := "GENE3" |}.

(** What an analyzer dumps for a cluster; it reports its own id. *)
Definition dumped : list (string * value) :=
  [("cluster_id", VStr "999");
   ("dominant_process", VStr "mitochondrial translation");
   ("pathway_confidence", VStr "High");
   ("summary", VStr "ribosomal subunits");
   ("established_genes", VList [VStr "GENE1"; VStr "GENE2"]);
   ("novel_role_genes", VList [VStr "GENE3"])].

Definition succeeding : Analyzer := fun _ _ => Returned [("999", dumped)].

Definition failing : Analyzer :=
  fun _ _ => Raised (Exn (OtherException "RuntimeError") "empty response").

(** Fails on the first call only. *)
Definition flaky : Analyzer :=
  fun n r => match n with O => failing n r | S _ => succeeding n r end.

Definition empty_fs : FS := {| fs_clusters := None; fs_top := [] |}.

Definition fresh : LoopState := {| completed := ∅; skipped := 0 |}.

(** A table with two clusters, and two first runs on a new output
    directory: one in which both analyses succeed, one in which the first
    analysis fails. *)
Definition table : list Row := [row 1; row 2].

Definition first_run : World * result unit :=
  main args "/work" (fun _ _ => succeeding) table (start empty_fs).

Definition first_run_flaky : World * result unit :=
  main args "/work" (fun _ _ => flaky) table (start empty_fs).

End Sample.

Module SampleResume.

(** A directory with the checkpoint of cluster 4, its id as text. *)
Definition dir : directory :=
  [("cluster_4.json",
    Json (VDict [("cluster_id", VStr "4"); ("summary", VStr "done")]))].

Definition f : FS := {| fs_clusters := Some dir; fs_top := [] |}.

Definition C : gmap string value :=
  {["4" := VDict [("cluster_id", VStr "4"); ("summary", VStr "done")]]}.

(** The table has clusters 4 and 5, their ids as integers. *)
Definition table : list Row := [Sample.row 4; Sample.row 5].

Definition loop : World * result LoopState :=
  process_clusters Sample.succeeding Sample.output_dir table
    {| completed := C; skipped := 0 |} (banner C (start f)).

End SampleResume.

(** ** The gene-level table and its gene column

    [main] reads the table with [pd.read_csv] and, before it reshapes it,
    renames the column [gene_symbol_0] to [gene_symbol] when the table has
    the first and not the second. A table is given by its columns, each
    with its label and its cells. *)
Abbreviation DataFrame := (list (string * list value)).

(** [df.columns] *)
Definition columns (df : DataFrame) : list string := map fst df.

(** [df.rename(columns={old: new})]: every column with the label [old]
    gets the label [new], the cells and the order stay. *)
Definition rename (old new : string) (df : DataFrame) : DataFrame :=
  map (fun c => if decide (c.1 = old) then (new, c.2) else c) df.

(** Lines 158-160 of [main]:
    [if "gene_symbol_0" in gene_df.columns and "gene_symbol" not in
    gene_df.columns: gene_df = gene_df.rename(...)] *)
Definition normalize_gene_column (gene_df : DataFrame) : DataFrame :=
  if bool_decide ("gene_symbol_0" ∈ columns gene_df)
     && negb (bool_decide ("gene_symbol" ∈ columns gene_df))
  then rename "gene_symbol_0" "gene_symbol" gene_df
  else gene_df.

(** ** More notions used to state properties *)

(** The names of the listing that the aggregation step loads. *)
Definition json_names (dir : directory) : list string :=
  filter (fun f => Is_true (PyStr.endswith f ".json")) (map fst dir).

(** A member field on which [len] is defined: absent, or a list, a string
    or a dictionary. *)
Definition has_len (d : list (string * value)) (k : string) : bool :=
  match assoc_get k d with
  | None | Some (VList _) | Some (VStr _) | Some (VDict _) => true
  | Some _ => false
  end.

(** The discovery fails on the file [f] with the exception [e]: the name
    ends in [.json], and either the file parses to a document that is no
    dictionary and [e] is the [AttributeError] of [data.get], or
    [json.load] raises [e] on it and [e] is no [JSONDecodeError]. *)
Definition fails_to_load (dir : directory) (f : string) (e : exn) : Prop :=
  PyStr.endswith f ".json" = true /\
  ((exists v, assoc_get f dir = Some (Json v) /\
              (forall d, v <> VDict d) /\
              exn_class_of e = AttributeError) \/
   (exists u, assoc_get f dir = Some (Unloadable u) /\
              e = unreadable_error u)).

(** The classes that [open_w_dump] raises. *)
Definition is_open_error (e : exn) : bool :=
  match exn_class_of e with
  | ValueError | FileNotFoundError | NotADirectoryError => true
  | _ => false
  end.

(** The entry of the combined report that lists the results. *)
Definition report_clusters (c : content) : option (list value) :=
  match c with
  | Json (VDict d) =>
      match assoc_get "clusters" d with
      | Some (VList l) => Some l
      | _ => None
      end
  | _ => None
  end.

(** The document that the aggregation step loads from the file [f]. *)
Definition document_of (dir : directory) (f : string) : option value :=
  if PyStr.endswith f ".json" then
    match assoc_get f dir with
    | Some (Json v) => Some v
    | _ => None
    end
  else None.

(** What [len] gives for a member field, 0 for one that is absent. *)
Definition size_of (d : list (string * value)) (k : string) : nat :=
  match assoc_get k d with
  | Some (VList l) => length l
  | Some (VStr s) => String.length s
  | Some (VDict o) => length o
  | _ => 0
  end.

(** An analyzer that never returns a cluster: it raises, or its result has
    none. *)
Definition never_returns (analyzer : Analyzer) : Prop :=
  forall n row k dumped rest, analyzer n row <> Returned ((k, dumped) :: rest).

(** Every character of the string satisfies [P]. *)
Fixpoint all_chars (P : ascii -> bool) (s : string) : bool :=
  match s with
  | EmptyString => true
  | String c s' => P c && all_chars P s'
  end.





(** * Properties *)

(** ** The Python primitives on examples *)
Example split_ex1 : PyStr.split "_" "cluster_12.json" = ["cluster"; "12.json"].
Proof. reflexivity. Qed.
Example split_ex2 : PyStr.split "." "" = [""].
Proof. reflexivity. Qed.
Example split_ex3 : PyStr.split "_" "a__b_" = ["a"; ""; "b"; ""].
Proof. reflexivity. Qed.
Example endswith_ex1 : PyStr.endswith "cluster_1.json" ".json" = true.
Proof. reflexivity. Qed.
Example endswith_ex2 : PyStr.endswith "json" ".json" = false.
Proof. reflexivity. Qed.
Example endswith_ex3 : PyStr.endswith ".json.bak" ".json" = false.
Proof. reflexivity. Qed.
Example int_ex1 : PyStr.int "12" = Some 12%Z.
Proof. reflexivity. Qed.
Example int_ex2 : PyStr.int " -007 " = Some (-7)%Z.
Proof. reflexivity. Qed.
Example int_ex3 : PyStr.int "abc" = None.
Proof. reflexivity. Qed.
Example int_ex4 : PyStr.int "" = None.
Proof. reflexivity. Qed.
Example int_ex5 : PyStr.int "1_000" = Some 1000%Z.
Proof. reflexivity. Qed.
Example int_ex6 : PyStr.int "- 5" = None.
Proof. reflexivity. Qed.
Example int_ex7 : PyStr.int (String (ascii_of_nat 28) "5") = None.
Proof. reflexivity. Qed.
Example int_ex8 : PyStr.int (String (ascii_of_nat 160) "5") = Some 5%Z.
Proof. reflexivity. Qed.
Example int_ex9 : PyStr.int "+5" = Some 5%Z /\ PyStr.int "1__0" = None.
Proof. split; reflexivity. Qed.
Example sort_key_ex1 : sort_key "cluster_12.json" = Ok 12%Z.
Proof. reflexivity. Qed.
Example sort_key_ex2 : sort_key "notes.txt" = Ok 0%Z.
Proof. reflexivity. Qed.
Example sort_key_ex3 : sort_key "cluster_1.0.json" = Ok 1%Z.
Proof. reflexivity. Qed.
Example str_ex1 : str (VInt 5) = "5" /\ str (VStr "5") = "5" /\ str (VInt (-3)) = "-3".
Proof. repeat split; reflexivity. Qed.
Example sort_key_ex4 :
  sortable ("cluster_" +:+ String (ascii_of_nat 28) "5.json") = false.
Proof. reflexivity. Qed.
Example repr_ex1 :
  PyRepr.repr_str (String (ascii_of_nat 160) "a'")
  = String PyRepr.dquote ("\xa0a'" +:+ String PyRepr.dquote "").
Proof. reflexivity. Qed.
Example str_ex2 : str (VList [VInt 1; VStr "a"; VNone]) = "[1, 'a', None]".
Proof. reflexivity. Qed.

(** ** Strings *)
Lemma append_cons (c : ascii) (a b : string) :
  String c a +:+ b = String c (a +:+ b).
Proof. reflexivity. Qed.

Lemma length_append (a b : string) :
  String.length (a +:+ b) = String.length a + String.length b.
Proof.
  induction a as [|c a IH]; [done|].
  rewrite append_cons. cbn [String.length]. by rewrite IH.
Qed.

Lemma append_inv_tail (a b s : string) : a +:+ s = b +:+ s -> a = b.
Proof.
  revert b. induction a as [|c a IH]; intros [|d b] H; [done| | |].
  - change (s = String d (b +:+ s)) in H.
    apply (f_equal String.length) in H. cbn [String.length] in H.
    rewrite length_append in H. lia.
  - change (String c (a +:+ s) = s) in H.
    apply (f_equal String.length) in H. cbn [String.length] in H.
    rewrite length_append in H. lia.
  - rewrite !append_cons in H. injection H as -> H. f_equal. by apply IH.
Qed.

Lemma cluster_file_inj (a b : string) : cluster_file a = cluster_file b -> a = b.
Proof.
  unfold cluster_file. intros H. apply String.app_inj in H.
  by apply append_inv_tail in H.
Qed.

(** The two aggregate files have different names. *)
Lemma aggregate_names_ne (base : string) :
  base +:+ ".json" <> base +:+ "_summaries.tsv".
Proof. intros H. by apply String.app_inj in H. Qed.

(** ** Association lists *)
Section AssocFacts.
Context {V : Type}.
Implicit Types (l : list (string * V)) (k : string) (v : V).

Lemma assoc_get_set_eq k v l : assoc_get k (assoc_set k v l) = Some v.
Proof.
  induction l as [|[k' v'] l IH]; cbn.
  - by rewrite decide_True.
  - destruct (decide (k = k')) as [->|Hne]; cbn.
    + by rewrite decide_True.
    + by rewrite decide_False.
Qed.

Lemma assoc_get_set_ne k k' v l :
  k <> k' -> assoc_get k' (assoc_set k v l) = assoc_get k' l.
Proof.
  intros Hne. induction l as [|[k1 v1] l IH]; cbn.
  - by rewrite decide_False.
  - destruct (decide (k = k1)) as [->|Hne1]; cbn.
    + by rewrite !(decide_False (P := k' = k1)).
    + by rewrite IH.
Qed.

Lemma assoc_set_id k v l : assoc_get k l = Some v -> assoc_set k v l = l.
Proof.
  induction l as [|[k' v'] l IH]; cbn; [done|].
  destruct (decide (k = k')) as [->|Hne]; intros H.
  - by injection H as ->.
  - by rewrite IH.
Qed.

Lemma assoc_get_Some_elem k v l : assoc_get k l = Some v -> (k, v) ∈ l.
Proof.
  induction l as [|[k' v'] l IH]; cbn; [done|].
  destruct (decide (k = k')) as [->|Hne]; intros H.
  - injection H as ->. apply list_elem_of_here.
  - apply list_elem_of_further. by apply IH.
Qed.

Lemma assoc_get_NoDup k v l :
  NoDup (map fst l) -> (k, v) ∈ l -> assoc_get k l = Some v.
Proof.
  induction l as [|[k' v'] l IH]; cbn; intros Hnd Hin.
  - by apply not_elem_of_nil in Hin.
  - apply NoDup_cons in Hnd as [Hk' Hnd].
    apply elem_of_cons in Hin as [Heq|Hin].
    + injection Heq as -> ->. by rewrite decide_True.
    + destruct (decide (k = k')) as [->|Hne]; [|by apply IH].
      exfalso. apply Hk'. apply list_elem_of_fmap. by exists (k', v).
Qed.
End AssocFacts.

(** ** The loop body as a state machine *)

Lemma print_logged (line : string) (w : World) :
  print line w = (logged w line, Ok tt).
Proof. reflexivity. Qed.

Lemma save_cluster_result_ok od cluster_id d w :
  can_create (cluster_file cluster_id) = true ->
  save_cluster_result od cluster_id d w =
    ({| fs := {| fs_clusters :=
                   Some (assoc_set (cluster_file cluster_id) (Json (VDict d))
                           (default [] (fs_clusters (fs w))));
                 fs_top := fs_top (fs w) |};
        stdout := stdout w; calls := calls w |}, Ok tt).
Proof.
  unfold can_create. intros [Hn Hs]%andb_true_iff.
  apply negb_true_iff in Hn, Hs.
  unfold save_cluster_result, makedirs_clusters, open_w_dump, bind, get_fs,
    put_fs. cbn. by rewrite Hn, Hs.
Qed.

Lemma save_cluster_result_raise od cluster_id d w :
  can_create (cluster_file cluster_id) = false ->
  exists e, save_cluster_result od cluster_id d w = (made_dir w, Raise e).
Proof.
  unfold can_create. intros H.
  unfold save_cluster_result, makedirs_clusters, open_w_dump, bind, get_fs,
    put_fs, raise, made_dir. cbn.
  destruct (PyStr.contains nul (cluster_file cluster_id)); [by eexists|].
  destruct (PyStr.contains "/" (cluster_file cluster_id)); [|done].
  destruct (assoc_get _ _); by eexists.
Qed.

(** What [open_w_dump] raises is an instance of [Exception]. *)
Lemma save_cluster_result_raise_exception od cluster_id d w e w' :
  save_cluster_result od cluster_id d w = (w', Raise e) ->
  is_exception e = true.
Proof.
  unfold save_cluster_result, makedirs_clusters, open_w_dump, bind, get_fs,
    put_fs, raise. cbn.
  destruct (PyStr.contains nul (cluster_file cluster_id)); [by intros [= _ <-]|].
  destruct (PyStr.contains "/" (cluster_file cluster_id)); [|done].
  destruct (assoc_get _ _); by intros [= _ <-].
Qed.

(** The loop body, case by case. *)
Lemma process_cluster_eq analyzer od row st w :
  process_cluster analyzer od row st w =
    match completed st !! row_id row with
    | Some _ => (w, Ok {| completed := completed st; skipped := S (skipped st) |})
    | None =>
        match analyzer (length (calls w)) row with
        | Raised e =>
            if is_exception e
            then (logged (called w row) (error_line row e), Ok st)
            else (called w row, Raise e)
        | Returned [] => (called w row, Ok st)
        | Returned ((k, dumped) :: rest) =>
            match save_cluster_result od (row_id row) (filed row dumped)
                    (called w row) with
            | (w1, Ok _) =>
                (logged w1 (saved_line row), Ok (saved_state st row dumped))
            | (w1, Raise e) =>
                if is_exception e
                then (logged w1 (error_line row e), Ok st)
                else (w1, Raise e)
            end
        end
    end.
Proof.
  unfold process_cluster. fold (row_id row).
  destruct (completed st !! row_id row) as [v|]; [done|].
  unfold try_except, bind at 1, analyze. fold (called w row).
  destruct (analyzer (length (calls w)) row) as [e|[|[k dumped] rest]].
  - by destruct (is_exception e).
  - done.
  - unfold bind at 1. fold (filed row dumped).
    destruct (save_cluster_result od (row_id row) (filed row dumped)
                (called w row)) as [w1 [[]|e]]; [done|].
    by destruct (is_exception e).
Qed.

(** The loop body either runs to its end, as a step of the state machine,
    or is interrupted by what the analyzer raised. *)
Lemma process_cluster_step analyzer od row st w :
  (exists w' st',
     process_cluster analyzer od row st w = (w', Ok st') /\
     item_step analyzer row st w w' st') \/
  (exists e,
     process_cluster analyzer od row st w = (called w row, Raise e) /\
     interrupted analyzer row st w e).
Proof.
  rewrite process_cluster_eq.
  destruct (completed st !! row_id row) as [v|] eqn:Hc.
  { left. eexists _, _. split; [reflexivity|]. by eapply step_skipped. }
  destruct (analyzer (length (calls w)) row) as [e|[|[k dumped] rest]] eqn:Ha.
  - destruct (is_exception e) eqn:He.
    + left. eexists _, _. split; [reflexivity|]. by apply step_failed.
    + right. by exists e.
  - left. eexists _, _. split; [reflexivity|]. by apply step_empty.
  - left. destruct (can_create (cluster_file (row_id row))) eqn:Hcc.
    + rewrite save_cluster_result_ok by done.
      exists (saved_world w row dumped), (saved_state st row dumped).
      split; [reflexivity|]. by eapply step_saved.
    + destruct (save_cluster_result_raise od (row_id row) (filed row dumped)
                  (called w row) Hcc) as [e He].
      rewrite He, (save_cluster_result_raise_exception _ _ _ _ _ _ He).
      exists (logged (made_dir (called w row)) (error_line row e)), st.
      split; [reflexivity|]. by eapply (step_unsaved _ _ _ _ _ _ _ e).
Qed.

Lemma process_cluster_ok analyzer od row st w w' st' :
  process_cluster analyzer od row st w = (w', Ok st') ->
  item_step analyzer row st w w' st'.
Proof.
  intros H.
  destruct (process_cluster_step analyzer od row st w)
    as [(w1 & st1 & H1 & Hstep)|(e & H1 & _)]; rewrite H in H1; [|done].
  by injection H1 as <- <-.
Qed.

Lemma process_clusters_cons analyzer od row rows st w :
  process_clusters analyzer od (row :: rows) st w =
    match process_cluster analyzer od row st w with
    | (w1, Ok st1) => process_clusters analyzer od rows st1 w1
    | (w1, Raise e) => (w1, Raise e)
    end.
Proof. reflexivity. Qed.

(** The loop either runs through the table, as a chain of item steps, or
    is interrupted at a row after a chain of steps over the rows before. *)
Lemma process_clusters_run analyzer od rows st w :
  (exists w' st',
     process_clusters analyzer od rows st w = (w', Ok st') /\
     items_run analyzer rows st w w' st') \/
  (exists pre row post w1 st1 e,
     rows = pre ++ row :: post /\
     items_run analyzer pre st w w1 st1 /\
     interrupted analyzer row st1 w1 e /\
     process_clusters analyzer od rows st w = (called w1 row, Raise e)).
Proof.
  revert st w. induction rows as [|row rows IH]; intros st w.
  - left. eexists _, _. split; [reflexivity|constructor].
  - rewrite process_clusters_cons.
    destruct (process_cluster_step analyzer od row st w)
      as [(w1 & st1 & Hstep & Hitem)|(e & Hstep & Hint)]; rewrite Hstep.
    + destruct (IH st1 w1)
        as [(w2 & st2 & Hrest & Hrun)
           |(pre & r & post & w2 & st2 & e & -> & Hrun & Hint & Hrest)].
      * left. exists w2, st2. split; [done|by econstructor].
      * right. exists (row :: pre), r, post, w2, st2, e.
        split; [done|]. split; [by econstructor|]. done.
    + right. exists [], row, rows, w, st, e.
      split; [done|]. split; [constructor|]. done.
Qed.

Lemma process_clusters_ok analyzer od rows st w w' st' :
  process_clusters analyzer od rows st w = (w', Ok st') ->
  items_run analyzer rows st w w' st'.
Proof.
  intros H.
  destruct (process_clusters_run analyzer od rows st w)
    as [(w1 & st1 & H1 & Hrun)|(pre & r & post & w1 & st1 & e & _ & _ & _ & H1)];
    rewrite H in H1; [|done].
  by injection H1 as <- <-.
Qed.

(** With an analyzer whose failures are [Exception]s the loop runs through
    the table. *)
Lemma process_clusters_total analyzer od rows st w :
  raises_exceptions analyzer ->
  exists w' st',
    process_clusters analyzer od rows st w = (w', Ok st') /\
    items_run analyzer rows st w w' st'.
Proof.
  intros Hexn.
  destruct (process_clusters_run analyzer od rows st w)
    as [H|(pre & r & post & w1 & st1 & e & _ & _ & (_ & Ha & He) & _)]; [done|].
  apply Hexn in Ha. congruence.
Qed.

(** ** Frame properties of an item step *)

Lemma cluster_lookup_made_dir w name :
  cluster_lookup (fs (made_dir w)) name = cluster_lookup (fs w) name.
Proof. unfold cluster_lookup. cbn. by destruct (fs_clusters (fs w)). Qed.

Lemma cluster_lookup_saved_ne w row dumped name :
  name <> cluster_file (row_id row) ->
  cluster_lookup (fs (saved_world w row dumped)) name = cluster_lookup (fs w) name.
Proof.
  intros Hne. unfold cluster_lookup. cbn.
  rewrite assoc_get_set_ne by done. by destruct (fs_clusters (fs w)).
Qed.

Lemma cluster_lookup_saved_eq w row dumped :
  cluster_lookup (fs (saved_world w row dumped)) (cluster_file (row_id row))
  = Some (Json (VDict (filed row dumped))).
Proof. unfold cluster_lookup. cbn. apply assoc_get_set_eq. Qed.

(** A step writes at most the file of its own item, and only when the item
    is not yet completed. *)
Lemma item_step_lookup analyzer row st w w' st' name :
  item_step analyzer row st w w' st' ->
  (completed st !! row_id row = None -> name <> cluster_file (row_id row)) ->
  cluster_lookup (fs w') name = cluster_lookup (fs w) name.
Proof.
  intros Hstep Hname. destruct Hstep; try done.
  - apply cluster_lookup_saved_ne. auto.
  - apply (cluster_lookup_made_dir (called w row)).
Qed.

Lemma item_step_top analyzer row st w w' st' :
  item_step analyzer row st w w' st' -> fs_top (fs w') = fs_top (fs w).
Proof. by intros []. Qed.

(** A completed id stays completed, with the same result. *)
Lemma item_step_completed analyzer row st w w' st' id :
  item_step analyzer row st w w' st' ->
  is_Some (completed st !! id) ->
  completed st' !! id = completed st !! id.
Proof.
  intros Hstep [v Hv]. destruct Hstep; try done.
  cbn. apply lookup_insert_ne. congruence.
Qed.

Lemma item_step_stable analyzer row st w w' st' id :
  item_step analyzer row st w w' st' ->
  is_Some (completed st !! id) ->
  completed st' !! id = completed st !! id /\
  cluster_lookup (fs w') (cluster_file id) = cluster_lookup (fs w) (cluster_file id).
Proof.
  intros Hstep Hid. split; [by eapply item_step_completed|].
  eapply item_step_lookup; [done|].
  intros Hnone Heq%cluster_file_inj. subst id.
  rewrite Hnone in Hid. by destruct Hid.
Qed.

Lemma items_run_stable analyzer rows st w w' st' id :
  items_run analyzer rows st w w' st' ->
  is_Some (completed st !! id) ->
  completed st' !! id = completed st !! id /\
  cluster_lookup (fs w') (cluster_file id) = cluster_lookup (fs w) (cluster_file id).
Proof.
  induction 1 as [|row rows st w w1 st1 w2 st2 Hstep Hrun IH]; [done|].
  intros Hid.
  destruct (item_step_stable _ _ _ _ _ _ id Hstep Hid) as [Hc Hl].
  destruct IH as [Hc' Hl']; [by rewrite Hc|].
  split; congruence.
Qed.

Lemma items_run_top analyzer rows st w w' st' :
  items_run analyzer rows st w w' st' -> fs_top (fs w') = fs_top (fs w).
Proof.
  induction 1 as [|row rows st w w1 st1 w2 st2 Hstep Hrun IH]; [done|].
  rewrite IH. by eapply item_step_top.
Qed.

Lemma assoc_get_filed row dumped :
  assoc_get "cluster_id" (filed row dumped) = Some (VStr (row_id row)).
Proof. apply assoc_get_set_eq. Qed.

(** What a step adds to the completed set is the item it saved. *)
Lemma item_step_new analyzer row st w w' st' id :
  item_step analyzer row st w w' st' ->
  completed st !! id = None ->
  is_Some (completed st' !! id) ->
  id = row_id row /\
  exists dumped,
    completed st' !! id = Some (VDict (filed row dumped)) /\
    cluster_lookup (fs w') (cluster_file id) = Some (Json (VDict (filed row dumped))).
Proof.
  intros Hstep Hnone [v Hv].
  destruct Hstep; cbn in *; try congruence.
  destruct (decide (row_id row = id)) as [<-|Hne].
  - split; [done|]. exists dumped. rewrite lookup_insert_eq.
    split; [done|]. apply cluster_lookup_saved_eq.
  - rewrite lookup_insert_ne in Hv by done. congruence.
Qed.

Lemma items_run_new analyzer rows st w w' st' id :
  items_run analyzer rows st w w' st' ->
  completed st !! id = None ->
  is_Some (completed st' !! id) ->
  exists row dumped,
    row ∈ rows /\ id = row_id row /\
    completed st' !! id = Some (VDict (filed row dumped)) /\
    cluster_lookup (fs w') (cluster_file id) = Some (Json (VDict (filed row dumped))).
Proof.
  induction 1 as [|row rows st w w1 st1 w2 st2 Hstep Hrun IH];
    intros Hnone Hsome.
  - rewrite Hnone in Hsome. by destruct Hsome.
  - assert (is_Some (completed st1 !! id) \/ completed st1 !! id = None)
      as [Hid|Hid] by (destruct (completed st1 !! id); eauto).
    + destruct (item_step_new _ _ _ _ _ _ id Hstep Hnone Hid)
        as (-> & d & Hc & Hl).
      destruct (items_run_stable _ _ _ _ _ _ (row_id row) Hrun Hid)
        as [Hc' Hl'].
      exists row, d. split; [apply list_elem_of_here|].
      split; [done|]. split; congruence.
    + destruct (IH Hid Hsome) as (r & d & Hin & -> & Hc & Hl).
      exists r, d. split; [by apply list_elem_of_further|]. done.
Qed.

(** ** The batch runner: failures and the id of a saved result *)

(** C1, as the code has it. A failure of the analyzer for an item that
    the loop attempts is either an exception that is an instance of
    [Exception], or a result without any cluster. The first is caught and
    logged: a line with the item's id and the text of the exception is
    printed. The second is dropped without a line. In both cases the
    output directory and the completed set are left as they were (no
    checkpoint is written) and the loop goes on with the next rows; and
    with an analyzer whose failures are [Exception]s the loop as a whole
    returns normally. *)
Theorem analyzer_failure_is_skipped_and_logged_when_raised
    (analyzer : Analyzer) (output_dir : string) (row : Row) (rest : list Row)
    (st : LoopState) (w : World) (failure : analysis) :
  completed st !! str (row_cluster_id row) = None ->
  analyzer (length (calls w)) row = failure ->
  failure = Returned [] \/
  (exists e, failure = Raised e /\ is_exception e = true) ->
  let lines :=
    match failure with
    | Raised e => ["Error analyzing cluster " +:+ str (row_cluster_id row)
                     +:+ ": " +:+ exn_str e]
    | Returned _ => []
    end in
  let w1 := {| fs := fs w; stdout := stdout w ++ lines;
               calls := calls w ++ [row] |} in
  process_cluster analyzer output_dir row st w = (w1, Ok st) /\
  process_clusters analyzer output_dir (row :: rest) st w
    = process_clusters analyzer output_dir rest st w1 /\
  (raises_exceptions analyzer ->
   exists w' st',
     process_clusters analyzer output_dir (row :: rest) st w = (w', Ok st')).
Proof.
  intros Hnone Hfail Hkind lines w1.
  assert (Hstep : process_cluster analyzer output_dir row st w = (w1, Ok st)).
  { rewrite process_cluster_eq. unfold row_id. rewrite Hnone, Hfail.
    destruct Hkind as [->|(e & -> & ->)].
    - unfold w1, lines, called. by rewrite app_nil_r.
    - done. }
  split; [done|]. split.
  - by rewrite process_clusters_cons, Hstep.
  - intros Hexn.
    destruct (process_clusters_total analyzer output_dir (row :: rest) st w Hexn)
      as (w' & st' & Hloop & _).
    by exists w', st'.
Qed.

Lemma analyzer_failure_witness :
  process_clusters Sample.failing Sample.output_dir
    [Sample.row 4; Sample.row 5] Sample.fresh (start Sample.empty_fs)
  = process_clusters Sample.failing Sample.output_dir
      [Sample.row 5] Sample.fresh
      {| fs := Sample.empty_fs;
         stdout := ["Error analyzing cluster 4: empty response"];
         calls := [Sample.row 4] |}.
Proof.
  apply (analyzer_failure_is_skipped_and_logged_when_raised Sample.failing
           Sample.output_dir (Sample.row 4) [Sample.row 5] Sample.fresh
           (start Sample.empty_fs)
           (Raised (Exn (OtherException "RuntimeError") "empty response"))).
  - reflexivity.
  - reflexivity.
  - right. by eexists.
Defined.

(** C1, as stated, fails for an empty response: with an analyzer whose
    result has no cluster, the loop attempts both rows of the table and
    returns, and nothing was printed; no line names an item or an error. *)
Lemma empty_response_leaves_no_log_line :
  process_clusters (fun _ _ => Returned []) Sample.output_dir
    [Sample.row 4; Sample.row 5] Sample.fresh (start Sample.empty_fs)
  = ({| fs := Sample.empty_fs; stdout := [];
        calls := [Sample.row 4; Sample.row 5] |}, Ok Sample.fresh).
Proof. reflexivity. Qed.

(** X25. An exception of the analyzer, for an item that the loop attempts.
    When it is an instance of [Exception], it is caught: a line with the
    item's id and the text of the exception is printed, the output
    directory and the completed set are left as they were (no checkpoint is
    written), and the loop goes on with the next rows. When it is not (a
    [KeyboardInterrupt], a [SystemExit]), it is not caught: nothing is
    printed or written, and the loop ends with it, the rows that follow
    unattempted. *)
Theorem analyzer_exception_is_logged_or_ends_the_loop
    (analyzer : Analyzer) (output_dir : string) (row : Row) (rest : list Row)
    (st : LoopState) (w : World) (e : exn) :
  completed st !! str (row_cluster_id row) = None ->
  analyzer (length (calls w)) row = Raised e ->
  let line := "Error analyzing cluster " +:+ str (row_cluster_id row)
                +:+ ": " +:+ exn_str e in
  let called := {| fs := fs w; stdout := stdout w;
                   calls := calls w ++ [row] |} in
  let w1 := {| fs := fs w; stdout := stdout w ++ [line];
               calls := calls w ++ [row] |} in
  if is_exception e then
    process_cluster analyzer output_dir row st w = (w1, Ok st) /\
    process_clusters analyzer output_dir (row :: rest) st w
      = process_clusters analyzer output_dir rest st w1
  else
    process_cluster analyzer output_dir row st w = (called, Raise e) /\
    process_clusters analyzer output_dir (row :: rest) st w
      = (called, Raise e).
Proof.
  intros Hnone Hraised line called0 w1.
  rewrite process_clusters_cons, process_cluster_eq.
  unfold row_id. rewrite Hnone, Hraised.
  by destruct (is_exception e).
Qed.

Lemma analyzer_exception_witness :
  let interrupting : Analyzer :=
    fun _ _ => Raised (Exn KeyboardInterrupt "") in
  process_clusters interrupting Sample.output_dir
    [Sample.row 4; Sample.row 5] Sample.fresh (start Sample.empty_fs)
  = ({| fs := Sample.empty_fs; stdout := []; calls := [Sample.row 4] |},
     Raise (Exn KeyboardInterrupt "")).
Proof.
  intros interrupting.
  apply (analyzer_exception_is_logged_or_ends_the_loop interrupting
           Sample.output_dir (Sample.row 4) [Sample.row 5] Sample.fresh
           (start Sample.empty_fs) (Exn KeyboardInterrupt ""));
    reflexivity.
Defined.

(** C3. Every result that the loop saves carries the id of its work item:
    for an id that enters the completed set during the loop, the file
    [cluster_<id>.json] holds a dictionary whose [cluster_id] is that id as
    a string, the id of one of the rows, and the completed set holds the
    same dictionary, whatever id the analyzer reported. *)
Theorem saved_result_carries_work_item_id
    (analyzer : Analyzer) (output_dir : string) (cluster_df : list Row)
    (st st' : LoopState) (w w' : World) (id : string) :
  process_clusters analyzer output_dir cluster_df st w = (w', Ok st') ->
  completed st !! id = None ->
  is_Some (completed st' !! id) ->
  exists row d,
    row ∈ cluster_df /\ id = str (row_cluster_id row) /\
    cluster_lookup (fs w') (cluster_file id) = Some (Json (VDict d)) /\
    assoc_get "cluster_id" d = Some (VStr id) /\
    completed st' !! id = Some (VDict d).
Proof.
  intros Hloop Hnone Hsome.
  pose proof (process_clusters_ok _ _ _ _ _ _ _ Hloop) as Hitems.
  destruct (items_run_new _ _ _ _ _ _ id Hitems Hnone Hsome)
    as (row & dumped & Hin & Hid & Hc & Hl).
  exists row, (filed row dumped). repeat split; try done.
  subst id. apply assoc_get_filed.
Qed.

Lemma saved_result_witness :
  exists row d,
    row ∈ [Sample.row 4] /\ "4" = str (row_cluster_id row) /\
    cluster_lookup
      (fs (saved_world (start Sample.empty_fs) (Sample.row 4) Sample.dumped))
      (cluster_file "4") = Some (Json (VDict d)) /\
    assoc_get "cluster_id" d = Some (VStr "4") /\
    completed (saved_state Sample.fresh (Sample.row 4) Sample.dumped) !! "4"
      = Some (VDict d).
Proof.
  apply (saved_result_carries_work_item_id Sample.succeeding Sample.output_dir
           [Sample.row 4] Sample.fresh _ (start Sample.empty_fs) _ "4").
  - vm_compute. reflexivity.
  - reflexivity.
  - vm_compute. eauto.
Defined.

(** ** The aggregation step reads [clusters] and writes two files *)

Lemma for_each_read {A S} (body : A -> S -> M S) (g : A -> S -> result S)
    (l : list A) (s : S) (w : World) :
  (forall x s, body x s w = (w, g x s)) ->
  for_each l body s w = (w, fold_result g l s).
Proof.
  intros Hbody. revert s. induction l as [|x l IH]; intros s; [done|].
  cbn. unfold bind. rewrite Hbody. destruct (g x s); [apply IH|done].
Qed.

Arguments path_join : simpl never.

Lemma json_load_eq od f w :
  json_load od f w =
    (w, match cluster_lookup (fs w) f with
        | Some (Json v) => Ok v
        | Some (Unloadable u) => Raise (unreadable_error u)
        | Some _ => Raise (Exn JSONDecodeError "Expecting value")
        | None =>
            Raise (Exn FileNotFoundError
                     ("[Errno 2] No such file or directory: "
                        +:+ PyRepr.repr_str
                              (path_join (path_join od "clusters") f)))
        end).
Proof.
  unfold json_load, bind, get_fs, cluster_lookup, ret, raise, lift.
  by destruct (fs_clusters (fs w) ≫= assoc_get f) as [[]|].
Qed.

Lemma combine_results_eq od m w :
  combine_results od m w =
    match fs_clusters (fs w) with
    | None =>
        (w, Raise (Exn FileNotFoundError
                     ("[Errno 2] No such file or directory: "
                        +:+ PyRepr.repr_str (path_join od "clusters"))))
    | Some dir =>
        let r := aggregate od m dir (fs_top (fs w)) in
        ({| fs := {| fs_clusters := Some dir; fs_top := r.1 |};
            stdout := stdout w; calls := calls w |}, r.2)
    end.
Proof.
  destruct w as [[[dir|] top] out cs]; [|done].
  unfold combine_results, aggregate, listdir_clusters.
  unfold bind at 1. unfold bind at 1. cbn [get_fs fs fs_clusters ret fs_top].
  unfold bind at 1, lift.
  destruct (sorted (map fst dir) sort_key) as [ordered|e]; [|done].
  unfold bind at 1.
  rewrite (for_each_read _ (read_document od dir)); last first.
  { intros f acc. unfold read_document.
    destruct (PyStr.endswith f ".json"); [|done].
    unfold bind. rewrite json_load_eq. unfold cluster_lookup. cbn.
    by destruct (assoc_get f dir) as [[]|]. }
  destruct (fold_result (read_document od dir) ordered []) as [rs|e]; [|done].
  unfold bind at 1, write_top at 1, bind at 1, get_fs, put_fs.
  cbn [fs fs_clusters fs_top stdout calls].
  unfold bind at 1.
  rewrite (for_each_read _ add_summary); last first.
  { intros r acc. unfold add_summary, bind, lift, ret.
    by destruct (summary_of r). }
  by destruct (fold_result add_summary rs []).
Qed.

(** ** The discovery of checkpoints reads [clusters] only *)

Lemma load_existing_results_eq od m w :
  load_existing_results od m w = (w, discover od (fs w)).
Proof.
  unfold load_existing_results, discover, bind at 1, get_fs.
  destruct (fs_clusters (fs w)) as [dir|] eqn:Hdir; [|done].
  apply for_each_read. intros f acc. unfold load_entry.
  destruct (PyStr.endswith f ".json"); [|done].
  unfold try_except, bind at 1. rewrite json_load_eq.
  unfold cluster_lookup. rewrite Hdir. cbn [mbind option_bind].
  destruct (assoc_get f dir) as [[data| | |[]]|]; try done.
  unfold bind, lift, get.
  destruct data as [| | | | | |d]; try done.
  cbn. by destruct (assoc_get "cluster_id" d) as [[]|].
Qed.

(** ** [main] step by step *)

Lemma main_eq args sd CA df w :
  main args sd CA df w =
    let od := path_join sd (args_output_dir args) in
    match discover od (fs w) with
    | Raise e => (w, Raise e)
    | Ok completed0 =>
        match process_clusters (CA (args_model args) (args_temperature args))
                od df {| completed := completed0; skipped := 0 |}
                (banner completed0 w) with
        | (wl, Raise e) => (wl, Raise e)
        | (wl, Ok st) =>
            match combine_results od (args_model args) (before_combine st wl) with
            | (wc, Raise e) => (wc, Raise e)
            | (wc, Ok paths) => (report od paths wc, Ok tt)
            end
        end
    end.
Proof.
  unfold main. cbv zeta. unfold bind at 1.
  rewrite load_existing_results_eq.
  destruct (discover _ (fs w)) as [completed0|e]; [|done].
  unfold bind at 1.
  assert (Hb : forall B (k : unit -> M B),
    (let (w', r) :=
       (if (0 <? size completed0)%nat
        then print ("Found " +:+ pretty (size completed0)
                      +:+ " previously completed clusters")
        else ret tt) w in
     match r with Ok a => k a w' | Raise e => (w', Raise e) end)
    = k tt (if (0 <? size completed0)%nat
            then logged w ("Found " +:+ pretty (size completed0)
                             +:+ " previously completed clusters")
            else w)).
  { intros B k. by destruct (0 <? size completed0)%nat. }
  rewrite Hb. clear Hb. unfold bind at 1. rewrite print_logged.
  fold (banner completed0 w). unfold bind at 1.
  destruct (process_clusters _ _ df _ (banner completed0 w)) as [wl [st|e]];
    [|done].
  unfold bind at 1.
  assert (Hs : forall B (k : unit -> M B),
    (let (w', r) :=
       (if (0 <? skipped st)%nat
        then print ("Skipped " +:+ pretty (skipped st)
                      +:+ " previously completed clusters")
        else ret tt) wl in
     match r with Ok a => k a w' | Raise e => (w', Raise e) end)
    = k tt (if (0 <? skipped st)%nat
            then logged wl ("Skipped " +:+ pretty (skipped st)
                              +:+ " previously completed clusters")
            else wl)).
  { intros B k. by destruct (0 <? skipped st)%nat. }
  rewrite Hs. clear Hs. unfold bind at 1. rewrite print_logged.
  fold (before_combine st wl). unfold bind at 1.
  by destruct (combine_results _ _ (before_combine st wl)) as [wc [paths|e]].
Qed.

(** ** The resume flag *)

(** C8. The run does not depend on the resume flag: with the flag set to
    any two values, and everything else the same (command line, table,
    analyzer, world), [main] ends in the same world with the same outcome. *)
Theorem resume_flag_has_no_effect
    (args : Args) (b1 b2 : bool) (script_dir : string)
    (ClusterAnalyzer : string -> string -> Analyzer)
    (cluster_df : list Row) (w : World) :
  main (with_resume b1 args) script_dir ClusterAnalyzer cluster_df w
  = main (with_resume b2 args) script_dir ClusterAnalyzer cluster_df w.
Proof. reflexivity. Qed.

(** ** Where the code aborts *)

(** C7. A file of [clusters] that holds a JSON document which is not an
    object (here a list) makes [load_existing_results] raise
    [AttributeError]: the [except] clause takes only [JSONDecodeError] and
    [KeyError]. *)
Theorem load_aborts_on_a_document_that_is_no_object
    (output_dir model_name : string) (l : list value) (dir top : directory)
    (out : list string) (cs : list Row) :
  let w := {| fs := {| fs_clusters :=
                         Some (("cluster_1.json", Json (VList l)) :: dir);
                       fs_top := top |};
              stdout := out; calls := cs |} in
  load_existing_results output_dir model_name w
  = (w, Raise (Exn AttributeError "object has no attribute 'get'")).
Proof. intros w. rewrite load_existing_results_eq. reflexivity. Qed.

(** C4. A name that starts with [cluster_] and has no integer after it makes
    the key of [sorted] raise [ValueError], so [combine_results] aborts and
    writes nothing; the loop itself produces such a name for a cluster id
    that is not a number, and the run then ends with that exception. *)
Theorem combine_aborts_on_a_name_without_a_number
    (output_dir model_name : string) (c : content) (top : directory)
    (out : list string) (cs : list Row) :
  sort_key "cluster_abc.json"
    = Raise (Exn ValueError "invalid literal for int() with base 10: 'abc'") /\
  (let w := {| fs := {| fs_clusters := Some [("cluster_abc.json", c)];
                        fs_top := top |};
               stdout := out; calls := cs |} in
   combine_results output_dir model_name w
   = (w, Raise (Exn ValueError
                  "invalid literal for int() with base 10: 'abc'"))) /\
  (exists w',
     main Sample.args "/work" (fun _ _ => Sample.succeeding)
       [Sample.row_named "abc"] (start Sample.empty_fs)
     = (w', Raise (Exn ValueError
                     "invalid literal for int() with base 10: 'abc'")) /\
     fs w' = {| fs_clusters :=
                  Some [("cluster_abc.json",
                         Json (VDict (filed (Sample.row_named "abc")
                                        Sample.dumped)))];
                fs_top := [] |}).
Proof.
  split; [reflexivity|]. split.
  - intros w. rewrite combine_results_eq. reflexivity.
  - eexists. split; [vm_compute; reflexivity|reflexivity].
Qed.

(** C2. A checkpoint that cannot be parsed is ignored by the discovery and
    its item is analyzed again; when that analysis fails the file stays,
    and [combine_results], which loads every file without a handler, raises
    [JSONDecodeError]: the run aborts in the aggregation step. *)
Theorem run_aborts_on_a_checkpoint_left_unparsable (text : string) :
  let f0 := {| fs_clusters := Some [("cluster_1.json", Raw text)];
               fs_top := [] |} in
  load_existing_results "/work/out" "org/model-1" (start f0)
    = (start f0, Ok ∅) /\
  exists w',
    main Sample.args "/work" (fun _ _ => Sample.failing)
      [Sample.row 1] (start f0)
    = (w', Raise (Exn JSONDecodeError "Expecting value")) /\
    calls w' = [Sample.row 1] /\
    fs w' = f0.
Proof.
  intros f0. split.
  - rewrite load_existing_results_eq. reflexivity.
  - eexists. split; [rewrite main_eq; reflexivity|].
    split; reflexivity.
Qed.

(** ** Which rows a run analyzes *)

Lemma pending_cons_None C row rows :
  C !! row_id row = None -> pending C (row :: rows) = row :: pending C rows.
Proof. intros H. unfold pending. by rewrite filter_cons_True. Qed.

Lemma pending_cons_Some C row rows :
  is_Some (C !! row_id row) -> pending C (row :: rows) = pending C rows.
Proof.
  intros [v H]. unfold pending. rewrite filter_cons_False; [done|]. congruence.
Qed.

Lemma done_before_cons_None C row rows :
  C !! row_id row = None -> done_before C (row :: rows) = done_before C rows.
Proof.
  intros H. unfold done_before. rewrite filter_cons_False; [done|].
  rewrite H. by intros [? ?].
Qed.

Lemma done_before_cons_Some C row rows :
  is_Some (C !! row_id row) ->
  done_before C (row :: rows) = row :: done_before C rows.
Proof. intros H. unfold done_before. by rewrite filter_cons_True. Qed.

Lemma pending_insert_fresh C id v rows :
  id ∉ map row_id rows ->
  pending (<[id := v]> C) rows = pending C rows.
Proof.
  induction rows as [|row rows IH]; [done|]. intros Hid. cbn in Hid.
  apply not_elem_of_cons in Hid as [Hne Hid].
  assert (Hl : <[id := v]> C !! row_id row = C !! row_id row)
    by (by apply lookup_insert_ne).
  destruct (C !! row_id row) as [x|] eqn:H.
  - rewrite !pending_cons_Some; [by apply IH|by rewrite H|by rewrite Hl].
  - rewrite !pending_cons_None by done. f_equal. by apply IH.
Qed.

Lemma done_before_insert_fresh C id v rows :
  id ∉ map row_id rows ->
  done_before (<[id := v]> C) rows = done_before C rows.
Proof.
  induction rows as [|row rows IH]; [done|]. intros Hid. cbn in Hid.
  apply not_elem_of_cons in Hid as [Hne Hid].
  assert (Hl : <[id := v]> C !! row_id row = C !! row_id row)
    by (by apply lookup_insert_ne).
  destruct (C !! row_id row) as [x|] eqn:H.
  - rewrite !done_before_cons_Some; [|by rewrite H|by rewrite Hl].
    f_equal. by apply IH.
  - rewrite !done_before_cons_None by done. by apply IH.
Qed.


(** With one row per id, the analyzer is called once for each row whose id
    is not in the checkpoint set, in the order of the table, and the rows
    found completed are counted as skipped. *)
Lemma items_run_calls analyzer rows st w w' st' :
  items_run analyzer rows st w w' st' ->
  NoDup (map row_id rows) ->
  calls w' = calls w ++ pending (completed st) rows /\
  skipped st' = skipped st + length (done_before (completed st) rows).
Proof.
  induction 1 as [|row rows st w w1 st1 w2 st2 Hstep Hrun IH]; intros Hnd.
  - unfold pending, done_before. cbn. by rewrite app_nil_r, Nat.add_0_r.
  - cbn in Hnd. apply NoDup_cons in Hnd as [Hrow Hnd].
    destruct (IH Hnd) as [IHc IHs]. rewrite IHc, IHs.
    destruct Hstep as [v Hv|k dumped rest Hn Ha Hc|e Hn Ha|Hn Ha|k dumped rest e Hn Ha Hc].
    + rewrite pending_cons_Some, done_before_cons_Some by (by rewrite Hv).
      cbn. split; [done|lia].
    + rewrite pending_cons_None, done_before_cons_None by done. cbn.
      rewrite pending_insert_fresh, done_before_insert_fresh by done.
      by rewrite <- app_assoc.
    + rewrite pending_cons_None, done_before_cons_None by done. cbn.
      by rewrite <- app_assoc.
    + rewrite pending_cons_None, done_before_cons_None by done. cbn.
      by rewrite <- app_assoc.
    + rewrite pending_cons_None, done_before_cons_None by done. cbn.
      by rewrite <- app_assoc.
Qed.

(** A run in which every row is found completed: no call, no write. *)
Lemma items_run_all_done analyzer rows st w w' st' :
  items_run analyzer rows st w w' st' ->
  Forall (fun row => is_Some (completed st !! row_id row)) rows ->
  w' = w /\ completed st' = completed st /\
  skipped st' = skipped st + length rows.
Proof.
  induction 1 as [|row rows st w w1 st1 w2 st2 Hstep Hrun IH]; intros Hall.
  - cbn. by rewrite Nat.add_0_r.
  - apply Forall_cons in Hall as [[v Hv] Hall].
    destruct Hstep; try congruence.
    destruct (IH Hall) as (-> & -> & ->). cbn. repeat split; lia.
Qed.

(** ** Frame properties of the aggregation step *)

Lemma aggregate_top_frame od m dir top name :
  name <> results_base m +:+ ".json" ->
  name <> results_base m +:+ "_summaries.tsv" ->
  assoc_get name (aggregate od m dir top).1 = assoc_get name top.
Proof.
  intros H1 H2. unfold aggregate.
  destruct (sorted _ _) as [ordered|e]; [|done].
  destruct (fold_result (read_document od dir) ordered []) as [rs|e]; [|done].
  cbv zeta.
  destruct (fold_result add_summary rs []) as [rows|e]; cbn.
  - by rewrite !assoc_get_set_ne.
  - by rewrite assoc_get_set_ne.
Qed.

(** Aggregating again over the same [clusters] changes nothing. *)
Lemma aggregate_again od m dir top top' paths :
  aggregate od m dir top = (top', Ok paths) ->
  aggregate od m dir top' = (top', Ok paths).
Proof.
  unfold aggregate.
  destruct (sorted _ _) as [ordered|e]; [|done].
  destruct (fold_result (read_document od dir) ordered []) as [rs|e]; [|done].
  cbv zeta.
  destruct (fold_result add_summary rs []) as [rows|e]; [|done].
  intros H. injection H as <- <-. f_equal.
  rewrite (assoc_set_id (results_base m +:+ ".json")).
  - apply assoc_set_id, assoc_get_set_eq.
  - rewrite assoc_get_set_ne by (symmetry; apply aggregate_names_ne).
    apply assoc_get_set_eq.
Qed.

Lemma combine_results_frame od m w w' r :
  combine_results od m w = (w', r) ->
  fs_clusters (fs w') = fs_clusters (fs w) /\
  stdout w' = stdout w /\ calls w' = calls w /\
  forall name,
    name <> results_base m +:+ ".json" ->
    name <> results_base m +:+ "_summaries.tsv" ->
    assoc_get name (fs_top (fs w')) = assoc_get name (fs_top (fs w)).
Proof.
  rewrite combine_results_eq.
  destruct (fs_clusters (fs w)) as [dir|] eqn:Hdir.
  - intros H. injection H as <- <-. cbn. repeat split; try done.
    intros name H1 H2. by apply aggregate_top_frame.
  - intros H. injection H as <- <-. by rewrite Hdir.
Qed.

Lemma item_step_None analyzer row st w w' st' id :
  item_step analyzer row st w w' st' ->
  completed st' !! id = None -> completed st !! id = None.
Proof.
  intros Hstep Hnone.
  destruct (completed st !! id) as [v|] eqn:Hid; [|done].
  rewrite <- Hnone. symmetry. rewrite <- Hid.
  eapply item_step_completed; [done|]. by rewrite Hid.
Qed.

(** A run writes only files of the rows it does not find completed. *)
Lemma items_run_lookup analyzer rows st w w' st' name :
  items_run analyzer rows st w w' st' ->
  (forall row, row ∈ rows -> completed st !! row_id row = None ->
               name <> cluster_file (row_id row)) ->
  cluster_lookup (fs w') name = cluster_lookup (fs w) name.
Proof.
  induction 1 as [|row rows st w w1 st1 w2 st2 Hstep Hrun IH]; [done|].
  intros Hname. rewrite IH.
  - eapply item_step_lookup; [done|]. apply Hname, list_elem_of_here.
  - intros r Hr Hnone. apply Hname; [by apply list_elem_of_further|].
    by eapply item_step_None.
Qed.

Arguments banner : simpl never.
Arguments before_combine : simpl never.
Arguments report : simpl never.

Lemma fs_report od paths w : fs (report od paths w) = fs w.
Proof. reflexivity. Qed.

Lemma calls_report od paths w : calls (report od paths w) = calls w.
Proof. reflexivity. Qed.

Lemma fs_banner C w : fs (banner C w) = fs w.
Proof. unfold banner. by destruct (0 <? size C)%nat. Qed.

Lemma calls_banner C w : calls (banner C w) = calls w.
Proof. unfold banner. by destruct (0 <? size C)%nat. Qed.

Lemma fs_before_combine st w : fs (before_combine st w) = fs w.
Proof. unfold before_combine. by destruct (0 <? skipped st)%nat. Qed.

Lemma calls_before_combine st w : calls (before_combine st w) = calls w.
Proof. unfold before_combine. by destruct (0 <? skipped st)%nat. Qed.

(** [main] after a successful discovery: the loop as a chain of item
    steps, then the aggregation; or the loop interrupted at a row. *)
Lemma main_run args sd CA df w C0 :
  discover (path_join sd (args_output_dir args)) (fs w) = Ok C0 ->
  (exists wl st wc rc,
     items_run (CA (args_model args) (args_temperature args)) df
       {| completed := C0; skipped := 0 |} (banner C0 w) wl st /\
     combine_results (path_join sd (args_output_dir args)) (args_model args)
       (before_combine st wl) = (wc, rc) /\
     main args sd CA df w =
       match rc with
       | Ok paths =>
           (report (path_join sd (args_output_dir args)) paths wc, Ok tt)
       | Raise e => (wc, Raise e)
       end) \/
  (exists pre row post w1 st1 e,
     df = pre ++ row :: post /\
     items_run (CA (args_model args) (args_temperature args)) pre
       {| completed := C0; skipped := 0 |} (banner C0 w) w1 st1 /\
     interrupted (CA (args_model args) (args_temperature args)) row st1 w1 e /\
     main args sd CA df w = (called w1 row, Raise e)).
Proof.
  intros Hd. rewrite main_eq. cbv zeta. rewrite Hd.
  destruct (process_clusters_run (CA (args_model args) (args_temperature args))
              (path_join sd (args_output_dir args)) df
              {| completed := C0; skipped := 0 |} (banner C0 w))
    as [(wl & st & Hloop & Hrun)
       |(pre & row & post & w1 & st1 & e & Hdf & Hrun & Hint & Hloop)];
    rewrite Hloop.
  - left.
    destruct (combine_results _ _ (before_combine st wl)) as [wc rc] eqn:Hc.
    exists wl, st, wc, rc. by destruct rc.
  - right. by exists pre, row, post, w1, st1, e.
Qed.

(** With an analyzer whose failures are [Exception]s, or when [main] does
    not end with an exception that is no [Exception], the loop ran through
    the table. *)
Lemma main_run_through args sd CA df w C0 w' r :
  discover (path_join sd (args_output_dir args)) (fs w) = Ok C0 ->
  main args sd CA df w = (w', r) ->
  raises_exceptions (CA (args_model args) (args_temperature args)) \/
  (forall e, r = Raise e -> is_exception e = true) ->
  exists wl st wc rc,
    items_run (CA (args_model args) (args_temperature args)) df
      {| completed := C0; skipped := 0 |} (banner C0 w) wl st /\
    combine_results (path_join sd (args_output_dir args)) (args_model args)
      (before_combine st wl) = (wc, rc) /\
    (w', r) =
      match rc with
      | Ok paths =>
          (report (path_join sd (args_output_dir args)) paths wc, Ok tt)
      | Raise e => (wc, Raise e)
      end.
Proof.
  intros Hd Hmain Hexn.
  destruct (main_run args sd CA df w C0 Hd)
    as [(wl & st & wc & rc & Hrun & Hcomb & Hm)
       |(pre & row & post & w1 & st1 & e & _ & _ & (_ & Ha & He) & Hm)];
    rewrite Hmain in Hm.
  - by exists wl, st, wc, rc.
  - exfalso. injection Hm as _ ->. destruct Hexn as [Hexn|Hexn].
    + apply Hexn in Ha. congruence.
    + rewrite (Hexn e eq_refl) in He. done.
Qed.

Lemma items_run_None analyzer rows st w w' st' id :
  items_run analyzer rows st w w' st' ->
  completed st' !! id = None -> completed st !! id = None.
Proof.
  induction 1 as [|row rows st w w1 st1 w2 st2 Hstep Hrun IH]; [done|].
  intros H. eapply item_step_None; [done|]. by apply IH.
Qed.

Lemma pending_app C pre post :
  pending C (pre ++ post) = pending C pre ++ pending C post.
Proof. unfold pending. apply filter_app. Qed.

(** ** Resuming *)

(** A run that finds the checkpoint set [C], over a table with one row per
    id: the calls it makes and the files it leaves alone. The calls are
    the rows that are not in [C], in order, up to the row at which the run
    is interrupted, if it is. *)
Lemma main_calls_and_frame args sd CA df f C w' r :
  discover (path_join sd (args_output_dir args)) f = Ok C ->
  NoDup (map row_id df) ->
  main args sd CA df (start f) = (w', r) ->
  calls w' `prefix_of` pending C df /\
  ((forall e, r = Raise e -> is_exception e = true) ->
   calls w' = pending C df) /\
  forall name,
    (forall row, row ∈ pending C df -> name <> cluster_file (row_id row)) ->
    cluster_lookup (fs w') name = cluster_lookup f name.
Proof.
  intros Hd Hnd Hmain.
  destruct (main_run args sd CA df (start f) C Hd)
    as [(wl & st & wc & rc & Hrun & Hcomb & Hm)
       |(pre & row & post & w1 & st1 & e & Hdf & Hrun & (Hn & Ha & He) & Hm)];
    rewrite Hmain in Hm.
  - destruct (combine_results_frame _ _ _ _ _ Hcomb) as (Hcl & _ & Hcalls & _).
    rewrite fs_before_combine in Hcl. rewrite calls_before_combine in Hcalls.
    assert (Hw' : fs_clusters (fs w') = fs_clusters (fs wl) /\
                  calls w' = calls wl).
    { destruct rc; injection Hm as -> _; by cbn. }
    destruct Hw' as [Hfs' Hcalls'].
    destruct (items_run_calls _ _ _ _ _ _ Hrun Hnd) as [Hc _].
    rewrite calls_banner in Hc. cbn in Hc.
    assert (Heq : calls w' = pending C df) by (by rewrite Hcalls', Hc).
    split; [by rewrite Heq|]. split; [done|].
    intros name Hname. unfold cluster_lookup at 1. rewrite Hfs'.
    fold (cluster_lookup (fs wl) name).
    rewrite (items_run_lookup _ _ _ _ _ _ name Hrun).
    + by rewrite fs_banner.
    + intros row Hin Hnone. apply Hname.
      unfold pending. apply list_elem_of_filter. by split.
  - injection Hm as -> ->. subst df.
    assert (Hnd' : NoDup (map row_id pre)).
    { rewrite map_app in Hnd. by apply NoDup_app in Hnd as [? _]. }
    destruct (items_run_calls _ _ _ _ _ _ Hrun Hnd') as [Hc _].
    rewrite calls_banner in Hc. cbn in Hc.
    pose proof (items_run_None _ _ _ _ _ _ _ Hrun Hn) as Hn0. cbn in Hn0.
    rewrite pending_app, pending_cons_None by done.
    split; [|split].
    + cbn. rewrite Hc. exists (pending C post).
      by rewrite <- app_assoc.
    + intros Hexn. rewrite (Hexn e eq_refl) in He. done.
    + intros name Hname. change (fs (called w1 row)) with (fs w1).
      rewrite (items_run_lookup _ _ _ _ _ _ name Hrun).
      * by rewrite fs_banner.
      * intros r Hin Hnone. apply Hname.
        apply elem_of_app. left. unfold pending.
        apply list_elem_of_filter. by split.
Qed.



(** ** Running twice *)

(** What a run that completed went through. *)
Lemma main_ok_inv args sd CA df f0 w1 :
  main args sd CA df (start f0) = (w1, Ok tt) ->
  exists C0 wl st dir paths,
    discover (path_join sd (args_output_dir args)) f0 = Ok C0 /\
    items_run (CA (args_model args) (args_temperature args)) df
      {| completed := C0; skipped := 0 |} (banner C0 (start f0)) wl st /\
    fs_clusters (fs wl) = Some dir /\
    fs_clusters (fs w1) = Some dir /\
    aggregate (path_join sd (args_output_dir args)) (args_model args) dir
      (fs_top (fs wl)) = (fs_top (fs w1), Ok paths).
Proof.
  intros Hmain. set (od := path_join sd (args_output_dir args)) in *.
  assert (exists C0, discover od (fs (start f0)) = Ok C0) as [C0 Hd0].
  { rewrite main_eq in Hmain. cbv zeta in Hmain. fold od in Hmain.
    destruct (discover od (fs (start f0))); [by eexists|done]. }
  destruct (main_run_through args sd CA df (start f0) C0 _ _ Hd0 Hmain)
    as (wl & st & wc & rc & Hrun & Hcomb & Hm); [by right|].
  destruct rc as [paths|e]; [|done].
  injection Hm as ->. fold od in Hcomb.
  rewrite combine_results_eq, fs_before_combine in Hcomb.
  destruct (fs_clusters (fs wl)) as [dir|] eqn:Hdir; [|done].
  cbv zeta in Hcomb.
  destruct (aggregate od (args_model args) dir (fs_top (fs wl)))
    as [top' ra] eqn:Hagg.
  cbn [fst snd] in Hcomb. injection Hcomb as <- ->.
  exists C0, wl, st, dir, paths. rewrite fs_report. by cbn.
Qed.

(** A run over a table whose rows are all found completed, on a directory
    that already holds the aggregate files of its checkpoints. *)
Lemma rerun_on_completed args sd CA df f1 C1 dir paths :
  discover (path_join sd (args_output_dir args)) f1 = Ok C1 ->
  Forall (fun row => is_Some (C1 !! row_id row)) df ->
  fs_clusters f1 = Some dir ->
  aggregate (path_join sd (args_output_dir args)) (args_model args) dir
    (fs_top f1) = (fs_top f1, Ok paths) ->
  exists w2,
    main args sd CA df (start f1) = (w2, Ok tt) /\
    calls w2 = [] /\
    fs w2 = f1 /\
    (df <> [] -> skipped_line (length df) ∈ stdout w2).
Proof.
  intros Hd1 Hall Hdir Hagg.
  set (od := path_join sd (args_output_dir args)) in *.
  destruct (main_run args sd CA df (start f1) C1 Hd1)
    as [(wl2 & st2 & wc2 & rc2 & Hrun2 & Hcomb2 & Hm2)
       |(pre & row & post & w1 & st1 & e & Hdf & Hrun & (Hn & _) & _)];
    last first.
  { exfalso. subst df. apply Forall_app in Hall as [_ Hall].
    apply Forall_cons in Hall as [Hrow _].
    destruct (items_run_stable _ _ _ _ _ _ (row_id row) Hrun Hrow) as [Hc _].
    rewrite Hn in Hc. cbn in Hc. rewrite <- Hc in Hrow. by destruct Hrow. }
  destruct (items_run_all_done _ _ _ _ _ _ Hrun2 Hall) as (-> & _ & Hsk).
  cbn [skipped Nat.add] in Hsk. fold od in Hcomb2.
  rewrite combine_results_eq, fs_before_combine, fs_banner in Hcomb2.
  cbn [fs start] in Hcomb2. rewrite Hdir in Hcomb2. cbv zeta in Hcomb2.
  rewrite Hagg in Hcomb2. cbn [fst snd] in Hcomb2.
  injection Hcomb2 as <- <-.
  eexists. split; [exact Hm2|]. fold od.
  split; [|split].
  - rewrite calls_report. cbn [calls].
    destruct (0 <? skipped st2)%nat; apply (calls_banner C1 (start f1)).
  - rewrite fs_report. cbn [fs]. destruct f1 as [c t]. cbn in *. by subst c.
  - intros Hne. unfold report, logged at 1 2 3 4. cbn [stdout].
    rewrite Hsk.
    destruct df as [|row rows]; [done|].
    cbn [length Nat.add Nat.ltb Nat.leb]. unfold logged at 1. cbn [stdout].
    rewrite !elem_of_app. do 5 left. right. apply list_elem_of_here.
Qed.

(** C6, as the code has it. After a first run that completed, a second run
    over the same table, in which the discovery finds every row's id,
    completes too, calls the analyzer not once, reports every row as
    skipped, and leaves the output directory as the first run left it:
    the checkpoints, the combined report and the summaries. *)
Theorem second_run_skips_every_checkpointed_item
    (args : Args) (script_dir : string)
    (ClusterAnalyzer ClusterAnalyzer' : string -> string -> Analyzer)
    (cluster_df : list Row) (f0 : FS) (w1 : World)
    (C1 : gmap string value) :
  main args script_dir ClusterAnalyzer cluster_df (start f0) = (w1, Ok tt) ->
  load_existing_results (path_join script_dir (args_output_dir args))
    (args_model args) (start (fs w1)) = (start (fs w1), Ok C1) ->
  Forall (fun row => is_Some (C1 !! row_id row)) cluster_df ->
  exists w2,
    main args script_dir ClusterAnalyzer' cluster_df (start (fs w1))
      = (w2, Ok tt) /\
    calls w2 = [] /\
    fs w2 = fs w1 /\
    (cluster_df <> [] -> skipped_line (length cluster_df) ∈ stdout w2).
Proof.
  intros Hmain1 Hload Hall.
  destruct (main_ok_inv _ _ _ _ _ _ Hmain1)
    as (C0 & wl & st & dir & paths & _ & _ & _ & Hdir & Hagg).
  rewrite load_existing_results_eq in Hload. injection Hload as Hd1.
  cbn [fs start] in Hd1.
  apply (rerun_on_completed args script_dir ClusterAnalyzer' cluster_df
           (fs w1) C1 dir paths); [done..|].
  by apply (aggregate_again _ _ _ (fs_top (fs wl))).
Qed.

Lemma second_run_witness :
  exists w2,
    main Sample.args "/work" (fun _ _ => Sample.failing) Sample.table
      (start (fs Sample.first_run.1)) = (w2, Ok tt) /\
    calls w2 = [] /\
    fs w2 = fs Sample.first_run.1 /\
    (Sample.table <> [] -> skipped_line (length Sample.table) ∈ stdout w2).
Proof.
  apply (second_run_skips_every_checkpointed_item Sample.args "/work"
           (fun _ _ => Sample.succeeding) (fun _ _ => Sample.failing)
           Sample.table Sample.empty_fs Sample.first_run.1
           (<["1" := VDict (filed (Sample.row 1) Sample.dumped)]>
              (<["2" := VDict (filed (Sample.row 2) Sample.dumped)]> ∅))).
  - vm_compute. reflexivity.
  - vm_compute. reflexivity.
  - repeat constructor; vm_compute; eauto.
Defined.

(** C6, as stated, fails after a first run in which an analysis failed:
    the first run completes with one checkpoint; the second run, on the
    directory it left and over the same table, calls the analyzer for the
    row that failed, and the output directory changes. *)
Lemma second_run_analyzes_the_failed_item :
  exists w1 w2,
    Sample.first_run_flaky = (w1, Ok tt) /\
    main Sample.args "/work" (fun _ _ => Sample.succeeding) Sample.table
      (start (fs w1)) = (w2, Ok tt) /\
    calls w2 = [Sample.row 1] /\
    fs w2 <> fs w1.
Proof.
  eexists _, _. split; [vm_compute; reflexivity|].
  split; [vm_compute; reflexivity|].
  split; [reflexivity|].
  intros H. apply (f_equal (fun f => length <$> fs_clusters f)) in H.
  vm_compute in H. discriminate.
Qed.

(** ** The order of the aggregation *)

Lemma insert_by_key_perm x l : insert_by_key x l ≡ₚ x :: l.
Proof.
  induction l as [|y l IH]; [done|]. cbn.
  destruct (x.1 <=? y.1)%Z; [done|]. rewrite IH. apply Permutation_swap.
Qed.

Lemma sort_by_key_perm l : sort_by_key l ≡ₚ l.
Proof.
  induction l as [|x l IH]; [done|]. cbn.
  rewrite insert_by_key_perm. by rewrite IH.
Qed.

Lemma insert_by_key_sorted x l :
  Sorted (fun a b : Z * string => (a.1 <= b.1)%Z) l ->
  Sorted (fun a b : Z * string => (a.1 <= b.1)%Z) (insert_by_key x l).
Proof.
  induction 1 as [|y l Hs IH Hhd].
  - cbn. by repeat constructor.
  - cbn. destruct (x.1 <=? y.1)%Z eqn:Hle.
    + apply Z.leb_le in Hle. by repeat constructor.
    + apply Z.leb_gt in Hle. constructor; [done|].
      destruct Hhd as [|z l' Hyz]; cbn.
      * constructor. lia.
      * destruct (x.1 <=? z.1)%Z; constructor; lia.
Qed.

Lemma sort_by_key_sorted l :
  Sorted (fun a b : Z * string => (a.1 <= b.1)%Z) (sort_by_key l).
Proof.
  induction l as [|x l IH]; [constructor|]. cbn. by apply insert_by_key_sorted.
Qed.

Lemma keyed_inv key l kl :
  keyed key l = Ok kl ->
  map snd kl = l /\ Forall (fun p => key p.2 = Ok p.1) kl.
Proof.
  revert kl. induction l as [|x l IH]; intros kl; cbn.
  - intros H. injection H as <-. by split.
  - destruct (key x) as [k|e] eqn:Hk; [|done].
    destruct (keyed key l) as [kl'|e]; [|done].
    intros H. injection H as <-. destruct (IH kl' eq_refl) as [Hm Hf].
    split; [cbn; by rewrite Hm|]. by constructor.
Qed.

Lemma keyed_ok l :
  Forall (fun name => sortable name = true) l ->
  exists kl, keyed sort_key l = Ok kl.
Proof.
  induction 1 as [|x l Hx Hl [kl IH]]; [by eexists|]. cbn.
  unfold sortable in Hx. destruct (sort_key x); [|done].
  rewrite IH. by eexists.
Qed.

(** When [sorted] returns, the names come back in the order of their keys:
    a permutation of the listing whose keys do not decrease. *)
Lemma sorted_ordered l ordered :
  sorted l sort_key = Ok ordered ->
  ordered ≡ₚ l /\
  exists kl,
    map snd kl = ordered /\
    Forall (fun p => sort_key p.2 = Ok p.1) kl /\
    Sorted (fun a b : Z * string => (a.1 <= b.1)%Z) kl.
Proof.
  unfold sorted. destruct (keyed sort_key l) as [kl|e] eqn:Hk; [|done].
  intros H. injection H as <-.
  destruct (keyed_inv _ _ _ Hk) as [Hm Hf]. split.
  - rewrite <- Hm. apply fmap_Permutation, sort_by_key_perm.
  - exists (sort_by_key kl). split; [done|]. split.
    + by rewrite sort_by_key_perm.
    + apply sort_by_key_sorted.
Qed.

Lemma sorted_ok l :
  Forall (fun name => sortable name = true) l ->
  exists ordered, sorted l sort_key = Ok ordered.
Proof.
  intros [kl Hk]%keyed_ok. unfold sorted. rewrite Hk. by eexists.
Qed.

(** A name that does not start with [cluster_] sorts as 0. *)
Lemma sort_key_other name :
  PyStr.startswith name "cluster_" = false -> sort_key name = Ok 0%Z.
Proof. unfold sort_key. by intros ->. Qed.

(** ** The summaries *)

Lemma is_result_dict c :
  is_result c = true -> exists d, c = Json (VDict d).
Proof. destruct c as [[]| | |]; try done. by eexists. Qed.

Lemma len_member d k :
  list_or_absent d k = true ->
  len (from_option id (VList []) (assoc_get k d)) = Ok (member_count d k).
Proof.
  unfold list_or_absent, member_count.
  by destruct (assoc_get k d) as [[]|].
Qed.

(** On a persisted result the code computes the row of the specification. *)
Lemma summary_of_result d :
  is_result (Json (VDict d)) = true ->
  summary_of (VDict d) = Ok (row_of_result d).
Proof.
  cbn [is_result]. intros [[H1 H2]%andb_true_iff H3]%andb_true_iff.
  unfold summary_of, get. rewrite !len_member by done. reflexivity.
Qed.

Lemma add_summaries ds acc :
  Forall (fun d => is_result (Json (VDict d)) = true) ds ->
  fold_result add_summary (map VDict ds) acc
  = Ok (acc ++ map row_of_result ds).
Proof.
  intros Hall. revert acc.
  induction Hall as [|d ds Hd Hds IH]; intros acc; cbn.
  - by rewrite app_nil_r.
  - unfold add_summary at 1. rewrite summary_of_result by done.
    rewrite IH. by rewrite <- app_assoc.
Qed.

Lemma omap_cons {A B} (f : A -> option B) (x : A) (l : list A) :
  omap f (x :: l)
  = match f x with Some y => y :: omap f l | None => omap f l end.
Proof. reflexivity. Qed.

Lemma read_documents od dir l acc :
  Forall (fun f => PyStr.endswith f ".json" = true ->
                   exists d, assoc_get f dir = Some (Json (VDict d))) l ->
  fold_result (read_document od dir) l acc
  = Ok (acc ++ map VDict (omap (dict_of dir) l)).
Proof.
  intros Hall. revert acc.
  induction Hall as [|f l Hf Hl IH]; intros acc; cbn.
  - by rewrite app_nil_r.
  - unfold read_document at 1, dict_of at 1.
    destruct (PyStr.endswith f ".json") eqn:He.
    + destruct (Hf eq_refl) as [d ->]. rewrite IH. cbn.
      by rewrite <- app_assoc.
    + apply IH.
Qed.

(** The dictionaries read over the whole listing are the contents of the
    files that end in [.json]. *)
Lemma dicts_of_listing dir sub :
  NoDup (map fst dir) ->
  sub ⊆ dir ->
  Forall (fun e => is_json_file e = true -> is_result e.2 = true) sub ->
  map (fun d => Json (VDict d)) (omap (dict_of dir) (map fst sub))
  = map snd (filter (fun e => Is_true (is_json_file e)) sub).
Proof.
  intros Hnd Hsub Hall. induction Hall as [|[n c] sub He Hs IH]; [done|].
  assert (Hin : (n, c) ∈ dir) by (apply Hsub, list_elem_of_here).
  assert (Hsub' : sub ⊆ dir).
  { intros x Hx. by apply Hsub, list_elem_of_further. }
  cbn [map fst]. rewrite omap_cons. unfold dict_of at 1.
  rewrite (assoc_get_NoDup n c dir Hnd Hin).
  unfold is_json_file in He. cbn [fst snd] in He.
  destruct (PyStr.endswith n ".json") eqn:Hend.
  - destruct (is_result_dict c (He eq_refl)) as [d ->].
    rewrite filter_cons_True
      by (unfold is_json_file; cbn [fst]; by rewrite Hend).
    cbn [map snd]. f_equal. by apply IH.
  - rewrite filter_cons_False
      by (unfold is_json_file; cbn [fst]; rewrite Hend; intros []).
    by apply IH.
Qed.

Lemma dicts_are_results dir (l : list string) d :
  NoDup (map fst dir) ->
  Forall (fun e => is_json_file e = true -> is_result e.2 = true) dir ->
  d ∈ omap (dict_of dir) l ->
  is_result (Json (VDict d)) = true.
Proof.
  intros Hnd Hall (f & Hf & Hd)%list_elem_of_omap.
  unfold dict_of in Hd.
  destruct (PyStr.endswith f ".json") eqn:Hend; [|done].
  destruct (assoc_get f dir) as [[[]| | |]|] eqn:Hg; try done.
  injection Hd as ->. apply assoc_get_Some_elem in Hg.
  rewrite Forall_forall in Hall. apply (Hall _ Hg).
  unfold is_json_file. by cbn.
Qed.

Lemma listing_readable dir (l : list string) :
  NoDup (map fst dir) ->
  Forall (fun e => is_json_file e = true -> is_result e.2 = true) dir ->
  l ⊆ map fst dir ->
  Forall (fun f => PyStr.endswith f ".json" = true ->
                   exists d, assoc_get f dir = Some (Json (VDict d))) l.
Proof.
  intros Hnd Hall Hl. apply Forall_forall. intros f Hf Hend.
  apply Hl in Hf. apply list_elem_of_fmap in Hf as ([n c] & -> & Hin).
  cbn in *. rewrite Forall_forall in Hall.
  destruct (is_result_dict c) as [d ->].
  { apply (Hall _ Hin). unfold is_json_file. by cbn. }
  exists d. by apply assoc_get_NoDup.
Qed.

(** X24. Over a checkpoint directory whose [.json] files are persisted
    results (dictionaries whose member lists are lists or absent) and whose
    names all have a sort key, the aggregation step returns normally; the
    summaries it writes have one row per persisted result, [k] rows for [k]
    results, and the three counts of a row are the lengths of the three
    member lists of its result, 0 for a list that is absent. *)
Theorem summary_rows_when_every_name_has_a_key
    (output_dir model_name : string) (w : World) (dir : directory) :
  fs_clusters (fs w) = Some dir ->
  NoDup (map fst dir) ->
  Forall (fun e => sortable e.1 = true) dir ->
  Forall (fun e => is_json_file e = true -> is_result e.2 = true) dir ->
  exists w' paths results rows,
    combine_results output_dir model_name w = (w', Ok paths) /\
    assoc_get (results_base model_name +:+ "_summaries.tsv") (fs_top (fs w'))
      = Some (Tsv rows) /\
    map (fun d => Json (VDict d)) results
      ≡ₚ map snd (filter (fun e => Is_true (is_json_file e)) dir) /\
    length rows = length (filter (fun e => Is_true (is_json_file e)) dir) /\
    Forall2
      (fun d row =>
         s_num_established row = member_count d "established_genes" /\
         s_num_novel row = member_count d "novel_role_genes" /\
         s_num_uncharacterized row = member_count d "uncharacterized_genes" /\
         s_cluster_id row = field d "cluster_id")
      results rows /\
    (forall d k, assoc_get k d = None -> member_count d k = 0) /\
    (forall d k l, assoc_get k d = Some (VList l) -> member_count d k = length l).
Proof.
  intros Hdir Hnd Hsort Hres.
  assert (Hnames : Forall (fun name => sortable name = true) (map fst dir)).
  { apply Forall_fmap. by eapply Forall_impl; [exact Hsort|]. }
  destruct (sorted_ok _ Hnames) as [ordered Hordered].
  destruct (sorted_ordered _ _ Hordered) as [Hperm _].
  set (results := omap (dict_of dir) ordered).
  assert (Hread : fold_result (read_document output_dir dir) ordered []
                  = Ok (map VDict results)).
  { rewrite read_documents; [done|]. apply listing_readable; [done..|].
    intros f Hf. by rewrite <- Hperm. }
  assert (Hsum : fold_result add_summary (map VDict results) []
                 = Ok (map row_of_result results)).
  { rewrite add_summaries; [done|]. apply Forall_forall. intros d Hd.
    by eapply dicts_are_results. }
  assert (Hfiles : map (fun d => Json (VDict d)) results
                   ≡ₚ map snd (filter (fun e => Is_true (is_json_file e)) dir)).
  { rewrite <- (dicts_of_listing dir dir) by done.
    apply fmap_Permutation. unfold results. by rewrite Hperm. }
  rewrite combine_results_eq, Hdir. unfold aggregate.
  rewrite Hordered, Hread. cbv zeta. rewrite Hsum. cbn [fst snd].
  eexists _, _, results, (map row_of_result results).
  split; [reflexivity|]. cbn [fs fs_top].
  split; [apply assoc_get_set_eq|]. split; [exact Hfiles|]. split.
  - rewrite length_map. rewrite <- (length_map (fun d => Json (VDict d))).
    rewrite (Permutation_length Hfiles). by rewrite length_map.
  - split; [|split].
    + apply Forall2_fmap_r, Forall_Forall2_diag, Forall_forall.
      by intros d _.
    + intros d k H. unfold member_count. by rewrite H.
    + intros d k l H. unfold member_count. by rewrite H.
Qed.

Lemma summary_rows_witness :
  let dir := [("cluster_10.json",
               Json (VDict [("cluster_id", VStr "10");
                            ("established_genes", VList [VStr "A"; VStr "B"])]));
              ("notes.txt", Raw "not a checkpoint");
              ("cluster_2.json", Json (VDict (filed (Sample.row 2) Sample.dumped)))] in
  exists w' paths results rows,
    combine_results Sample.output_dir "org/model-1"
      (start {| fs_clusters := Some dir; fs_top := [] |}) = (w', Ok paths) /\
    assoc_get (results_base "org/model-1" +:+ "_summaries.tsv") (fs_top (fs w'))
      = Some (Tsv rows) /\
    map (fun d => Json (VDict d)) results
      ≡ₚ map snd (filter (fun e => Is_true (is_json_file e)) dir) /\
    length rows = length (filter (fun e => Is_true (is_json_file e)) dir) /\
    Forall2
      (fun d row =>
         s_num_established row = member_count d "established_genes" /\
         s_num_novel row = member_count d "novel_role_genes" /\
         s_num_uncharacterized row = member_count d "uncharacterized_genes" /\
         s_cluster_id row = field d "cluster_id")
      results rows /\
    (forall d k, assoc_get k d = None -> member_count d k = 0) /\
    (forall d k l, assoc_get k d = Some (VList l) -> member_count d k = length l).
Proof.
  intros dir.
  apply (summary_rows_when_every_name_has_a_key Sample.output_dir "org/model-1"
           (start {| fs_clusters := Some dir; fs_top := [] |}) dir).
  - reflexivity.
  - apply (bool_decide_unpack _). vm_compute. reflexivity.
  - repeat first [apply List.Forall_nil
                 |apply List.Forall_cons; [reflexivity|]].
  - repeat first [apply List.Forall_nil
                 |apply List.Forall_cons; [vm_compute; by intros|]].
Defined.

(** C5. A checkpoint set with a result whose id is no number gets no
    summaries table. A run over a table with the cluster ids 1 and [abc],
    on a new output directory and with an analyzer that succeeds, saves
    both results: [clusters] holds two files that end in [.json], each a
    persisted result, and the discovery finds both ids in it. The
    aggregation step then raises [ValueError] in the key of [sorted], for
    the name [cluster_abc.json], before it writes anything: the run ends
    with that exception, and the output directory has neither a summaries
    table nor a combined report. *)
Theorem summary_table_is_missing_when_an_id_is_no_number :
  exists w' e dir C,
    main Sample.args "/work" (fun _ _ => Sample.succeeding)
      [Sample.row 1; Sample.row_named "abc"] (start Sample.empty_fs)
    = (w', Raise e) /\
    exn_class_of e = ValueError /\
    fs_clusters (fs w') = Some dir /\
    map fst dir = ["cluster_1.json"; "cluster_abc.json"] /\
    Forall (fun e => is_json_file e = true /\ is_result e.2 = true) dir /\
    discover "/work/out" (fs w') = Ok C /\
    is_Some (C !! "1") /\ is_Some (C !! "abc") /\
    fs_top (fs w') = [].
Proof.
  eexists _, _, _, _. split; [vm_compute; reflexivity|].
  split; [reflexivity|]. split; [reflexivity|]. split; [reflexivity|].
  split; [by repeat constructor|]. split; [vm_compute; reflexivity|].
  split; [vm_compute; by eexists|]. split; [vm_compute; by eexists|].
  reflexivity.
Qed.

(** ** The keys of the checkpoint set *)

Lemma load_entry_ok od dir f acc acc1 :
  load_entry od dir f acc = Ok acc1 ->
  (acc1 = acc /\ forall cid, ~ declares dir f cid) \/
  (exists d cid,
     declares dir f cid /\ assoc_get f dir = Some (Json (VDict d)) /\
     acc1 = <[str cid := VDict d]> acc).
Proof.
  unfold load_entry, declares.
  destruct (PyStr.endswith f ".json") eqn:Hend.
  2:{ intros H. injection H as <-. left. split; [done|]. by intros cid [? _]. }
  destruct (assoc_get f dir) as [[data| | |u]|] eqn:Hg.
  - destruct data as [| | | | | |d]; try done. cbn [get].
    destruct (assoc_get "cluster_id" d) as [cid|] eqn:Hc; cbn.
    + destruct cid as [|b|z|r|s|l|o].
      * intros H. injection H as <-. left. split; [done|].
        intros cid (_ & d' & Hd' & Hc' & Hn). congruence.
      * intros H. injection H as <-. right. by eauto 10.
      * intros H. injection H as <-. right. by eauto 10.
      * intros H. injection H as <-. right. by eauto 10.
      * intros H. injection H as <-. right. by eauto 10.
      * intros H. injection H as <-. right. by eauto 10.
      * intros H. injection H as <-. right. by eauto 10.
    + intros H. injection H as <-. left. split; [done|].
      intros cid (_ & d' & Hd' & Hc' & Hn). congruence.
  - intros H. injection H as <-. left. split; [done|].
    by intros cid (_ & d' & Hd' & _).
  - intros H. injection H as <-. left. split; [done|].
    by intros cid (_ & d' & Hd' & _).
  - done.
  - done.
Qed.

Lemma fold_load_keys od dir names acc C :
  fold_result (load_entry od dir) names acc = Ok C ->
  forall k,
    is_Some (C !! k) <->
    is_Some (acc !! k) \/
    exists name cid, name ∈ names /\ declares dir name cid /\ k = str cid.
Proof.
  revert acc. induction names as [|f names IH]; intros acc; cbn.
  - intros H k. injection H as <-. split; [by left|].
    intros [?|(name & cid & Hin & _)]; [done|]. by apply elem_of_nil in Hin.
  - destruct (load_entry od dir f acc) as [acc1|e] eqn:Hf; [|done].
    intros H k. rewrite (IH acc1 H k).
    apply load_entry_ok in Hf as [[-> Hno]|(d & cid & Hdecl & Hg & ->)].
    + split.
      * intros [?|(name & cid & Hin & Hd & Hk)]; [by left|].
        right. exists name, cid. split; [by apply list_elem_of_further|done].
      * intros [?|(name & cid & Hin & Hd & Hk)]; [by left|].
        apply elem_of_cons in Hin as [->|Hin]; [by destruct (Hno cid)|].
        right. by exists name, cid.
    + split.
      * intros [Hs|(name & cid' & Hin & Hd & Hk)].
        -- destruct (decide (str cid = k)) as [<-|Hne].
           ++ right. exists f, cid. split; [apply list_elem_of_here|done].
           ++ left. by rewrite lookup_insert_ne in Hs.
        -- right. exists name, cid'.
           split; [by apply list_elem_of_further|done].
      * intros [Hs|(name & cid' & Hin & Hd & Hk)].
        -- left. destruct (decide (str cid = k)) as [<-|Hne].
           ++ rewrite lookup_insert_eq. by eexists.
           ++ by rewrite lookup_insert_ne.
        -- apply elem_of_cons in Hin as [->|Hin].
           ++ left. destruct Hdecl as (_ & d1 & Hg1 & Hc1 & _).
              destruct Hd as (_ & d2 & Hg2 & Hc2 & _).
              assert (cid' = cid) as -> by congruence.
              subst k. rewrite lookup_insert_eq. by eexists.
           ++ right. by exists name, cid'.
Qed.

(** The keys of the checkpoint set are the string forms of the ids that
    the files declare. *)
Lemma discover_keys od f C :
  discover od f = Ok C -> forall k, is_Some (C !! k) <-> declared f k.
Proof.
  unfold discover, declared.
  destruct (fs_clusters f) as [dir|] eqn:Hdir.
  - intros H k. rewrite (fold_load_keys _ _ _ _ _ H k). split.
    + intros [Hs|(name & cid & _ & Hd & Hk)].
      * rewrite lookup_empty in Hs. by destruct Hs.
      * by exists dir, name, cid.
    + intros (dir' & name & cid & Hdir' & Hd & Hk). injection Hdir' as <-.
      right. exists name, cid. split; [|done].
      destruct Hd as (_ & d & Hg & _).
      apply assoc_get_Some_elem in Hg.
      apply list_elem_of_fmap. by exists (name, Json (VDict d)).
  - intros H k. injection H as <-. rewrite lookup_empty. split.
    + by intros [? ?].
    + by intros (dir & ? & ? & ? & _).
Qed.

(** The analyzer is called only for rows whose id is not completed. *)
Lemma items_run_called analyzer rows st w w' st' row :
  items_run analyzer rows st w w' st' ->
  row ∈ calls w' ->
  row ∈ calls w \/ completed st !! row_id row = None.
Proof.
  induction 1 as [|r rows st w w1 st1 w2 st2 Hstep Hrun IH]; [by left|].
  intros Hin. destruct (IH Hin) as [Hc|Hnone].
  - destruct Hstep; cbn in Hc; try (by left);
      apply elem_of_app in Hc as [Hc|Heq%list_elem_of_singleton];
      try (by left); subst; by right.
  - right. by eapply item_step_None.
Qed.

Lemma items_run_keys analyzer rows st w w' st' k :
  items_run analyzer rows st w w' st' ->
  is_Some (completed st' !! k) ->
  is_Some (completed st !! k) \/
  exists row dumped,
    row ∈ rows /\ k = row_id row /\
    completed st' !! k = Some (VDict (filed row dumped)) /\
    cluster_lookup (fs w') (cluster_file k) = Some (Json (VDict (filed row dumped))).
Proof.
  intros Hrun Hk.
  destruct (completed st !! k) as [v|] eqn:Hst; [left; by eexists|].
  right. by eapply items_run_new.
Qed.

(** ** Ids as strings *)

(** C10. Cluster ids are turned into strings where they enter. The keys of
    the checkpoint set that [load_existing_results] returns are the string
    forms of the ids that the files declare. The loop skips a row when the
    string form of its id is a key of the completed set, and calls the
    analyzer otherwise. Every key of the completed set at the end of the
    loop is such a string: the string form of a declared id, or the string
    form of the id of a row, and then the file and the entry of that row
    carry this very string as [cluster_id]. So a row whose id is the
    integer [n] matches a file that declares the text of [n]: its string
    form is a key, and the analyzer is not called for it. *)
Theorem cluster_ids_are_strings_at_every_boundary
    (analyzer : Analyzer) (output_dir model_name : string)
    (cluster_df : list Row) (f : FS) (C : gmap string value)
    (w' : World) (st' : LoopState) :
  load_existing_results output_dir model_name (start f) = (start f, Ok C) ->
  process_clusters analyzer output_dir cluster_df
    {| completed := C; skipped := 0 |} (banner C (start f)) = (w', Ok st') ->
  (forall k, is_Some (C !! k) <-> declared f k) /\
  (forall row st w,
     is_Some (completed st !! str (row_cluster_id row)) ->
     process_cluster analyzer output_dir row st w
     = (w, Ok {| completed := completed st; skipped := S (skipped st) |})) /\
  (forall row st w,
     completed st !! str (row_cluster_id row) = None ->
     calls (process_cluster analyzer output_dir row st w).1 = calls w ++ [row]) /\
  (forall k,
     is_Some (completed st' !! k) ->
     declared f k \/
     exists row d,
       row ∈ cluster_df /\ k = str (row_cluster_id row) /\
       completed st' !! k = Some (VDict d) /\
       cluster_lookup (fs w') (cluster_file k) = Some (Json (VDict d)) /\
       assoc_get "cluster_id" d = Some (VStr k)) /\
  (forall (n : Z) row dir name,
     row_cluster_id row = VInt n ->
     fs_clusters f = Some dir ->
     declares dir name (VStr (pretty n)) ->
     is_Some (C !! str (row_cluster_id row)) /\ row ∉ calls w').
Proof.
  intros Hload Hloop.
  rewrite load_existing_results_eq in Hload. injection Hload as Hd.
  cbn [fs start] in Hd.
  pose proof (discover_keys _ _ _ Hd) as Hkeys.
  pose proof (process_clusters_ok _ _ _ _ _ _ _ Hloop) as Hitems.
  split; [exact Hkeys|]. split; [|split; [|split]].
  - intros row st w [v Hv]. unfold process_cluster. by rewrite Hv.
  - intros row st w Hnone.
    destruct (process_cluster_step analyzer output_dir row st w)
      as [(w1 & st1 & -> & Hstep)|(e & -> & _)]; [|done].
    unfold row_id in Hstep.
    destruct Hstep; cbn; try done. unfold row_id in *. congruence.
  - intros k Hk.
    destruct (items_run_keys _ _ _ _ _ _ k Hitems Hk)
      as [Hc|(row & dumped & Hin & -> & Hc & Hl)].
    + left. by apply Hkeys.
    + right. exists row, (filed row dumped). repeat split; try done.
      apply assoc_get_filed.
  - intros n row dir name Hid Hdir Hdecl.
    assert (Hkey : is_Some (C !! str (row_cluster_id row))).
    { apply Hkeys. exists dir, name, (VStr (pretty n)).
      split; [done|]. split; [done|]. by rewrite Hid. }
    split; [done|]. intros Hin.
    destruct (items_run_called _ _ _ _ _ _ row Hitems Hin) as [Hc|Hnone].
    + rewrite calls_banner in Hc. by apply elem_of_nil in Hc.
    + cbn in Hnone. unfold row_id in Hnone. rewrite Hnone in Hkey.
      by destruct Hkey.
Qed.

Lemma ids_witness :
  is_Some (SampleResume.C !! "4") /\
  Sample.row 4 ∉ calls SampleResume.loop.1.
Proof.
  destruct (cluster_ids_are_strings_at_every_boundary Sample.succeeding
              Sample.output_dir "org/model-1" SampleResume.table
              SampleResume.f SampleResume.C SampleResume.loop.1
              {| completed :=
                   <["5" := VDict (filed (Sample.row 5) Sample.dumped)]>
                     SampleResume.C;
                 skipped := 1 |})
    as (_ & _ & _ & _ & H).
  - vm_compute. reflexivity.
  - vm_compute. reflexivity.
  - apply (H 4%Z (Sample.row 4) SampleResume.dir "cluster_4.json");
      [reflexivity..|].
    split; [reflexivity|]. eexists. split; [reflexivity|].
    split; [reflexivity|discriminate].
Defined.

(** ** A run keeps the checkpoint set in step with the directory *)

Lemma append_assoc (a b c : string) : (a +:+ b) +:+ c = a +:+ (b +:+ c).
Proof.
  induction a as [|x a IH]; [done|]. rewrite !append_cons. by rewrite IH.
Qed.

Lemma endswith_append (s suf : string) : PyStr.endswith (s +:+ suf) suf = true.
Proof.
  unfold PyStr.endswith. rewrite length_append.
  replace (String.length s + String.length suf - String.length suf)
    with (String.length s) by lia.
  induction s as [|c s IH].
  - change (String.eqb suf suf = true). apply String.eqb_refl.
  - rewrite append_cons. exact IH.
Qed.

Lemma endswith_cluster_file id : PyStr.endswith (cluster_file id) ".json" = true.
Proof.
  unfold cluster_file. rewrite <- append_assoc. apply endswith_append.
Qed.

Lemma assoc_get_is_Some {V} (k : string) (l : list (string * V)) :
  k ∈ map fst l -> is_Some (assoc_get k l).
Proof.
  induction l as [|[k' v] l IH]; cbn.
  - by intros ?%elem_of_nil.
  - intros [->|Hin]%elem_of_cons.
    + rewrite decide_True by done. by eexists.
    + destruct (decide (k = k')); [by eexists|by apply IH].
Qed.

Lemma assoc_set_names {V} (k n : string) (v : V) (l : list (string * V)) :
  n ∈ map fst (assoc_set k v l) -> n = k \/ n ∈ map fst l.
Proof.
  induction l as [|[k' v'] l IH]; cbn.
  - intros [->|?%elem_of_nil]%elem_of_cons; [by left|done].
  - destruct (decide (k = k')) as [->|Hne]; cbn.
    + intros [->|Hin]%elem_of_cons; [by left|].
      right. by apply list_elem_of_further.
    + intros [->|Hin]%elem_of_cons.
      * right. apply list_elem_of_here.
      * destruct (IH Hin) as [->|Hin']; [by left|].
        right. by apply list_elem_of_further.
Qed.

Lemma load_entry_total od dir f acc :
  entry_loads dir f <-> exists acc', load_entry od dir f acc = Ok acc'.
Proof.
  unfold entry_loads, load_entry.
  destruct (PyStr.endswith f ".json").
  2:{ split; [by eexists|done]. }
  destruct (assoc_get f dir) as [[data| | |u]|].
  - split.
    + intros H. destruct (H eq_refl) as (c & Hc & Hd & _).
      injection Hc as <-. destruct (Hd data eq_refl) as [d ->]. cbn.
      destruct (assoc_get "cluster_id" d) as [[]|]; by eexists.
    + intros [acc' H] _. eexists. split; [done|]. split; [|done].
      intros v Hv. injection Hv as <-.
      destruct data; try done. by eexists.
  - split; [by eexists|]. intros _ _. by eexists.
  - split; [by eexists|]. intros _ _. by eexists.
  - split.
    + intros H. destruct (H eq_refl) as (c & Hc & _ & Hu).
      injection Hc as <-. by destruct (Hu u).
    + by intros [acc' H].
  - split.
    + intros H. by destruct (H eq_refl) as (c & Hc & _).
    + by intros [acc' H].
Qed.

Lemma fold_load_total od dir names acc :
  Forall (entry_loads dir) names <->
  exists C, fold_result (load_entry od dir) names acc = Ok C.
Proof.
  revert acc. induction names as [|f names IH]; intros acc; cbn.
  - split; [by eexists|by constructor].
  - split.
    + intros [Hf Hall]%Forall_cons.
      apply (load_entry_total od dir f acc) in Hf as [acc' ->].
      by apply IH.
    + intros [C H].
      destruct (load_entry od dir f acc) as [acc'|e] eqn:Hf; [|done].
      constructor.
      * apply (load_entry_total od dir f acc). by eexists.
      * apply (IH acc'). by eexists.
Qed.

(** The discovery returns exactly on the loadable directories. *)
Lemma discover_total od f :
  loadable f <-> exists C, discover od f = Ok C.
Proof.
  unfold loadable, discover. destruct (fs_clusters f) as [dir|].
  - rewrite <- fold_load_total. split; [by eauto|].
    intros H dir' Hd. by injection Hd as <-.
  - split; [by eexists|done].
Qed.

Lemma declares_nil name cid : ~ declares [] name cid.
Proof. by intros (_ & d & Hd & _). Qed.

Lemma declared_dir_of f k :
  declared f k <-> exists name cid, declares (dir_of f) name cid /\ k = str cid.
Proof.
  unfold declared, dir_of. destruct (fs_clusters f) as [dir|]; cbn.
  - split.
    + intros (dir' & name & cid & Hd & H). injection Hd as <-. by eauto.
    + intros (name & cid & H). by exists dir, name, cid.
  - split.
    + by intros (dir' & name & cid & Hd & H).
    + intros (name & cid & H & _). by destruct (declares_nil name cid).
Qed.

Lemma consistent_dir_of f :
  consistent f <->
  forall name cid, declares (dir_of f) name cid -> name = cluster_file (str cid).
Proof.
  unfold consistent, dir_of. destruct (fs_clusters f) as [dir|]; cbn.
  - split; [by eauto|]. intros H dir' name cid Hd. injection Hd as <-. by eauto.
  - split; [|done]. intros _ name cid H. by destruct (declares_nil name cid).
Qed.

Lemma loadable_dir_of f :
  loadable f <-> Forall (entry_loads (dir_of f)) (map fst (dir_of f)).
Proof.
  unfold loadable, dir_of. destruct (fs_clusters f) as [dir|]; cbn.
  - split; [by eauto|]. intros H dir' Hd. by injection Hd as <-.
  - split; [by constructor|done].
Qed.

Lemma dir_of_made_dir w : dir_of (fs (made_dir w)) = dir_of (fs w).
Proof. unfold dir_of. cbn. by destruct (fs_clusters (fs w)). Qed.

Lemma dir_of_saved_world w row dumped :
  dir_of (fs (saved_world w row dumped))
  = assoc_set (cluster_file (row_id row)) (Json (VDict (filed row dumped)))
      (dir_of (fs w)).
Proof. reflexivity. Qed.

(** What the files declare after a result is written. *)
Lemma declares_set dir t x name cid :
  PyStr.endswith t ".json" = true ->
  declares (assoc_set t (Json (VDict x)) dir) name cid <->
  (name = t /\ assoc_get "cluster_id" x = Some cid /\ cid <> VNone) \/
  (name <> t /\ declares dir name cid).
Proof.
  intros Ht. unfold declares. destruct (decide (name = t)) as [->|Hne].
  - rewrite assoc_get_set_eq. split.
    + intros (_ & d & Hd & Hc & Hn). injection Hd as <-. by left.
    + intros [(_ & Hc & Hn)|[? _]]; [|done]. by eauto.
  - rewrite assoc_get_set_ne by done. split.
    + intros H. by right.
    + by intros [[? _]|[_ H]].
Qed.

Lemma in_step_same_dir f f' st :
  dir_of f' = dir_of f -> in_step f st -> in_step f' st.
Proof.
  intros Hd (Hc & Hl & Hk). split; [|split].
  - apply consistent_dir_of. rewrite Hd. by apply consistent_dir_of.
  - apply loadable_dir_of. rewrite Hd. by apply loadable_dir_of.
  - intros k. rewrite <- Hk, !declared_dir_of. by rewrite Hd.
Qed.

Lemma in_step_saved w st row dumped :
  completed st !! row_id row = None ->
  in_step (fs w) st ->
  in_step (fs (saved_world w row dumped)) (saved_state st row dumped).
Proof.
  intros Hnone (Hc & Hl & Hk).
  pose proof (endswith_cluster_file (row_id row)) as Hend.
  rewrite consistent_dir_of in Hc. rewrite loadable_dir_of in Hl.
  split; [|split].
  - apply consistent_dir_of. rewrite dir_of_saved_world.
    intros name cid [(-> & Hcid & _)|[_ Hd]]%declares_set; [|by auto|done].
    rewrite assoc_get_filed in Hcid. by injection Hcid as <-.
  - apply loadable_dir_of. rewrite dir_of_saved_world.
    apply Forall_forall. intros n Hn Hen.
    destruct (decide (cluster_file (row_id row) = n)) as [<-|Hne].
    + rewrite assoc_get_set_eq. eexists. split; [done|]. split; [|done].
      intros v Hv. injection Hv as <-. by eexists.
    + rewrite assoc_get_set_ne by done.
      apply assoc_set_names in Hn as [->|Hn]; [done|].
      rewrite Forall_forall in Hl. by apply Hl.
  - intros k. rewrite declared_dir_of, dir_of_saved_world.
    cbn [saved_state completed]. split.
    + intros (name & cid & [(-> & Hcid & _)|[Hne Hd]]%declares_set & ->);
        [| |done].
      * rewrite assoc_get_filed in Hcid. injection Hcid as <-.
        rewrite lookup_insert_eq. by eexists.
      * destruct (decide (row_id row = str cid)) as [->|Hne'].
        -- rewrite lookup_insert_eq. by eexists.
        -- rewrite lookup_insert_ne by done. apply Hk, declared_dir_of.
           by eauto.
    + intros Hs. destruct (decide (row_id row = k)) as [<-|Hne].
      * exists (cluster_file (row_id row)), (VStr (row_id row)).
        split; [|done]. apply declares_set; [done|]. left.
        split; [done|]. split; [apply assoc_get_filed|done].
      * rewrite lookup_insert_ne in Hs by done.
        apply Hk, declared_dir_of in Hs as (name & cid & Hd & ->).
        exists name, cid. split; [|done]. apply declares_set; [done|].
        right. split; [|done]. rewrite (Hc name cid Hd).
        by intros Heq%cluster_file_inj.
Qed.

Lemma item_step_in_step analyzer row st w w1 st1 :
  item_step analyzer row st w w1 st1 ->
  in_step (fs w) st -> in_step (fs w1) st1.
Proof.
  intros Hstep Hin. destruct Hstep; try done.
  - by apply in_step_saved.
  - eapply in_step_same_dir; [|exact Hin].
    apply (dir_of_made_dir (called w row)).
Qed.

Lemma items_run_in_step analyzer rows st w w' st' :
  items_run analyzer rows st w w' st' ->
  in_step (fs w) st -> in_step (fs w') st'.
Proof.
  induction 1 as [|row rows st w w1 st1 w2 st2 Hstep Hrun IH]; [done|].
  intros Hin. apply IH. by eapply item_step_in_step.
Qed.

(** At the start of a run the loop and the directory agree, when the
    directory is consistent. *)
Lemma in_step_start od f C :
  consistent f -> discover od f = Ok C ->
  in_step f {| completed := C; skipped := 0 |}.
Proof.
  intros Hc Hd. split; [done|]. split.
  - apply (discover_total od). by eexists.
  - intros k. symmetry. by apply (discover_keys od).
Qed.

(** What the next invocation discovers is what this loop completed. *)
Lemma discover_after_run analyzer od rows st w w' st' :
  items_run analyzer rows st w w' st' ->
  in_step (fs w) st ->
  exists C',
    discover od (fs w') = Ok C' /\
    forall k, is_Some (C' !! k) <-> is_Some (completed st' !! k).
Proof.
  intros Hrun Hin.
  destruct (items_run_in_step _ _ _ _ _ _ Hrun Hin) as (Hc & Hl & Hk).
  apply (discover_total od) in Hl as [C' HC']. exists C'. split; [done|].
  intros k. rewrite <- Hk. by apply (discover_keys od).
Qed.

Lemma discover_clusters od f f' :
  fs_clusters f = fs_clusters f' -> discover od f = discover od f'.
Proof. unfold discover. by intros ->. Qed.

(** With an analyzer that returns a cluster at every call, and ids that
    make file names, every row ends up completed. *)
Lemma items_run_all_completed analyzer rows st w w' st' :
  items_run analyzer rows st w w' st' ->
  always_returns analyzer ->
  Forall (fun row => can_create (cluster_file (row_id row)) = true) rows ->
  Forall (fun row => is_Some (completed st' !! row_id row)) rows.
Proof.
  intros Hrun Hret.
  induction Hrun as [|row rows st w w1 st1 w2 st2 Hstep Hrun IH];
    [by constructor|].
  intros [Hrow Hrows]%Forall_cons. constructor; [|by apply IH].
  assert (Hs1 : is_Some (completed st1 !! row_id row)).
  { destruct (Hret (length (calls w)) row) as (k & d & rest & Ha).
    destruct Hstep; try congruence.
    - by eexists.
    - cbn. rewrite lookup_insert_eq. by eexists. }
  destruct (items_run_stable _ _ _ _ _ _ _ Hrun Hs1) as [-> _]. done.
Qed.

(** After a first run on a consistent directory in which every analysis
    succeeded, the second run calls the analyzer not once and leaves the
    output directory as it is. *)
Lemma second_run_after_a_clean_first_run
    (args : Args) (script_dir : string)
    (ClusterAnalyzer ClusterAnalyzer' : string -> string -> Analyzer)
    (cluster_df : list Row) (f0 : FS) (w1 : World) :
  consistent f0 ->
  always_returns (ClusterAnalyzer (args_model args) (args_temperature args)) ->
  Forall (fun row => can_create (cluster_file (row_id row)) = true) cluster_df ->
  main args script_dir ClusterAnalyzer cluster_df (start f0) = (w1, Ok tt) ->
  exists w2,
    main args script_dir ClusterAnalyzer' cluster_df (start (fs w1))
      = (w2, Ok tt) /\
    calls w2 = [] /\
    fs w2 = fs w1.
Proof.
  intros Hcons Hret Hnames Hmain.
  destruct (main_ok_inv _ _ _ _ _ _ Hmain)
    as (C0 & wl & st & dir & paths & Hd0 & Hrun & Hdirl & Hdir1 & Hagg).
  set (od := path_join script_dir (args_output_dir args)) in *.
  assert (Hin : in_step (fs (banner C0 (start f0)))
                  {| completed := C0; skipped := 0 |}).
  { rewrite fs_banner. by apply (in_step_start od). }
  destruct (discover_after_run _ od _ _ _ _ _ Hrun Hin) as (C1 & Hd1 & Hk).
  rewrite (discover_clusters od (fs wl) (fs w1)) in Hd1 by congruence.
  destruct (rerun_on_completed args script_dir ClusterAnalyzer' cluster_df
              (fs w1) C1 dir paths) as (w2 & H2 & Hc2 & Hf2 & _); try done.
  - eapply Forall_impl;
      [exact (items_run_all_completed _ _ _ _ _ _ Hrun Hret Hnames)|].
    intros row Hrow. by apply Hk.
  - by apply (aggregate_again _ _ _ (fs_top (fs wl))).
  - by exists w2.
Qed.

Lemma pending_ext (C C' : gmap string value) (rows : list Row) :
  (forall k, is_Some (C !! k) <-> is_Some (C' !! k)) ->
  pending C rows = pending C' rows.
Proof.
  intros Hk. induction rows as [|row rows IH]; [done|].
  destruct (C !! row_id row) as [v|] eqn:H.
  - rewrite !pending_cons_Some; [done| |by rewrite H].
    apply Hk. by rewrite H.
  - assert (C' !! row_id row = None) as H'.
    { destruct (C' !! row_id row) as [v|] eqn:H'; [|done].
      assert (is_Some (C !! row_id row)) as [? ?]
        by (apply Hk; by rewrite H').
      congruence. }
    rewrite !pending_cons_None by done. by rewrite IH.
Qed.

(** An interrupted run, then a fresh invocation. The first invocation
    starts on a consistent directory and is stopped after the rows [pre];
    the fresh invocation, over the whole table, calls the analyzer exactly
    for the rows that the stopped run had not completed (up to the row at
    which it is interrupted in turn, if it is), and leaves the files of the
    completed rows as they are. *)
Lemma interrupted_then_resumed
    (args : Args) (script_dir : string)
    (ClusterAnalyzer ClusterAnalyzer' : string -> string -> Analyzer)
    (pre cluster_df : list Row) (f0 : FS) (C0 : gmap string value)
    (wi : World) (sti : LoopState) (w' : World) (r : result unit) :
  consistent f0 ->
  discover (path_join script_dir (args_output_dir args)) f0 = Ok C0 ->
  items_run (ClusterAnalyzer (args_model args) (args_temperature args)) pre
    {| completed := C0; skipped := 0 |} (banner C0 (start f0)) wi sti ->
  NoDup (map row_id cluster_df) ->
  main args script_dir ClusterAnalyzer' cluster_df (start (fs wi)) = (w', r) ->
  calls w' `prefix_of` pending (completed sti) cluster_df /\
  ((forall e, r = Raise e -> is_exception e = true) ->
   calls w' = pending (completed sti) cluster_df) /\
  forall row, row ∈ cluster_df -> is_Some (completed sti !! row_id row) ->
    cluster_lookup (fs w') (cluster_file (row_id row))
    = cluster_lookup (fs wi) (cluster_file (row_id row)).
Proof.
  intros Hcons Hd0 Hrun Hnd Hmain.
  set (od := path_join script_dir (args_output_dir args)) in *.
  assert (Hin : in_step (fs (banner C0 (start f0)))
                  {| completed := C0; skipped := 0 |}).
  { rewrite fs_banner. by apply (in_step_start od). }
  destruct (discover_after_run _ od _ _ _ _ _ Hrun Hin) as (C1 & Hd1 & Hk).
  destruct (main_calls_and_frame _ _ _ _ _ _ _ _ Hd1 Hnd Hmain)
    as (Hprefix & Hcalls & Hframe).
  rewrite (pending_ext C1 (completed sti)) in Hprefix, Hcalls, Hframe by done.
  split; [done|]. split; [done|]. intros row Hin' Hsome. apply Hframe.
  intros row' [Hnone _]%list_elem_of_filter Heq%cluster_file_inj.
  rewrite Heq, Hnone in Hsome. by destruct Hsome.
Qed.

(** ** An unparsable file at the time of the aggregation *)

Lemma read_documents_unparsable od dir (l : list string) acc f c :
  f ∈ l ->
  PyStr.endswith f ".json" = true ->
  assoc_get f dir = Some c ->
  (forall v, c <> Json v) ->
  Forall (fun g => is_Some (assoc_get g dir)) l ->
  exists e,
    fold_result (read_document od dir) l acc = Raise e /\
    is_load_error e = true.
Proof.
  intros Hin Hend Hf Hc Hall. revert acc.
  induction Hall as [|g l [cg Hg] Hl IH]; intros acc.
  - by apply elem_of_nil in Hin.
  - cbn. unfold read_document at 1.
    destruct (decide (g = f)) as [->|Hne].
    + rewrite Hend, Hf.
      destruct c as [v| | |[]]; [by destruct (Hc v)|by eexists..].
    + apply elem_of_cons in Hin as [->|Hin]; [done|].
      destruct (PyStr.endswith g ".json"); [|by apply IH].
      rewrite Hg. destruct cg as [v| | |[]]; [by apply IH|by eexists..].
Qed.

(** Whatever the loop did, a [.json] file of [clusters] that does not parse
    makes the aggregation step raise what [json.load] raises. *)
Lemma combine_aborts_on_unparsable od m w dir f c :
  fs_clusters (fs w) = Some dir ->
  Forall (fun name => sortable name = true) (map fst dir) ->
  PyStr.endswith f ".json" = true ->
  assoc_get f dir = Some c ->
  (forall v, c <> Json v) ->
  exists w' e,
    combine_results od m w = (w', Raise e) /\
    is_load_error e = true /\
    fs w' = fs w.
Proof.
  intros Hdir Hsort Hend Hf Hc.
  destruct (sorted_ok _ Hsort) as [ordered Hordered].
  destruct (sorted_ordered _ _ Hordered) as [Hperm _].
  rewrite combine_results_eq, Hdir. unfold aggregate.
  rewrite Hordered.
  destruct (read_documents_unparsable od dir ordered [] f c)
    as (e & -> & He); try done.
  - rewrite Hperm. apply assoc_get_Some_elem in Hf.
    apply list_elem_of_fmap. by exists (f, c).
  - apply Forall_forall. intros g Hg. apply assoc_get_is_Some.
    by rewrite <- Hperm.
  - eexists _, e. split; [done|]. split; [done|]. cbn.
    destruct w as [[cl top] out cs]. cbn in *. by subst cl.
Qed.


(** * Further properties of the code *)

(** ** The checkpoint store: writing *)

Lemma assoc_set_set {V} (k : string) (v v' : V) (l : list (string * V)) :
  assoc_set k v (assoc_set k v' l) = assoc_set k v l.
Proof.
  induction l as [|[k1 v1] l IH]; cbn.
  - by rewrite decide_True.
  - destruct (decide (k = k1)) as [->|Hne]; cbn.
    + by rewrite decide_True.
    + rewrite decide_False by done. by rewrite IH.
Qed.

Lemma assoc_set_names_eq {V} (k : string) (v : V) (l : list (string * V)) :
  map fst (assoc_set k v l)
  = match assoc_get k l with
    | Some _ => map fst l
    | None => map fst l ++ [k]
    end.
Proof.
  induction l as [|[k1 v1] l IH]; cbn; [done|].
  destruct (decide (k = k1)) as [->|Hne]; cbn; [done|].
  rewrite IH. by destruct (assoc_get k l).
Qed.



(** X2. [save_cluster_result] overwrites: saving a second result under the
    same id leaves the output directory exactly as saving the second result
    alone would, so the first content is gone and the listing of [clusters]
    has one file for the id, at the place it had. *)
Theorem saving_again_overwrites
    (output_dir cluster_id : string) (d1 d2 : list (string * value))
    (w : World) :
  can_create (cluster_file cluster_id) = true ->
  (save_cluster_result output_dir cluster_id d1 ;;;
   save_cluster_result output_dir cluster_id d2) w
  = save_cluster_result output_dir cluster_id d2 w /\
  forall w1 w2,
    save_cluster_result output_dir cluster_id d1 w = (w1, Ok tt) ->
    save_cluster_result output_dir cluster_id d2 w1 = (w2, Ok tt) ->
    map fst (dir_of (fs w2)) = map fst (dir_of (fs w1)).
Proof.
  intros Hc. split.
  - unfold bind. rewrite (save_cluster_result_ok _ _ d1 w) by done.
    rewrite !save_cluster_result_ok by done. cbn.
    by rewrite assoc_set_set.
  - intros w1 w2. rewrite !save_cluster_result_ok by done.
    intros H1 H2. injection H1 as <-. injection H2 as <-.
    unfold dir_of. cbn. rewrite assoc_set_names_eq.
    by rewrite assoc_get_set_eq.
Qed.

Lemma saving_again_overwrites_witness :
  (save_cluster_result Sample.output_dir "7" Sample.dumped ;;;
   save_cluster_result Sample.output_dir "7" [("summary", VStr "second")])
    (start Sample.empty_fs)
  = save_cluster_result Sample.output_dir "7" [("summary", VStr "second")]
      (start Sample.empty_fs).
Proof.
  apply (saving_again_overwrites Sample.output_dir "7" Sample.dumped
           [("summary", VStr "second")] (start Sample.empty_fs)).
  reflexivity.
Defined.

Lemma contains_append (c : ascii) (a b : string) :
  PyStr.contains c (a +:+ b) = PyStr.contains c a || PyStr.contains c b.
Proof.
  induction a as [|x a IH]; [done|].
  rewrite append_cons. cbn [PyStr.contains]. rewrite IH.
  by rewrite orb_assoc.
Qed.

Lemma can_create_cluster_file id :
  can_create (cluster_file id)
  = negb (PyStr.contains nul id) && negb (PyStr.contains "/" id).
Proof.
  unfold can_create, cluster_file. rewrite !contains_append.
  change (PyStr.contains nul "cluster_") with false.
  change (PyStr.contains nul ".json") with false.
  change (PyStr.contains "/" "cluster_") with false.
  change (PyStr.contains "/" ".json") with false.
  by rewrite !orb_false_r.
Qed.

Lemma save_cluster_result_raise_class od cluster_id d w :
  can_create (cluster_file cluster_id) = false ->
  exists e,
    save_cluster_result od cluster_id d w = (made_dir w, Raise e) /\
    is_open_error e = true.
Proof.
  unfold can_create. intros H.
  unfold save_cluster_result, makedirs_clusters, open_w_dump, bind, get_fs,
    put_fs, raise, made_dir. cbn.
  destruct (PyStr.contains nul (cluster_file cluster_id)); [by eexists|].
  destruct (PyStr.contains "/" (cluster_file cluster_id)); [|done].
  destruct (assoc_get _ _); by eexists.
Qed.

(** X3. A cluster id with a slash cannot name a file of [clusters]: when
    the loop attempts such a row it calls the analyzer, and whatever comes
    back the item is not completed and no file of [clusters] or of the
    output directory changes; when the analyzer returned a cluster, the
    error of [open] is caught and printed as an analysis error. The body
    returns with the completed set as it was, unless the analyzer raised
    an exception that is no [Exception], which the body lets through. The
    row is therefore attempted again by every run. *)
Theorem id_with_a_slash_is_never_checkpointed
    (analyzer : Analyzer) (output_dir : string) (row : Row)
    (st : LoopState) (w : World) :
  completed st !! row_id row = None ->
  PyStr.contains "/" (row_id row) = true ->
  exists w1 r,
    process_cluster analyzer output_dir row st w = (w1, r) /\
    (r = Ok st \/
     exists e, r = Raise e /\ is_exception e = false /\
               analyzer (length (calls w)) row = Raised e) /\
    calls w1 = calls w ++ [row] /\
    (forall name, cluster_lookup (fs w1) name = cluster_lookup (fs w) name) /\
    fs_top (fs w1) = fs_top (fs w) /\
    (forall k dumped rest,
       analyzer (length (calls w)) row = Returned ((k, dumped) :: rest) ->
       exists e, is_open_error e = true /\
                 stdout w1 = stdout w ++ [error_line row e]).
Proof.
  intros Hnone Hslash.
  assert (Hcc : can_create (cluster_file (row_id row)) = false).
  { rewrite can_create_cluster_file, Hslash. by rewrite andb_false_r. }
  rewrite process_cluster_eq, Hnone.
  destruct (analyzer (length (calls w)) row) as [e|[|[k dumped] rest]] eqn:Ha.
  - destruct (is_exception e) eqn:He.
    + eexists _, _. split; [reflexivity|]. split; [by left|]. by cbn.
    + eexists _, _. split; [reflexivity|].
      split; [right; by exists e|]. by cbn.
  - eexists _, _. split; [reflexivity|]. split; [by left|]. by cbn.
  - destruct (save_cluster_result_raise_class output_dir (row_id row)
                (filed row dumped) (called w row) Hcc) as (e & He & Hcls).
    rewrite He, (save_cluster_result_raise_exception _ _ _ _ _ _ He).
    eexists _, _. split; [reflexivity|]. split; [by left|]. cbn.
    split; [done|]. split; [|split; [done|]].
    + intros name. apply (cluster_lookup_made_dir (called w row)).
    + intros k' d' r' H. by exists e.
Qed.

Lemma id_with_a_slash_witness :
  exists w1,
    process_cluster Sample.succeeding Sample.output_dir
      (Sample.row_named "a/b") Sample.fresh (start Sample.empty_fs)
    = (w1, Ok Sample.fresh) /\
    calls w1 = calls (start Sample.empty_fs) ++ [Sample.row_named "a/b"] /\
    (forall name, cluster_lookup (fs w1) name
                  = cluster_lookup (fs (start Sample.empty_fs)) name) /\
    fs_top (fs w1) = fs_top (fs (start Sample.empty_fs)) /\
    (forall k dumped rest,
       Sample.succeeding (length (calls (start Sample.empty_fs)))
         (Sample.row_named "a/b") = Returned ((k, dumped) :: rest) ->
       exists e, is_open_error e = true /\
                 stdout w1 = stdout (start Sample.empty_fs)
                               ++ [error_line (Sample.row_named "a/b") e]).
Proof.
  destruct (id_with_a_slash_is_never_checkpointed Sample.succeeding
              Sample.output_dir (Sample.row_named "a/b") Sample.fresh
              (start Sample.empty_fs))
    as (w1 & r & Heq & [->|(e & _ & _ & Ha)] & H); [reflexivity..| |].
  - by exists w1.
  - discriminate Ha.
Defined.

(** ** The checkpoint store: discovery *)

Lemma load_entry_raise od dir f acc e :
  load_entry od dir f acc = Raise e ->
  is_Some (assoc_get f dir) ->
  fails_to_load dir f e.
Proof.
  unfold load_entry, fails_to_load.
  destruct (PyStr.endswith f ".json"); [|done].
  intros H [c Hc]. rewrite Hc in H. split; [done|].
  destruct c as [data| | |u]; [|done..|].
  - left. exists data. split; [done|].
    destruct data as [| | | | | |d]; cbn in H;
      try (injection H as <-; by split).
    by destruct (assoc_get "cluster_id" d) as [[]|].
  - right. exists u. split; [done|]. by injection H as <-.
Qed.

Lemma fold_load_raise od dir names acc e :
  Forall (fun f => is_Some (assoc_get f dir)) names ->
  fold_result (load_entry od dir) names acc = Raise e ->
  exists f, f ∈ names /\ fails_to_load dir f e.
Proof.
  intros Hall. revert acc.
  induction Hall as [|f names Hf Hall IH]; intros acc; cbn; [done|].
  destruct (load_entry od dir f acc) as [acc'|e'] eqn:He.
  - intros H. destruct (IH _ H) as (g & Hg & Hfail).
    exists g. split; [by apply list_elem_of_further|done].
  - intros H. injection H as <-. exists f.
    split; [apply list_elem_of_here|]. by eapply load_entry_raise.
Qed.

(** X4. [load_existing_results] only reads: it returns in the world it was
    called in. It returns a checkpoint set exactly when every file of
    [clusters] that ends in [.json] either is rejected by the parser or
    parses to a JSON object; a text that the parser rejects never makes it
    fail. When it fails, it is on a file of the listing that ends in
    [.json], with an exception that the [except] clause does not take: the
    [AttributeError] of [data.get] on a document that is no object, or
    what [json.load] raised that is no [JSONDecodeError] (bytes that are
    no UTF-8 text, an integer beyond the digit limit, too deep a
    nesting). *)
Theorem discovery_only_reads_and_fails_on_what_it_does_not_catch
    (output_dir model_name : string) (w : World) :
  (load_existing_results output_dir model_name w).1 = w /\
  ((exists C, load_existing_results output_dir model_name w = (w, Ok C))
   <-> loadable (fs w)) /\
  (forall w' e,
     load_existing_results output_dir model_name w = (w', Raise e) ->
     ~ loadable (fs w) /\
     is_decode_or_key_error e = false /\
     exists dir f,
       fs_clusters (fs w) = Some dir /\ f ∈ map fst dir /\
       fails_to_load dir f e).
Proof.
  rewrite load_existing_results_eq. split; [done|]. split.
  - rewrite (discover_total output_dir). split.
    + intros [C H]. injection H as H. by exists C.
    + intros [C H]. exists C. by rewrite H.
  - intros w' e H. injection H as _ H. split.
    { intros [C HC]%(discover_total output_dir). congruence. }
    unfold discover in H. destruct (fs_clusters (fs w)) as [dir|]; [|done].
    destruct (fold_load_raise output_dir dir (map fst dir) ∅ e)
      as (f & Hf & Hfail); [|done|].
    { apply Forall_forall. intros f Hf. by apply assoc_get_is_Some. }
    split; [|by exists dir, f].
    destruct Hfail as [_ [(v & _ & _ & Hc)|(u & _ & ->)]].
    + unfold is_decode_or_key_error. by rewrite Hc.
    + by destruct u.
Qed.

Lemma assoc_get_filter_json (dir : directory) f :
  PyStr.endswith f ".json" = true ->
  assoc_get f (filter (fun e => Is_true (is_json_file e)) dir) = assoc_get f dir.
Proof.
  intros Hf. induction dir as [|[n c] dir IH]; [done|].
  destruct (PyStr.endswith n ".json") eqn:Hn.
  - rewrite filter_cons_True
      by (unfold is_json_file; cbn [fst]; by rewrite Hn).
    cbn. by rewrite IH.
  - rewrite filter_cons_False
      by (unfold is_json_file; cbn [fst]; rewrite Hn; intros []).
    cbn. rewrite decide_False; [done|]. intros ->. congruence.
Qed.

Lemma load_entry_filter_json od (dir : directory) f acc :
  load_entry od (filter (fun e => Is_true (is_json_file e)) dir) f acc
  = load_entry od dir f acc.
Proof.
  unfold load_entry. destruct (PyStr.endswith f ".json") eqn:Hf; [|done].
  by rewrite assoc_get_filter_json.
Qed.

Lemma fold_load_filter_json od (dir sub : directory) acc :
  fold_result (load_entry od dir)
    (map fst (filter (fun e => Is_true (is_json_file e)) sub)) acc
  = fold_result (load_entry od dir) (map fst sub) acc.
Proof.
  revert acc. induction sub as [|[n c] sub IH]; intros acc; [done|].
  destruct (PyStr.endswith n ".json") eqn:Hn.
  - rewrite filter_cons_True
      by (unfold is_json_file; cbn [fst]; by rewrite Hn).
    cbn. destruct (load_entry od dir n acc); [apply IH|done].
  - rewrite filter_cons_False
      by (unfold is_json_file; cbn [fst]; rewrite Hn; intros []).
    cbn. unfold load_entry at 2. rewrite Hn. apply IH.
Qed.

(** X5. [load_existing_results] looks at the files that end in [.json]
    and at no other: its outcome on a directory is its outcome on the
    same directory without the other files, whatever these hold. *)
Theorem discovery_ignores_files_without_the_suffix
    (output_dir model_name : string) (dir top : directory)
    (out : list string) (cs : list Row) :
  (load_existing_results output_dir model_name
     {| fs := {| fs_clusters := Some dir; fs_top := top |};
        stdout := out; calls := cs |}).2
  = (load_existing_results output_dir model_name
       {| fs := {| fs_clusters :=
                     Some (filter (fun e => Is_true (is_json_file e)) dir);
                   fs_top := top |};
          stdout := out; calls := cs |}).2.
Proof.
  rewrite !load_existing_results_eq. unfold discover. cbn.
  rewrite fold_load_filter_json. clear.
  generalize (map fst dir) (∅ : gmap string value).
  intros names. induction names as [|f names IH]; intros acc; [done|].
  cbn. rewrite load_entry_filter_json.
  destruct (load_entry output_dir dir f acc); [apply IH|done].
Qed.

Lemma declares_unique dir name cid cid' :
  declares dir name cid -> declares dir name cid' -> cid = cid'.
Proof. intros (_ & d & Hd & Hc & _) (_ & d' & Hd' & Hc' & _). congruence. Qed.

Lemma fold_load_last od dir names acc C k v :
  fold_result (load_entry od dir) names acc = Ok C ->
  C !! k = Some v ->
  (acc !! k = Some v /\
   forall name cid, name ∈ names -> declares dir name cid -> str cid <> k) \/
  (exists before name after cid,
     names = before ++ name :: after /\
     declares dir name cid /\ str cid = k /\
     assoc_get name dir = Some (Json v) /\
     forall name' cid', name' ∈ after -> declares dir name' cid' ->
                        str cid' <> k).
Proof.
  revert acc. induction names as [|f names IH]; intros acc; cbn.
  - intros H Hk. injection H as <-. left. split; [done|].
    intros name cid Hin. by apply elem_of_nil in Hin.
  - destruct (load_entry od dir f acc) as [acc1|e] eqn:Hf; [|done].
    intros H Hk.
    destruct (IH acc1 H Hk)
      as [[Hacc Hno]|(before & name & after & cid & -> & Hd & Hs & Hg & Hafter)].
    + apply load_entry_ok in Hf as [[-> Hnone]|(d & cid & Hdecl & Hg & ->)].
      * left. split; [done|].
        intros name cid [->|Hin]%elem_of_cons Hd; [by destruct (Hnone cid)|].
        by eapply Hno.
      * destruct (decide (str cid = k)) as [Heq|Hne].
        -- right. exists [], f, names, cid.
           rewrite Heq, lookup_insert_eq in Hacc. injection Hacc as <-.
           do 4 (split; [done|]). exact Hno.
        -- left. rewrite lookup_insert_ne in Hacc by done. split; [done|].
           intros name cid' [->|Hin]%elem_of_cons Hd.
           ++ by rewrite <- (declares_unique _ _ _ _ Hdecl Hd).
           ++ by eapply Hno.
    + right. exists (f :: before), name, after, cid.
      do 4 (split; [done|]). exact Hafter.
Qed.

(** X6. The checkpoint set maps an id to a whole parsed document: the
    value under a key is the document of a file of the listing that
    declares this id, and when several files declare the same id, it is
    the document of the last of them in the order of the listing. *)
Theorem discovery_keeps_the_last_file_that_declares_an_id
    (output_dir model_name : string) (w : World) (C : gmap string value)
    (k : string) (v : value) :
  load_existing_results output_dir model_name w = (w, Ok C) ->
  C !! k = Some v ->
  exists dir before name after cid,
    fs_clusters (fs w) = Some dir /\
    map fst dir = before ++ name :: after /\
    declares dir name cid /\ str cid = k /\
    assoc_get name dir = Some (Json v) /\
    forall name' cid', name' ∈ after -> declares dir name' cid' ->
                       str cid' <> k.
Proof.
  rewrite load_existing_results_eq. intros H Hk. injection H as H.
  unfold discover in H. destruct (fs_clusters (fs w)) as [dir|] eqn:Hdir.
  - destruct (fold_load_last _ _ _ _ _ _ _ H Hk)
      as [[Hacc _]|(before & name & after & cid & Hn & Hd & Hs & Hg & Ha)].
    + by rewrite lookup_empty in Hacc.
    + by exists dir, before, name, after, cid.
  - injection H as <-. by rewrite lookup_empty in Hk.
Qed.

Lemma discovery_keeps_the_last_witness :
  let dir := [("a.json", Json (VDict [("cluster_id", VInt 3); ("summary", VStr "old")]));
              ("b.json", Json (VDict [("cluster_id", VStr "3"); ("summary", VStr "new")]))] in
  exists dir' before name after cid,
    Some dir = Some dir' /\
    map fst dir' = before ++ name :: after /\
    declares dir' name cid /\ str cid = "3" /\
    assoc_get name dir'
      = Some (Json (VDict [("cluster_id", VStr "3"); ("summary", VStr "new")])) /\
    forall name' cid', name' ∈ after -> declares dir' name' cid' ->
                       str cid' <> "3".
Proof.
  intros dir.
  apply (discovery_keeps_the_last_file_that_declares_an_id Sample.output_dir
           "org/model-1"
           (start {| fs_clusters := Some dir; fs_top := [] |})
           {["3" := VDict [("cluster_id", VStr "3"); ("summary", VStr "new")]]}
           "3").
  - vm_compute. reflexivity.
  - vm_compute. reflexivity.
Defined.

(** ** The aggregation step: order *)

Lemma insert_by_key_filter (k : Z) x l :
  filter (fun p : Z * string => p.1 = k) (insert_by_key x l)
  = filter (fun p : Z * string => p.1 = k) (x :: l).
Proof.
  induction l as [|y l IH]; [done|]. cbn [insert_by_key].
  destruct (x.1 <=? y.1)%Z eqn:Hle; [done|].
  apply Z.leb_gt in Hle.
  rewrite (filter_cons _ y), IH, !(filter_cons _ x), (filter_cons _ y).
  destruct (decide (x.1 = k)) as [Hx|Hx]; [|done].
  destruct (decide (y.1 = k)) as [Hy|Hy]; [lia|done].
Qed.

Lemma sort_by_key_stable (k : Z) l :
  filter (fun p : Z * string => p.1 = k) (sort_by_key l)
  = filter (fun p : Z * string => p.1 = k) l.
Proof.
  induction l as [|x l IH]; [done|]. cbn [sort_by_key foldr].
  rewrite insert_by_key_filter. fold (sort_by_key l).
  rewrite !(filter_cons _ x), IH. done.
Qed.

Lemma read_documents_inv od dir (l : list string) acc rs :
  fold_result (read_document od dir) l acc = Ok rs ->
  rs = acc ++ omap (document_of dir) l.
Proof.
  revert acc. induction l as [|f l IH]; intros acc; cbn [fold_result].
  - intros H. injection H as <-. by rewrite app_nil_r.
  - unfold read_document at 1. rewrite omap_cons. unfold document_of at 1.
    destruct (PyStr.endswith f ".json"); [|apply IH].
    destruct (assoc_get f dir) as [[v| | |u]|]; try done.
    intros ->%IH. by rewrite <- app_assoc.
Qed.

Lemma add_summaries_length rs acc rows :
  fold_result add_summary rs acc = Ok rows ->
  length rows = length acc + length rs.
Proof.
  revert acc. induction rs as [|r rs IH]; intros acc; cbn.
  - intros H. injection H as <-. lia.
  - unfold add_summary at 1. destruct (summary_of r) as [row|e]; [|done].
    intros ->%IH. rewrite length_app. cbn. lia.
Qed.

(** What an aggregation that returned went through. *)
Lemma combine_results_ok_inv od m w w' paths :
  combine_results od m w = (w', Ok paths) ->
  exists dir kl0 rows,
    fs_clusters (fs w) = Some dir /\
    fs_clusters (fs w') = Some dir /\
    keyed sort_key (map fst dir) = Ok kl0 /\
    fold_result (read_document od dir) (map snd (sort_by_key kl0)) []
      = Ok (omap (document_of dir) (map snd (sort_by_key kl0))) /\
    fold_result add_summary (omap (document_of dir) (map snd (sort_by_key kl0))) []
      = Ok rows /\
    fs_top (fs w')
      = assoc_set (results_base m +:+ "_summaries.tsv") (Tsv rows)
          (assoc_set (results_base m +:+ ".json")
             (combined_report m (omap (document_of dir) (map snd (sort_by_key kl0))))
             (fs_top (fs w))).
Proof.
  rewrite combine_results_eq.
  destruct (fs_clusters (fs w)) as [dir|] eqn:Hdir; [|done].
  unfold aggregate, sorted.
  destruct (keyed sort_key (map fst dir)) as [kl0|e] eqn:Hk; [|by intros [= _ ?]].
  destruct (fold_result (read_document od dir) _ []) as [rs|e] eqn:Hr;
    [|by intros [= _ ?]].
  pose proof (read_documents_inv _ _ _ _ _ Hr) as Hrs. cbn in Hrs. subst rs.
  cbv zeta.
  destruct (fold_result add_summary _ []) as [rows|e] eqn:Hs;
    [|by intros [= _ ?]].
  cbn [fst snd]. intros H. injection H as <- _.
  exists dir, kl0, rows. by cbn.
Qed.

(** X7. When [combine_results] returns, the combined report lists the
    documents of the [.json] files in the order that [sorted] gives the
    listing: a rearrangement of the listing in which the keys do not
    decrease, and in which the names with equal keys (all the names that do
    not start with [cluster_], which have key 0) keep the order they have
    in the listing. *)
Theorem aggregation_orders_the_files_by_key
    (output_dir model_name : string) (w w' : World) (paths : string * string) :
  combine_results output_dir model_name w = (w', Ok paths) ->
  exists dir listing ordered,
    fs_clusters (fs w) = Some dir /\
    map snd listing = map fst dir /\
    Forall (fun p => sort_key p.2 = Ok p.1) listing /\
    ordered ≡ₚ listing /\
    Sorted (fun a b : Z * string => (a.1 <= b.1)%Z) ordered /\
    (forall k, filter (fun p : Z * string => p.1 = k) ordered
               = filter (fun p : Z * string => p.1 = k) listing) /\
    (assoc_get (results_base model_name +:+ ".json") (fs_top (fs w'))
       ≫= report_clusters)
      = Some (omap (document_of dir) (map snd ordered)).
Proof.
  intros (dir & kl0 & rows & Hdir & _ & Hk & _ & _ & Htop)%combine_results_ok_inv.
  destruct (keyed_inv _ _ _ Hk) as [Hm Hf].
  exists dir, kl0, (sort_by_key kl0).
  split; [done|]. split; [done|]. split; [done|].
  split; [apply sort_by_key_perm|]. split; [apply sort_by_key_sorted|].
  split; [intros k; apply sort_by_key_stable|].
  rewrite Htop.
  rewrite assoc_get_set_ne by (symmetry; apply aggregate_names_ne).
  by rewrite assoc_get_set_eq.
Qed.

Lemma aggregation_order_witness :
  let dir := [("cluster_10.json", Json (VDict [("cluster_id", VStr "10")]));
              ("readme.txt", Raw "notes");
              ("cluster_2.json", Json (VDict [("cluster_id", VStr "2")]))] in
  let run := combine_results Sample.output_dir "org/model-1"
               (start {| fs_clusters := Some dir; fs_top := [] |}) in
  exists dir' listing ordered,
    Some dir = Some dir' /\
    map snd listing = map fst dir' /\
    Forall (fun p => sort_key p.2 = Ok p.1) listing /\
    ordered ≡ₚ listing /\
    Sorted (fun a b : Z * string => (a.1 <= b.1)%Z) ordered /\
    (forall k, filter (fun p : Z * string => p.1 = k) ordered
               = filter (fun p : Z * string => p.1 = k) listing) /\
    (assoc_get (results_base "org/model-1" +:+ ".json") (fs_top (fs run.1))
       ≫= report_clusters)
      = Some (omap (document_of dir') (map snd ordered)).
Proof.
  intros dir run.
  apply (aggregation_orders_the_files_by_key Sample.output_dir "org/model-1"
           (start {| fs_clusters := Some dir; fs_top := [] |}) run.1
           ("/work/out/org_model-1_results.json",
            "/work/out/org_model-1_results_summaries.tsv")).
  vm_compute. reflexivity.
Defined.

(** ** The aggregation step: errors and repeated runs *)

Lemma items_run_never_returns analyzer rows st w w' st' :
  items_run analyzer rows st w w' st' ->
  never_returns analyzer ->
  fs w' = fs w /\ completed st' = completed st.
Proof.
  intros Hrun Hnever.
  induction Hrun as [|row rows st w w1 st1 w2 st2 Hstep Hrun IH]; [done|].
  destruct IH as [-> ->].
  destruct Hstep as [v Hv|k d rest Hn Ha Hc|e Hn Ha|Hn Ha|k d rest e Hn Ha Hc];
    try done; by destruct (Hnever _ _ _ _ _ Ha).
Qed.

(** X8. A run on an output directory that has no [clusters] yet, in which
    no analysis returns a cluster (the analyzer raises or returns nothing
    every time, or the table is empty), does not complete: the loop writes
    nothing, [os.listdir] in [combine_results] raises [FileNotFoundError],
    and [main] ends with it, the output directory as it was; or the loop
    is interrupted before by an exception of the analyzer that is no
    [Exception], and [main] ends with that one, the output directory as it
    was. *)
Theorem run_that_saves_nothing_on_a_new_directory_aborts
    (args : Args) (script_dir : string)
    (ClusterAnalyzer : string -> string -> Analyzer)
    (cluster_df : list Row) (f : FS) :
  fs_clusters f = None ->
  never_returns (ClusterAnalyzer (args_model args) (args_temperature args)) ->
  exists w' e,
    main args script_dir ClusterAnalyzer cluster_df (start f) = (w', Raise e) /\
    (exn_class_of e = FileNotFoundError \/
     is_exception e = false /\
     exists n row,
       ClusterAnalyzer (args_model args) (args_temperature args) n row
       = Raised e) /\
    fs w' = f.
Proof.
  intros Hnone Hnever.
  assert (Hd : discover (path_join script_dir (args_output_dir args))
                 (fs (start f)) = Ok ∅).
  { unfold discover. cbn. by rewrite Hnone. }
  destruct (main_run args script_dir ClusterAnalyzer cluster_df (start f) ∅ Hd)
    as [(wl & st & wc & rc & Hrun & Hcomb & Hm)
       |(pre & row & post & w1 & st1 & e & _ & Hrun & (_ & Ha & He) & Hm)];
    destruct (items_run_never_returns _ _ _ _ _ _ Hrun Hnever) as [Hfs _];
    rewrite fs_banner in Hfs; cbn in Hfs.
  - rewrite combine_results_eq, fs_before_combine, Hfs, Hnone in Hcomb.
    injection Hcomb as <- <-. rewrite Hm.
    eexists _, _. split; [reflexivity|]. split; [by left|].
    by rewrite fs_before_combine.
  - exists (called w1 row), e. split; [done|].
    split; [right; split; [done|]; by eexists _, _|]. done.
Qed.

Lemma run_that_saves_nothing_witness :
  exists w' e,
    main Sample.args "/work" (fun _ _ => Sample.failing) Sample.table
      (start Sample.empty_fs) = (w', Raise e) /\
    exn_class_of e = FileNotFoundError /\
    fs w' = Sample.empty_fs.
Proof.
  destruct (run_that_saves_nothing_on_a_new_directory_aborts Sample.args
              "/work" (fun _ _ => Sample.failing) Sample.table
              Sample.empty_fs)
    as (w' & e & Hm & [Hc|(He & n & row & Ha)] & Hfs).
  - reflexivity.
  - intros n row k dumped rest. discriminate.
  - by exists w', e.
  - injection Ha as <-. discriminate He.
Defined.

Lemma len_from_field d k (dflt := VList []) :
  len (from_option id dflt (assoc_get k d))
  = if has_len d k then Ok (size_of d k)
    else Raise (Exn TypeError "object has no len()").
Proof.
  unfold has_len, size_of. by destruct (assoc_get k d) as [[]|].
Qed.

(** X9. The row of a result, as [combine_results] computes it. For a
    dictionary whose three member fields are each absent, a list, a string
    or a dictionary, the row has the four fields as [get] returns them
    ([None] when absent) and the three sizes, 0 for an absent field. A
    member field that is there with another value ([null], a number, a
    boolean) makes [len] raise [TypeError], and a document that is no
    dictionary makes [get] raise [AttributeError]. *)
Theorem summary_row_or_error (r : value) :
  match r with
  | VDict d =>
      if has_len d "established_genes" && has_len d "novel_role_genes"
         && has_len d "uncharacterized_genes"
      then summary_of r
           = Ok {| s_cluster_id := field d "cluster_id";
                   s_dominant_process := field d "dominant_process";
                   s_pathway_confidence := field d "pathway_confidence";
                   s_summary := field d "summary";
                   s_num_established := size_of d "established_genes";
                   s_num_novel := size_of d "novel_role_genes";
                   s_num_uncharacterized := size_of d "uncharacterized_genes" |}
      else exists e, summary_of r = Raise e /\ exn_class_of e = TypeError
  | _ => exists e, summary_of r = Raise e /\ exn_class_of e = AttributeError
  end.
Proof.
  destruct r as [| | | | | |d]; try by eexists.
  unfold summary_of, get. rewrite !len_from_field.
  destruct (has_len d "established_genes"); [|by eexists].
  destruct (has_len d "novel_role_genes"); [|by eexists].
  destruct (has_len d "uncharacterized_genes"); [|by eexists].
  reflexivity.
Qed.

Lemma summary_of_raise_class r e :
  summary_of r = Raise e ->
  exn_class_of e = AttributeError \/ exn_class_of e = TypeError.
Proof.
  destruct r as [| | | | | |d]; try (intros [= <-]; by left).
  unfold summary_of, get. rewrite !len_from_field.
  destruct (has_len d "established_genes"); [|intros [= <-]; by right].
  destruct (has_len d "novel_role_genes"); [|intros [= <-]; by right].
  destruct (has_len d "uncharacterized_genes"); [|intros [= <-]; by right].
  done.
Qed.

Lemma add_summaries_raise rs acc r e0 :
  r ∈ rs -> summary_of r = Raise e0 ->
  exists e, fold_result add_summary rs acc = Raise e /\
            (exn_class_of e = AttributeError \/ exn_class_of e = TypeError).
Proof.
  intros Hin Hr. revert acc.
  induction rs as [|x rs IH]; intros acc; [by apply elem_of_nil in Hin|].
  cbn. unfold add_summary at 1.
  destruct (summary_of x) as [row|e] eqn:Hx.
  - apply elem_of_cons in Hin as [->|Hin]; [congruence|]. by apply IH.
  - exists e. split; [done|]. by eapply summary_of_raise_class.
Qed.

Lemma read_documents_parse od dir (l : list string) acc :
  Forall (fun g => PyStr.endswith g ".json" = true ->
                   exists u, assoc_get g dir = Some (Json u)) l ->
  fold_result (read_document od dir) l acc
  = Ok (acc ++ omap (document_of dir) l).
Proof.
  intros Hall. revert acc.
  induction Hall as [|g l Hg Hl IH]; intros acc; cbn [fold_result].
  - by rewrite app_nil_r.
  - unfold read_document at 1. rewrite omap_cons. unfold document_of at 1.
    destruct (PyStr.endswith g ".json"); [|apply IH].
    destruct (Hg eq_refl) as [u ->]. rewrite IH. by rewrite <- app_assoc.
Qed.

(** X11. The aggregation step can be run again: after a call that
    returned, a second call on the world it left returns the same paths
    and leaves that world as it is, the two aggregate files included. *)
Theorem aggregation_can_be_repeated
    (output_dir model_name : string) (w w1 : World) (paths : string * string) :
  combine_results output_dir model_name w = (w1, Ok paths) ->
  combine_results output_dir model_name w1 = (w1, Ok paths).
Proof.
  rewrite !combine_results_eq.
  destruct (fs_clusters (fs w)) as [dir|] eqn:Hdir; [|done].
  cbv zeta.
  destruct (aggregate output_dir model_name dir (fs_top (fs w)))
    as [top' r] eqn:Hagg.
  cbn [fst snd]. intros H. injection H as <- ->. cbn [fs fs_clusters fs_top].
  by rewrite (aggregate_again _ _ _ _ _ _ Hagg).
Qed.

Lemma aggregation_can_be_repeated_witness :
  let w := start {| fs_clusters :=
                      Some [("cluster_1.json",
                             Json (VDict (filed (Sample.row 1) Sample.dumped)))];
                    fs_top := [] |} in
  let run := combine_results Sample.output_dir "org/model-1" w in
  combine_results Sample.output_dir "org/model-1" run.1
  = (run.1, Ok ("/work/out/org_model-1_results.json",
                "/work/out/org_model-1_results_summaries.tsv")).
Proof.
  intros w run.
  apply (aggregation_can_be_repeated Sample.output_dir "org/model-1" w).
  vm_compute. reflexivity.
Defined.

Lemma contains_replace (a b : ascii) (s : string) :
  a <> b -> PyStr.contains a (PyStr.replace a b s) = false.
Proof.
  intros Hne. induction s as [|c s IH]; [done|].
  cbn [PyStr.replace PyStr.contains]. rewrite IH, orb_false_r.
  destruct (Ascii.eqb c a) eqn:Hc.
  - apply Ascii.eqb_neq. congruence.
  - by rewrite Hc.
Qed.

(** X12. The names of the two aggregate files have no slash, whatever the
    model identifier (its slashes are replaced), and they differ: both
    files are files of the output directory itself, never of [clusters]
    or of another sub-directory, and neither overwrites the other. *)
Theorem aggregate_files_are_in_the_output_directory (model_name : string) :
  PyStr.contains "/" (results_base model_name +:+ ".json") = false /\
  PyStr.contains "/" (results_base model_name +:+ "_summaries.tsv") = false /\
  results_base model_name +:+ ".json"
    <> results_base model_name +:+ "_summaries.tsv".
Proof.
  unfold results_base. rewrite !contains_append.
  rewrite contains_replace by done.
  split; [done|]. split; [done|]. apply aggregate_names_ne.
Qed.

Lemma read_documents_ok_parse od dir (l : list string) acc rs :
  fold_result (read_document od dir) l acc = Ok rs ->
  Forall (fun g => PyStr.endswith g ".json" = true ->
                   exists u, assoc_get g dir = Some (Json u)) l.
Proof.
  revert acc. induction l as [|g l IH]; intros acc; [by constructor|].
  cbn [fold_result]. unfold read_document at 1.
  destruct (PyStr.endswith g ".json") eqn:Hg.
  - destruct (assoc_get g dir) as [[u| | |u0]|] eqn:Hu; try done.
    intros H. constructor; [by eauto|]. by eapply IH.
  - intros H. constructor; [cbn; congruence|]. by eapply IH.
Qed.

Lemma documents_length dir (l : list string) :
  Forall (fun g => PyStr.endswith g ".json" = true ->
                   exists u, assoc_get g dir = Some (Json u)) l ->
  length (omap (document_of dir) l)
  = length (filter (fun f => Is_true (PyStr.endswith f ".json")) l).
Proof.
  induction 1 as [|g l Hg Hl IH]; [done|].
  rewrite omap_cons. unfold document_of at 1.
  destruct (PyStr.endswith g ".json") eqn:He.
  - destruct (Hg eq_refl) as [u ->].
    rewrite filter_cons_True by (by rewrite He). cbn. by rewrite IH.
  - rewrite filter_cons_False by (rewrite He; intros []). done.
Qed.

(** X10. [combine_results] writes the combined report before it computes
    the summaries. When every name of the listing has a sort key, every
    [.json] file parses and one of the documents has no summary row, the
    step raises the [AttributeError] or [TypeError] of a row after the
    combined report is written with all the documents (the document of
    every [.json] file is in it, and it has as many entries as the listing
    has such names), and it leaves the summaries file and [clusters] as
    they were. *)
Theorem aggregation_can_fail_after_writing_the_report
    (output_dir model_name : string) (w : World) (dir : directory)
    (f : string) (v : value) (e0 : exn) :
  fs_clusters (fs w) = Some dir ->
  Forall (fun name => sortable name = true) (map fst dir) ->
  Forall (fun g => PyStr.endswith g ".json" = true ->
                   exists u, assoc_get g dir = Some (Json u)) (map fst dir) ->
  PyStr.endswith f ".json" = true ->
  assoc_get f dir = Some (Json v) ->
  summary_of v = Raise e0 ->
  exists w' e all_results,
    combine_results output_dir model_name w = (w', Raise e) /\
    (exn_class_of e = AttributeError \/ exn_class_of e = TypeError) /\
    assoc_get (results_base model_name +:+ ".json") (fs_top (fs w'))
      = Some (combined_report model_name all_results) /\
    (forall name, name ∈ map fst dir -> PyStr.endswith name ".json" = true ->
       exists u, assoc_get name dir = Some (Json u) /\ u ∈ all_results) /\
    length all_results = length (json_names dir) /\
    assoc_get (results_base model_name +:+ "_summaries.tsv") (fs_top (fs w'))
      = assoc_get (results_base model_name +:+ "_summaries.tsv") (fs_top (fs w)) /\
    fs_clusters (fs w') = fs_clusters (fs w).
Proof.
  intros Hdir Hsort Hread Hend Hf Hv.
  destruct (sorted_ok _ Hsort) as [ordered Hordered].
  destruct (sorted_ordered _ _ Hordered) as [Hperm _].
  assert (Hparse : Forall (fun g => PyStr.endswith g ".json" = true ->
                     exists u, assoc_get g dir = Some (Json u)) ordered)
    by (by rewrite Hperm).
  assert (Hr : fold_result (read_document output_dir dir) ordered []
               = Ok (omap (document_of dir) ordered)).
  { by apply read_documents_parse. }
  assert (Hall : forall name, name ∈ map fst dir ->
            PyStr.endswith name ".json" = true ->
            exists u, assoc_get name dir = Some (Json u) /\
                      u ∈ omap (document_of dir) ordered).
  { intros name Hin Hen. rewrite <- Hperm in Hin.
    rewrite Forall_forall in Hparse.
    destruct (Hparse name Hin Hen) as [u Hu]. exists u. split; [done|].
    apply list_elem_of_omap. exists name. split; [done|].
    unfold document_of. by rewrite Hen, Hu. }
  assert (Hin : v ∈ omap (document_of dir) ordered).
  { destruct (Hall f) as (u & Hu & Huin); [|done|congruence].
    apply assoc_get_Some_elem in Hf.
    apply list_elem_of_fmap. by exists (f, Json v). }
  destruct (add_summaries_raise _ [] _ _ Hin Hv) as (e & He & Hcls).
  rewrite combine_results_eq, Hdir. unfold aggregate.
  rewrite Hordered, Hr. cbv zeta. rewrite He. cbn [fst snd].
  eexists _, e, _. split; [reflexivity|]. cbn [fs fs_top fs_clusters].
  split; [done|]. split; [apply assoc_get_set_eq|].
  split; [exact Hall|]. split; [|split; [|done]].
  - rewrite documents_length by done. unfold json_names.
    apply Permutation_length. by rewrite Hperm.
  - apply assoc_get_set_ne, aggregate_names_ne.
Qed.

Lemma aggregation_failure_witness :
  let dir := [("cluster_1.json", Json (VDict [("cluster_id", VStr "1")]));
              ("cluster_2.json",
               Json (VDict [("cluster_id", VStr "2");
                            ("novel_role_genes", VNone)]))] in
  let w := start {| fs_clusters := Some dir; fs_top := [] |} in
  exists w' e all_results,
    combine_results Sample.output_dir "org/model-1" w = (w', Raise e) /\
    (exn_class_of e = AttributeError \/ exn_class_of e = TypeError) /\
    assoc_get (results_base "org/model-1" +:+ ".json") (fs_top (fs w'))
      = Some (combined_report "org/model-1" all_results) /\
    (forall name, name ∈ map fst dir -> PyStr.endswith name ".json" = true ->
       exists u, assoc_get name dir = Some (Json u) /\ u ∈ all_results) /\
    length all_results = length (json_names dir) /\
    assoc_get (results_base "org/model-1" +:+ "_summaries.tsv") (fs_top (fs w'))
      = assoc_get (results_base "org/model-1" +:+ "_summaries.tsv")
          (fs_top (fs w)) /\
    fs_clusters (fs w') = fs_clusters (fs w).
Proof.
  intros dir w.
  apply (aggregation_can_fail_after_writing_the_report Sample.output_dir
           "org/model-1" w dir "cluster_2.json"
           (VDict [("cluster_id", VStr "2"); ("novel_role_genes", VNone)])
           (Exn TypeError "object has no len()")).
  - reflexivity.
  - repeat first [apply List.Forall_nil
                 |apply List.Forall_cons; [reflexivity|]].
  - repeat first [apply List.Forall_nil
                 |apply List.Forall_cons; [intros _; by eexists|]].
  - reflexivity.
  - reflexivity.
  - reflexivity.
Defined.

(** X13. After a run that completes, the combined report lists exactly
    the documents of the [.json] files of [clusters]: every such file
    parses and its document is in the list, the list has as many entries
    as the listing has names that end in [.json], and the summaries have
    as many rows. *)
Theorem completed_run_reports_every_checkpoint
    (args : Args) (script_dir : string)
    (ClusterAnalyzer : string -> string -> Analyzer)
    (cluster_df : list Row) (f0 : FS) (w1 : World) :
  main args script_dir ClusterAnalyzer cluster_df (start f0) = (w1, Ok tt) ->
  exists dir all_results rows,
    fs_clusters (fs w1) = Some dir /\
    assoc_get (results_base (args_model args) +:+ ".json") (fs_top (fs w1))
      = Some (combined_report (args_model args) all_results) /\
    assoc_get (results_base (args_model args) +:+ "_summaries.tsv")
      (fs_top (fs w1)) = Some (Tsv rows) /\
    (forall name, name ∈ map fst dir -> PyStr.endswith name ".json" = true ->
       exists v, assoc_get name dir = Some (Json v) /\ v ∈ all_results) /\
    length all_results = length (json_names dir) /\
    length rows = length (json_names dir).
Proof.
  intros Hmain.
  set (od := path_join script_dir (args_output_dir args)).
  assert (exists C0, discover od (fs (start f0)) = Ok C0) as [C0 Hd0].
  { rewrite main_eq in Hmain. cbv zeta in Hmain. fold od in Hmain.
    destruct (discover od (fs (start f0))); [by eexists|done]. }
  destruct (main_run_through args script_dir ClusterAnalyzer cluster_df
              (start f0) C0 _ _ Hd0 Hmain)
    as (wl & st & wc & rc & _ & Hcomb & Hm); [by right|].
  destruct rc as [paths|e]; [|done].
  injection Hm as ->. fold od in Hcomb.
  destruct (combine_results_ok_inv _ _ _ _ _ Hcomb)
    as (dir & kl0 & rows & _ & Hdir & Hk & Hr & Hs & Htop).
  destruct (keyed_inv _ _ _ Hk) as [Hm _].
  set (ordered := map snd (sort_by_key kl0)) in *.
  assert (Hperm : ordered ≡ₚ map fst dir).
  { rewrite <- Hm. apply fmap_Permutation, sort_by_key_perm. }
  pose proof (read_documents_ok_parse _ _ _ _ _ Hr) as Hparse.
  exists dir, (omap (document_of dir) ordered), rows.
  rewrite fs_report. split; [done|]. rewrite Htop.
  split; [|split; [apply assoc_get_set_eq|]].
  { rewrite assoc_get_set_ne by (symmetry; apply aggregate_names_ne).
    apply assoc_get_set_eq. }
  assert (Hlen : length (omap (document_of dir) ordered)
                 = length (json_names dir)).
  { rewrite documents_length by done. unfold json_names.
    apply Permutation_length. by rewrite Hperm. }
  split; [|split; [done|]].
  - intros name Hin Hend. rewrite <- Hperm in Hin.
    rewrite Forall_forall in Hparse.
    destruct (Hparse name Hin Hend) as [v Hv]. exists v. split; [done|].
    apply list_elem_of_omap. exists name. split; [done|].
    unfold document_of. by rewrite Hend, Hv.
  - rewrite (add_summaries_length _ _ _ Hs). cbn. exact Hlen.
Qed.

Lemma completed_run_reports_witness :
  exists dir all_results rows,
    fs_clusters (fs Sample.first_run.1) = Some dir /\
    assoc_get (results_base (args_model Sample.args) +:+ ".json")
      (fs_top (fs Sample.first_run.1))
      = Some (combined_report (args_model Sample.args) all_results) /\
    assoc_get (results_base (args_model Sample.args) +:+ "_summaries.tsv")
      (fs_top (fs Sample.first_run.1)) = Some (Tsv rows) /\
    (forall name, name ∈ map fst dir -> PyStr.endswith name ".json" = true ->
       exists v, assoc_get name dir = Some (Json v) /\ v ∈ all_results) /\
    length all_results = length (json_names dir) /\
    length rows = length (json_names dir).
Proof.
  apply (completed_run_reports_every_checkpoint Sample.args "/work"
           (fun _ _ => Sample.succeeding) Sample.table Sample.empty_fs
           Sample.first_run.1).
  vm_compute. reflexivity.
Defined.

(** ** The loop: what it attempts, what it leaves alone *)

Lemma item_step_attempted analyzer row st w w1 st1 :
  item_step analyzer row st w w1 st1 ->
  (calls w1 = calls w /\ skipped st1 = S (skipped st) /\
   is_Some (completed st !! row_id row)) \/
  (calls w1 = calls w ++ [row] /\ skipped st1 = skipped st /\
   completed st !! row_id row = None).
Proof. intros []; (left; by eauto) || (by right). Qed.

Lemma items_run_attempted analyzer rows st w w' st' :
  items_run analyzer rows st w w' st' ->
  exists attempted,
    calls w' = calls w ++ attempted /\
    attempted `sublist_of` rows /\
    Forall (fun r => completed st !! row_id r = None) attempted /\
    skipped st' + length attempted = skipped st + length rows.
Proof.
  induction 1 as [st w|row rows st w w1 st1 w2 st2 Hstep Hrun IH].
  - exists []. rewrite app_nil_r. by repeat split.
  - destruct IH as (att & Hc & Hsub & Hall & Hlen).
    assert (Hall' : Forall (fun r => completed st !! row_id r = None) att).
    { eapply Forall_impl; [exact Hall|]. intros r Hr.
      by eapply item_step_None. }
    destruct (item_step_attempted _ _ _ _ _ _ Hstep)
      as [(Hc1 & Hs1 & _)|(Hc1 & Hs1 & Hn)].
    + exists att. rewrite Hc, Hc1. split; [done|].
      split; [by apply sublist_cons|]. split; [done|]. cbn. lia.
    + exists (row :: att). rewrite Hc, Hc1, <- app_assoc. split; [done|].
      split; [by apply sublist_skip|]. split; [by constructor|]. cbn. lia.
Qed.

(** X14. The loop goes through the table once, in order: the rows for
    which the analyzer is called are rows of the table in the order of the
    table, and none of them had its id in the completed set at the start.
    The loop raises nothing but what the analyzer raised that is no
    [Exception], at the row it attempted last. Otherwise it returns, as it
    does with every analyzer whose failures are [Exception]s, and every
    row is then either among the attempted or counted as skipped. *)
Theorem loop_attempts_each_row_at_most_once_in_order
    (analyzer : Analyzer) (output_dir : string) (cluster_df : list Row)
    (st : LoopState) (w : World) :
  exists w' r attempted,
    process_clusters analyzer output_dir cluster_df st w = (w', r) /\
    calls w' = calls w ++ attempted /\
    attempted `sublist_of` cluster_df /\
    Forall (fun r => completed st !! row_id r = None) attempted /\
    match r with
    | Ok st' => skipped st' + length attempted = skipped st + length cluster_df
    | Raise e =>
        is_exception e = false /\
        exists row,
          last attempted = Some row /\
          analyzer (length (calls w') - 1) row = Raised e
    end /\
    (raises_exceptions analyzer -> exists st', r = Ok st').
Proof.
  destruct (process_clusters_run analyzer output_dir cluster_df st w)
    as [(w' & st' & Hloop & Hrun)
       |(pre & row & post & w1 & st1 & e & -> & Hrun & (Hn & Ha & He) & Hloop)];
    destruct (items_run_attempted _ _ _ _ _ _ Hrun)
      as (att & Hc & Hsub & Hall & Hlen).
  - exists w', (Ok st'), att. do 4 (split; [done|]). split; [done|].
    intros _. by eexists.
  - exists (called w1 row), (Raise e), (att ++ [row]).
    split; [done|]. cbn [called calls]. rewrite Hc, <- app_assoc.
    split; [done|]. split; [|split; [|split]].
    + apply sublist_app; [done|]. apply sublist_skip, sublist_nil_l.
    + apply Forall_app. split; [done|]. constructor; [|done].
      by eapply items_run_None.
    + split; [done|]. exists row. split; [apply last_snoc|].
      rewrite app_assoc, <- Hc, length_app. cbn.
      by replace (length (calls w1) + 1 - 1) with (length (calls w1)) by lia.
    + intros Hexn. apply Hexn in Ha. congruence.
Qed.

Lemma for_each_app {A S} (body : A -> S -> M S) (l1 l2 : list A) (s : S)
    (w : World) :
  for_each (l1 ++ l2) body s w
  = match for_each l1 body s w with
    | (w1, Ok s1) => for_each l2 body s1 w1
    | (w1, Raise e) => (w1, Raise e)
    end.
Proof.
  revert s w. induction l1 as [|x l1 IH]; intros s w; [done|].
  cbn. unfold bind. destruct (body x s w) as [w1 [s1|e]]; [apply IH|done].
Qed.

(** X15. An id that is completed by the time the loop reaches a row, be it
    from the discovery or from a save earlier in the same run (a second row
    with the same id), makes the loop skip that row: no call, no write,
    the skip counter goes up by one, and the loop goes on with the rows
    that follow. *)
Theorem row_completed_earlier_in_the_run_is_skipped
    (analyzer : Analyzer) (output_dir : string) (pre post : list Row)
    (row : Row) (st st1 : LoopState) (w w1 : World) :
  process_clusters analyzer output_dir pre st w = (w1, Ok st1) ->
  is_Some (completed st1 !! row_id row) ->
  process_clusters analyzer output_dir (pre ++ row :: post) st w
  = process_clusters analyzer output_dir post
      {| completed := completed st1; skipped := S (skipped st1) |} w1.
Proof.
  intros Hpre [v Hv]. unfold process_clusters in *.
  rewrite for_each_app, Hpre. cbn. unfold bind at 1.
  unfold process_cluster at 1. fold (row_id row). by rewrite Hv.
Qed.

Lemma row_completed_earlier_witness :
  process_clusters Sample.succeeding Sample.output_dir
    ([Sample.row 4] ++ Sample.row 4 :: [Sample.row 5]) Sample.fresh
    (start Sample.empty_fs)
  = process_clusters Sample.succeeding Sample.output_dir [Sample.row 5]
      {| completed := completed (saved_state Sample.fresh (Sample.row 4)
                                   Sample.dumped);
         skipped := 1 |}
      (saved_world (start Sample.empty_fs) (Sample.row 4) Sample.dumped).
Proof.
  apply (row_completed_earlier_in_the_run_is_skipped Sample.succeeding
           Sample.output_dir [Sample.row 4] [Sample.row 5] (Sample.row 4)
           Sample.fresh
           (saved_state Sample.fresh (Sample.row 4) Sample.dumped)
           (start Sample.empty_fs)
           (saved_world (start Sample.empty_fs) (Sample.row 4) Sample.dumped)).
  - vm_compute. reflexivity.
  - vm_compute. eauto.
Defined.

Lemma item_step_keeps_files analyzer row st w w1 st1 name :
  item_step analyzer row st w w1 st1 ->
  is_Some (cluster_lookup (fs w) name) ->
  is_Some (cluster_lookup (fs w1) name).
Proof.
  intros Hstep Hs. destruct Hstep; try done.
  - destruct (decide (name = cluster_file (row_id row))) as [->|Hne].
    + rewrite cluster_lookup_saved_eq. by eexists.
    + by rewrite cluster_lookup_saved_ne.
  - by rewrite (cluster_lookup_made_dir (called w row)).
Qed.

Lemma items_run_keeps_files analyzer rows st w w' st' name :
  items_run analyzer rows st w w' st' ->
  is_Some (cluster_lookup (fs w) name) ->
  is_Some (cluster_lookup (fs w') name).
Proof.
  induction 1 as [|row rows st w w1 st1 w2 st2 Hstep Hrun IH]; [done|].
  intros Hs. apply IH. by eapply item_step_keeps_files.
Qed.

Lemma item_step_stdout analyzer row st w w1 st1 :
  item_step analyzer row st w w1 st1 -> stdout w `prefix_of` stdout w1.
Proof.
  intros []; cbn; try done; by apply prefix_app_r.
Qed.

Lemma items_run_stdout analyzer rows st w w' st' :
  items_run analyzer rows st w w' st' -> stdout w `prefix_of` stdout w'.
Proof.
  induction 1 as [|row rows st w w1 st1 w2 st2 Hstep Hrun IH]; [done|].
  etrans; [by eapply item_step_stdout|done].
Qed.

(** X16. What the loop never does: it writes no file of the output
    directory outside [clusters]; it removes no file of [clusters] (a file
    that is there stays there, possibly with a new content); it drops no id
    from the completed set and never changes the result kept under an id;
    it erases nothing of what was printed. *)
Theorem loop_only_adds
    (analyzer : Analyzer) (output_dir : string) (cluster_df : list Row)
    (st st' : LoopState) (w w' : World) :
  process_clusters analyzer output_dir cluster_df st w = (w', Ok st') ->
  fs_top (fs w') = fs_top (fs w) /\
  (forall name, is_Some (cluster_lookup (fs w) name) ->
                is_Some (cluster_lookup (fs w') name)) /\
  (forall k, is_Some (completed st !! k) ->
             completed st' !! k = completed st !! k) /\
  stdout w `prefix_of` stdout w'.
Proof.
  intros Hloop.
  pose proof (process_clusters_ok _ _ _ _ _ _ _ Hloop) as Hitems.
  split; [by eapply items_run_top|]. split; [|split].
  - intros name. by eapply items_run_keeps_files.
  - intros k Hk. by eapply items_run_stable.
  - by eapply items_run_stdout.
Qed.

Lemma loop_only_adds_witness :
  fs_top (fs SampleResume.loop.1)
    = fs_top (fs (banner SampleResume.C (start SampleResume.f))) /\
  is_Some (cluster_lookup (fs SampleResume.loop.1) "cluster_4.json") /\
  stdout (banner SampleResume.C (start SampleResume.f))
    `prefix_of` stdout SampleResume.loop.1.
Proof.
  destruct (loop_only_adds Sample.succeeding Sample.output_dir
              SampleResume.table
              {| completed := SampleResume.C; skipped := 0 |}
              {| completed :=
                   <["5" := VDict (filed (Sample.row 5) Sample.dumped)]>
                     SampleResume.C;
                 skipped := 1 |}
              (banner SampleResume.C (start SampleResume.f))
              SampleResume.loop.1)
    as (Htop & Hfiles & _ & Hout).
  - vm_compute. reflexivity.
  - split; [exact Htop|]. split; [|exact Hout].
    apply Hfiles. vm_compute. eauto.
Defined.

(** X17. An analyzer result without any cluster is dropped in silence:
    the loop prints no line for the row (neither saved nor error), writes
    no file and does not complete the id, so that the row is attempted
    again by the next run. *)
Theorem empty_analysis_is_dropped_silently
    (analyzer : Analyzer) (output_dir : string) (row : Row)
    (st : LoopState) (w : World) :
  completed st !! row_id row = None ->
  analyzer (length (calls w)) row = Returned [] ->
  process_cluster analyzer output_dir row st w
  = ({| fs := fs w; stdout := stdout w; calls := calls w ++ [row] |}, Ok st).
Proof.
  intros Hnone Ha. unfold process_cluster. fold (row_id row). rewrite Hnone.
  unfold try_except, bind, analyze. by rewrite Ha.
Qed.

Lemma empty_analysis_witness :
  process_cluster (fun _ _ => Returned []) Sample.output_dir (Sample.row 4)
    Sample.fresh (start Sample.empty_fs)
  = ({| fs := Sample.empty_fs; stdout := []; calls := [Sample.row 4] |},
     Ok Sample.fresh).
Proof.
  apply (empty_analysis_is_dropped_silently (fun _ _ => Returned [])
           Sample.output_dir (Sample.row 4) Sample.fresh
           (start Sample.empty_fs)); reflexivity.
Defined.

(** ** From one invocation to the next *)

Lemma consistent_without_clusters f : fs_clusters f = None -> consistent f.
Proof. intros H dir name cid Hd. congruence. Qed.

(** X18. On a directory in which every file that declares an id is the
    file of that id, what the loop completes is what the next invocation
    discovers: after the loop, the directory still has that property,
    [load_existing_results] returns on it, and the ids it returns are
    exactly the ids of the completed set at the end of the loop. *)
Theorem next_discovery_finds_what_the_loop_completed
    (analyzer : Analyzer) (output_dir model_name : string)
    (cluster_df : list Row) (f : FS) (C : gmap string value)
    (w' : World) (st' : LoopState) :
  consistent f ->
  load_existing_results output_dir model_name (start f) = (start f, Ok C) ->
  process_clusters analyzer output_dir cluster_df
    {| completed := C; skipped := 0 |} (banner C (start f)) = (w', Ok st') ->
  consistent (fs w') /\
  exists C',
    load_existing_results output_dir model_name (start (fs w'))
      = (start (fs w'), Ok C') /\
    forall k, is_Some (C' !! k) <-> is_Some (completed st' !! k).
Proof.
  intros Hcons Hload Hloop.
  rewrite load_existing_results_eq in Hload. injection Hload as Hd.
  cbn [fs start] in Hd.
  pose proof (process_clusters_ok _ _ _ _ _ _ _ Hloop) as Hitems.
  assert (Hin : in_step (fs (banner C (start f)))
                  {| completed := C; skipped := 0 |}).
  { rewrite fs_banner. by apply (in_step_start output_dir). }
  split.
  - by destruct (items_run_in_step _ _ _ _ _ _ Hitems Hin) as [? _].
  - destruct (discover_after_run _ output_dir _ _ _ _ _ Hitems Hin)
      as (C' & HC' & Hk).
    exists C'. rewrite load_existing_results_eq. cbn [fs start].
    by rewrite HC'.
Qed.

Lemma next_discovery_witness :
  let loop := process_clusters Sample.flaky Sample.output_dir Sample.table
                Sample.fresh (banner ∅ (start Sample.empty_fs)) in
  consistent (fs loop.1) /\
  exists C',
    load_existing_results Sample.output_dir "org/model-1" (start (fs loop.1))
      = (start (fs loop.1), Ok C') /\
    forall k, is_Some (C' !! k)
              <-> is_Some (completed (saved_state Sample.fresh (Sample.row 2)
                                        Sample.dumped) !! k).
Proof.
  intros loop.
  apply (next_discovery_finds_what_the_loop_completed Sample.flaky
           Sample.output_dir "org/model-1" Sample.table Sample.empty_fs ∅
           loop.1 (saved_state Sample.fresh (Sample.row 2) Sample.dumped)).
  - by apply consistent_without_clusters.
  - reflexivity.
  - vm_compute. reflexivity.
Defined.

(** X19. Resuming after an interruption. A first invocation starts on a
    directory in which every declaring file is the file of its id, and is
    stopped when its loop has gone through the rows [pre]. A fresh
    invocation over the table, one row per id, then calls the analyzer
    only for rows that the stopped loop had not completed, in the order of
    the table; unless it ends in turn with an exception that is no
    [Exception], it calls the analyzer exactly for these rows; and in
    every case it leaves the checkpoint of every row that the stopped loop
    had completed as it is. *)
Theorem resuming_after_an_interruption
    (args : Args) (script_dir : string) (analyzer : Analyzer)
    (ClusterAnalyzer : string -> string -> Analyzer)
    (pre cluster_df : list Row) (f0 : FS) (C0 : gmap string value)
    (wi : World) (sti : LoopState) (w' : World) (r : result unit) :
  consistent f0 ->
  load_existing_results (path_join script_dir (args_output_dir args))
    (args_model args) (start f0) = (start f0, Ok C0) ->
  process_clusters analyzer (path_join script_dir (args_output_dir args)) pre
    {| completed := C0; skipped := 0 |} (banner C0 (start f0)) = (wi, Ok sti) ->
  NoDup (map row_id cluster_df) ->
  main args script_dir ClusterAnalyzer cluster_df (start (fs wi)) = (w', r) ->
  calls w' `prefix_of` pending (completed sti) cluster_df /\
  ((forall e, r = Raise e -> is_exception e = true) ->
   calls w' = pending (completed sti) cluster_df) /\
  forall row, row ∈ cluster_df -> is_Some (completed sti !! row_id row) ->
    cluster_lookup (fs w') (cluster_file (row_id row))
    = cluster_lookup (fs wi) (cluster_file (row_id row)).
Proof.
  intros Hcons Hload Hloop Hnd Hmain.
  set (od := path_join script_dir (args_output_dir args)) in *.
  rewrite load_existing_results_eq in Hload. injection Hload as Hd0.
  cbn [fs start] in Hd0.
  pose proof (process_clusters_ok _ _ _ _ _ _ _ Hloop) as Hitems.
  assert (Hin : in_step (fs (banner C0 (start f0)))
                  {| completed := C0; skipped := 0 |}).
  { rewrite fs_banner. by apply (in_step_start od). }
  destruct (discover_after_run _ od _ _ _ _ _ Hitems Hin) as (C1 & Hd1 & Hk).
  destruct (main_calls_and_frame _ _ _ _ _ _ _ _ Hd1 Hnd Hmain)
    as (Hprefix & Hcalls & Hframe).
  rewrite (pending_ext C1 (completed sti)) in Hprefix, Hcalls, Hframe by done.
  split; [done|]. split; [done|]. intros row Hin' Hsome. apply Hframe.
  intros row' [Hnone _]%list_elem_of_filter Heq%cluster_file_inj.
  rewrite Heq, Hnone in Hsome. by destruct Hsome.
Qed.

Lemma resuming_witness :
  let stopped := process_clusters Sample.succeeding "/work/out" [Sample.row 1]
                   Sample.fresh (banner ∅ (start Sample.empty_fs)) in
  let run := main Sample.args "/work" (fun _ _ => Sample.succeeding)
               Sample.table (start (fs stopped.1)) in
  calls run.1 = [Sample.row 2] /\
  cluster_lookup (fs run.1) (cluster_file "1")
  = cluster_lookup (fs stopped.1) (cluster_file "1").
Proof.
  intros stopped run.
  destruct (resuming_after_an_interruption Sample.args "/work"
              Sample.succeeding (fun _ _ => Sample.succeeding)
              [Sample.row 1] Sample.table Sample.empty_fs ∅ stopped.1
              (saved_state Sample.fresh (Sample.row 1) Sample.dumped)
              run.1 run.2) as (_ & Hcalls & Hfiles).
  - by apply consistent_without_clusters.
  - reflexivity.
  - vm_compute. reflexivity.
  - apply (bool_decide_unpack _). vm_compute. reflexivity.
  - apply surjective_pairing.
  - split.
    + apply Hcalls. intros e He. vm_compute in He. discriminate.
    + apply (Hfiles (Sample.row 1)); [apply list_elem_of_here|].
      vm_compute. eauto.
Defined.

(** X20. Two runs in a row. After a first run that completes on a
    directory in which every declaring file is the file of its id, with an
    analyzer that returned a cluster at every call and ids that can name a
    file, a second run over the same table completes as well, calls the
    analyzer not once, reports every row as skipped and leaves the output
    directory as the first run left it. *)
Theorem second_run_is_idle_after_a_clean_first_run
    (args : Args) (script_dir : string)
    (ClusterAnalyzer ClusterAnalyzer' : string -> string -> Analyzer)
    (cluster_df : list Row) (f0 : FS) (w1 : World) :
  consistent f0 ->
  always_returns (ClusterAnalyzer (args_model args) (args_temperature args)) ->
  Forall (fun row => can_create (cluster_file (row_id row)) = true) cluster_df ->
  main args script_dir ClusterAnalyzer cluster_df (start f0) = (w1, Ok tt) ->
  exists w2,
    main args script_dir ClusterAnalyzer' cluster_df (start (fs w1))
      = (w2, Ok tt) /\
    calls w2 = [] /\
    fs w2 = fs w1 /\
    (cluster_df <> [] -> skipped_line (length cluster_df) ∈ stdout w2).
Proof.
  intros Hcons Hret Hnames Hmain.
  destruct (main_ok_inv _ _ _ _ _ _ Hmain)
    as (C0 & wl & st & dir & paths & Hd0 & Hrun & Hdirl & Hdir1 & Hagg).
  set (od := path_join script_dir (args_output_dir args)) in *.
  assert (Hin : in_step (fs (banner C0 (start f0)))
                  {| completed := C0; skipped := 0 |}).
  { rewrite fs_banner. by apply (in_step_start od). }
  destruct (discover_after_run _ od _ _ _ _ _ Hrun Hin) as (C1 & Hd1 & Hk).
  rewrite (discover_clusters od (fs wl) (fs w1)) in Hd1 by congruence.
  apply (rerun_on_completed args script_dir ClusterAnalyzer' cluster_df
           (fs w1) C1 dir paths); try done.
  - eapply Forall_impl;
      [exact (items_run_all_completed _ _ _ _ _ _ Hrun Hret Hnames)|].
    intros row Hrow. by apply Hk.
  - by apply (aggregate_again _ _ _ (fs_top (fs wl))).
Qed.

Lemma second_run_is_idle_witness :
  exists w2,
    main Sample.args "/work" (fun _ _ => Sample.failing) Sample.table
      (start (fs Sample.first_run.1)) = (w2, Ok tt) /\
    calls w2 = [] /\
    fs w2 = fs Sample.first_run.1 /\
    (Sample.table <> [] -> skipped_line (length Sample.table) ∈ stdout w2).
Proof.
  apply (second_run_is_idle_after_a_clean_first_run Sample.args "/work"
           (fun _ _ => Sample.succeeding) (fun _ _ => Sample.failing)
           Sample.table Sample.empty_fs Sample.first_run.1).
  - by apply consistent_without_clusters.
  - intros n row. by eexists _, _, _.
  - repeat first [apply List.Forall_nil
                 |apply List.Forall_cons; [reflexivity|]].
  - vm_compute. reflexivity.
Defined.

(** ** Integer ids: from the id to the file name and back *)

Lemma append_nil_r (s : string) : s +:+ "" = s.
Proof. induction s as [|c s IH]; [done|]. by rewrite append_cons, IH. Qed.

Lemma all_chars_append P a b :
  all_chars P (a +:+ b) = all_chars P a && all_chars P b.
Proof.
  induction a as [|c a IH]; [done|].
  rewrite append_cons. cbn [all_chars]. by rewrite IH, andb_assoc.
Qed.

Lemma all_chars_impl (P Q : ascii -> bool) s :
  (forall c, P c = true -> Q c = true) ->
  all_chars P s = true -> all_chars Q s = true.
Proof.
  intros HPQ. induction s as [|c s IH]; [done|]. cbn.
  intros [Hc Hs]%andb_true_iff. by rewrite (HPQ c Hc), IH.
Qed.

Lemma all_chars_contains P c s :
  all_chars P s = true -> P c = false -> PyStr.contains c s = false.
Proof.
  intros Hs Hc. induction s as [|x s IH]; [done|]. cbn in *.
  apply andb_true_iff in Hs as [Hx Hs]. rewrite IH by done.
  destruct (Ascii.eqb_spec x c) as [->|]; [congruence|done].
Qed.

Lemma all_chars_rev_app P a b :
  all_chars P a = true -> all_chars P b = true ->
  all_chars P (String.rev_app a b) = true.
Proof.
  revert b. induction a as [|c a IH]; intros b; [done|]. cbn.
  intros [Hc Ha]%andb_true_iff Hb. apply IH; [done|]. cbn. by rewrite Hc.
Qed.

Lemma rev_app_rev_app a b c :
  String.rev_app (String.rev_app a b) c = String.rev_app b (a +:+ c).
Proof.
  revert b. induction a as [|x a IH]; intros b; [done|].
  cbn [String.rev_app]. by rewrite IH.
Qed.

Lemma rev_rev s : String.rev (String.rev s) = s.
Proof.
  unfold String.rev. rewrite rev_app_rev_app. cbn. apply append_nil_r.
Qed.

Lemma lstrip_no_space s :
  all_chars (fun c => negb (PyStr.is_space c)) s = true -> PyStr.lstrip s = s.
Proof.
  destruct s as [|c s]; [done|]. cbn.
  intros [Hc _]%andb_true_iff. apply negb_true_iff in Hc. by rewrite Hc.
Qed.

(** [strip] leaves a string without white space as it is. *)
Lemma strip_no_space s :
  all_chars (fun c => negb (PyStr.is_space c)) s = true -> PyStr.strip s = s.
Proof.
  intros Hs. unfold PyStr.strip, PyStr.rstrip.
  rewrite (lstrip_no_space s) by done.
  rewrite lstrip_no_space; [apply rev_rev|].
  by apply all_chars_rev_app.
Qed.

Lemma pretty_N_char_digit d :
  (d < 10)%N ->
  PyStr.is_digit (pretty_N_char d) = true /\
  PyStr.digit_val (pretty_N_char d) = Z.of_N d.
Proof.
  intros Hd.
  assert (d = 0 \/ d = 1 \/ d = 2 \/ d = 3 \/ d = 4 \/ d = 5 \/ d = 6
          \/ d = 7 \/ d = 8 \/ d = 9)%N as H by lia.
  by repeat (destruct H as [->|H]); subst.
Qed.

Lemma count_digits_le s : PyStr.count_digits s <= String.length s.
Proof.
  induction s as [|c s IH]; [done|]. cbn.
  destruct (PyStr.is_digit c); lia.
Qed.

(** The digits that [pretty] puts in front of [s], and how [int] reads
    them back. *)
Lemma pretty_N_go_digits (x : N) (s : string) :
  exists d,
    pretty_N_go x s = d +:+ s /\
    all_chars PyStr.is_digit d = true /\
    ((0 < x)%N -> d <> "") /\
    forall t acc prev,
      PyStr.parse_digits (d +:+ t) acc prev
      = PyStr.parse_digits t (acc * 10 ^ Z.of_nat (String.length d) + Z.of_N x)%Z
          (prev || negb (String.eqb d "")).
Proof.
  revert s. induction (N.lt_wf_0 x) as [x _ IH]; intros s.
  assert (x = 0 \/ 0 < x)%N as [->|Hx] by lia.
  - exists "". rewrite pretty_N_go_0. split; [done|]. split; [done|].
    split; [lia|]. intros t acc prev. cbn.
    rewrite orb_false_r. f_equal. lia.
  - rewrite pretty_N_go_step by done.
    destruct (IH (x `div` 10)%N (N.div_lt x 10 Hx eq_refl)
                (String (pretty_N_char (x `mod` 10)) s))
      as (d' & Hd' & Hall & _ & Hparse).
    destruct (pretty_N_char_digit (x `mod` 10)%N) as [Hdig Hval];
      [by apply N.mod_lt|].
    exists (d' +:+ String (pretty_N_char (x `mod` 10)) "").
    split; [by rewrite Hd', append_assoc|]. split.
    { rewrite all_chars_append, Hall. cbn. by rewrite Hdig. }
    split.
    { intros _ H. apply (f_equal String.length) in H.
      rewrite length_append in H. cbn in H. lia. }
    intros t acc prev. rewrite append_assoc. rewrite append_cons.
    change ("" +:+ t) with t. rewrite Hparse.
    cbn [PyStr.parse_digits]. rewrite Hdig, Hval.
    assert (Hne : String.eqb (d' +:+ String (pretty_N_char (x `mod` 10)) "") ""
                  = false).
    { apply String.eqb_neq. intros H. apply (f_equal String.length) in H.
      rewrite length_append in H. cbn in H. lia. }
    rewrite Hne, orb_true_r. f_equal.
    rewrite length_append. cbn [String.length].
    rewrite Nat2Z.inj_add, Z.pow_add_r by lia.
    change (10 ^ Z.of_nat 1)%Z with 10%Z.
    pose proof (N.div_mod x 10 ltac:(lia)) as Hdm.
    apply (f_equal Z.of_N) in Hdm. rewrite N2Z.inj_add, N2Z.inj_mul in Hdm.
    change (Z.of_N 10) with 10%Z in Hdm. lia.
Qed.

Lemma pretty_positive_digits (p : positive) :
  all_chars PyStr.is_digit (pretty p) = true /\
  pretty p <> "" /\
  PyStr.parse_digits (pretty p) 0 false = Some (Z.pos p).
Proof.
  unfold pretty, pretty_positive, pretty, pretty_N.
  rewrite decide_False by done.
  destruct (pretty_N_go_digits (N.pos p) "") as (d & Hd & Hall & Hne & Hparse).
  rewrite Hd, append_nil_r. split; [done|]. split; [by apply Hne|].
  rewrite <- (append_nil_r d) at 1. rewrite Hparse. cbn [PyStr.parse_digits].
  assert (String.eqb d "" = false) as ->.
  { apply String.eqb_neq. by apply Hne. }
  cbn. done.
Qed.

Lemma digit_no_space c : PyStr.is_digit c = true -> PyStr.is_space c = false.
Proof.
  unfold PyStr.is_digit, PyStr.is_space.
  intros [H1 H2]%andb_true_iff. apply Nat.leb_le in H1, H2.
  cbv zeta. rewrite !orb_false_iff, andb_false_iff, !Nat.leb_gt, !Nat.eqb_neq.
  lia.
Qed.

Lemma digit_not_sign c s :
  PyStr.is_digit c = true ->
  match String c s with
  | String "-" r => (true, r)
  | String "+" r => (false, r)
  | _ => (false, String c s)
  end = (false, String c s).
Proof.
  intros H.
  destruct c as [[] [] [] [] [] [] [] []]; try done; by vm_compute in H.
Qed.

(** [int] reads the decimal form of an integer back, within its limit on
    the number of digits. *)
Lemma int_pretty (z : Z) :
  String.length (pretty z) <= PyStr.int_max_str_digits ->
  PyStr.int (pretty z) = Some z.
Proof.
  destruct z as [|p|p]; [done| |].
  - change (pretty (Z.pos p)) with (pretty p).
    destruct (pretty_positive_digits p) as (Hall & Hne & Hparse).
    intros Hlen. unfold PyStr.int. rewrite strip_no_space.
    2:{ eapply all_chars_impl; [|exact Hall].
        intros c Hc. by rewrite digit_no_space. }
    destruct (pretty p) as [|c s] eqn:Hp; [done|].
    rewrite digit_not_sign by (by apply andb_true_iff in Hall as [? _]).
    assert ((PyStr.int_max_str_digits <? PyStr.count_digits (String c s))
            = false) as ->.
    { apply Nat.ltb_ge. etrans; [apply count_digits_le|done]. }
    by rewrite Hparse.
  - change (pretty (Z.neg p)) with ("-" +:+ pretty p).
    destruct (pretty_positive_digits p) as (Hall & Hne & Hparse).
    intros Hlen. rewrite append_cons in Hlen |- *.
    change ("" +:+ pretty p) with (pretty p) in Hlen |- *.
    cbn [String.length] in Hlen.
    unfold PyStr.int. rewrite strip_no_space.
    2:{ cbn [all_chars]. apply andb_true_iff. split; [done|].
        eapply all_chars_impl; [|exact Hall].
        intros c Hc. by rewrite digit_no_space. }
    assert ((PyStr.int_max_str_digits <? PyStr.count_digits (pretty p))
            = false) as ->.
    { apply Nat.ltb_ge. etrans; [apply count_digits_le|lia]. }
    by rewrite Hparse.
Qed.

Lemma split_no_sep sep s :
  PyStr.contains sep s = false -> PyStr.split sep s = [s].
Proof.
  induction s as [|c s IH]; [done|]. cbn.
  intros [Hc Hs]%orb_false_iff. rewrite Hc, IH by done. done.
Qed.

Lemma split_append_sep sep s t :
  PyStr.contains sep s = false ->
  PyStr.split sep (s +:+ String sep t) !! 0%nat = Some s.
Proof.
  induction s as [|c s IH].
  - intros _. change ("" +:+ String sep t) with (String sep t). cbn.
    by rewrite Ascii.eqb_refl.
  - intros [Hc Hs]%orb_false_iff. rewrite append_cons. cbn [PyStr.split].
    rewrite Hc. specialize (IH Hs).
    destruct (PyStr.split sep (s +:+ String sep t)) as [|h tl]; [done|].
    cbn in IH |- *. by injection IH as ->.
Qed.

Lemma pretty_Z_chars (z : Z) :
  all_chars (fun c => PyStr.is_digit c || Ascii.eqb c "-") (pretty z) = true.
Proof.
  destruct z as [|p|p]; [done| |].
  - change (pretty (Z.pos p)) with (pretty p).
    destruct (pretty_positive_digits p) as (Hall & _).
    eapply all_chars_impl; [|exact Hall]. by intros c ->.
  - change (pretty (Z.neg p)) with ("-" +:+ pretty p).
    rewrite all_chars_append. apply andb_true_iff. split; [done|].
    destruct (pretty_positive_digits p) as (Hall & _).
    eapply all_chars_impl; [|exact Hall]. by intros c ->.
Qed.

Lemma startswith_append (a b : string) : PyStr.startswith (a +:+ b) a = true.
Proof.
  unfold PyStr.startswith. apply String.prefix_correct.
  induction a as [|c a IH].
  - by destruct b.
  - rewrite append_cons. cbn. by rewrite IH.
Qed.

(** X21. The file that the loop writes for an integer cluster id sorts by
    that integer: the key that [combine_results] computes from the name
    [cluster_<n>.json] is [n] itself, for negative ids too, so that the
    aggregation orders the checkpoints of integer ids by number (2 before
    10) and never fails on their names. *)
Theorem sort_key_of_an_integer_id (z : Z) :
  String.length (pretty z) <= PyStr.int_max_str_digits ->
  sort_key (cluster_file (str (VInt z))) = Ok z.
Proof.
  intros Hlen. change (str (VInt z)) with (pretty z).
  pose proof (pretty_Z_chars z) as Hchars.
  assert (Hus : PyStr.contains "_" (pretty z +:+ ".json") = false).
  { rewrite contains_append. apply orb_false_iff. split; [|done].
    by eapply all_chars_contains. }
  assert (Hdot : PyStr.contains "." (pretty z) = false)
    by (by eapply all_chars_contains).
  unfold sort_key, cluster_file.
  assert (PyStr.startswith ("cluster_" +:+ pretty z +:+ ".json") "cluster_"
          = true) as ->.
  { apply startswith_append. }
  assert (PyStr.split "_" ("cluster_" +:+ pretty z +:+ ".json") !! 1%nat
          = Some (pretty z +:+ ".json")) as ->.
  { rewrite !append_cons. change ("" +:+ ?x) with x.
    cbn [PyStr.split]. rewrite (split_no_sep "_" _ Hus). done. }
  change ".json" with (String "." "json").
  rewrite (split_append_sep "." _ "json" Hdot).
  by rewrite int_pretty.
Qed.

Lemma sort_key_of_an_integer_id_witness :
  sort_key (cluster_file (str (VInt 10))) = Ok 10%Z /\
  sort_key (cluster_file (str (VInt (-3)))) = Ok (-3)%Z.
Proof.
  split.
  - apply (sort_key_of_an_integer_id 10). vm_compute. lia.
  - apply (sort_key_of_an_integer_id (-3)). vm_compute. lia.
Defined.

(** ** A run that goes through *)














(** ** The gene column of the input table *)

Lemma rename_cells old new df : map snd (rename old new df) = map snd df.
Proof.
  unfold rename. induction df as [|[l cells] df IH]; [done|].
  cbn. rewrite IH. by destruct (decide (l = old)).
Qed.

Lemma rename_columns old new df l :
  l ∈ columns (rename old new df) <->
  (l = new /\ old ∈ columns df) \/ (l <> old /\ l ∈ columns df).
Proof.
  unfold columns, rename. induction df as [|[l' cells] df IH]; cbn.
  - rewrite !elem_of_nil. tauto.
  - rewrite !elem_of_cons, IH.
    destruct (decide (l' = old)) as [->|Hne]; cbn; intuition congruence.
Qed.

Lemma normalize_cases df :
  ("gene_symbol_0" ∈ columns df /\ ("gene_symbol" ∉ columns df) /\
   normalize_gene_column df = rename "gene_symbol_0" "gene_symbol" df) \/
  ((("gene_symbol_0" ∉ columns df) \/ "gene_symbol" ∈ columns df) /\
   normalize_gene_column df = df).
Proof.
  unfold normalize_gene_column.
  destruct (decide ("gene_symbol_0" ∈ columns df)) as [H0|H0];
    destruct (decide ("gene_symbol" ∈ columns df)) as [H1|H1].
  - right. rewrite !bool_decide_eq_true_2 by done. by split; [right|].
  - left. rewrite bool_decide_eq_true_2, bool_decide_eq_false_2 by done.
    done.
  - right. rewrite bool_decide_eq_false_2 by done. by split; [left|].
  - right. rewrite bool_decide_eq_false_2 by done. by split; [left|].
Qed.

(** X23. The gene column before the reshaping (lines 158-160 of [main]).
    After the step the table has a column [gene_symbol] exactly when it
    had [gene_symbol] or [gene_symbol_0] before; the cells of the columns
    and their order are as they were; a table that already has
    [gene_symbol] is left as it is, so that [gene_symbol_0] survives only
    beside a [gene_symbol]; the other labels are the same; and the step
    changes nothing when it is applied again. *)
Theorem gene_column_is_normalized (gene_df : DataFrame) :
  let df' := normalize_gene_column gene_df in
  ("gene_symbol" ∈ columns df' <->
     "gene_symbol" ∈ columns gene_df \/ "gene_symbol_0" ∈ columns gene_df) /\
  map snd df' = map snd gene_df /\
  ("gene_symbol" ∈ columns gene_df -> df' = gene_df) /\
  ("gene_symbol_0" ∈ columns df' -> "gene_symbol" ∈ columns gene_df) /\
  (forall l, l <> "gene_symbol" -> l <> "gene_symbol_0" ->
             l ∈ columns df' <-> l ∈ columns gene_df) /\
  normalize_gene_column df' = df'.
Proof.
  cbv zeta.
  destruct (normalize_cases gene_df) as [(H0 & H1 & ->)|[H ->]].
  - assert (Hnew : "gene_symbol"
                   ∈ columns (rename "gene_symbol_0" "gene_symbol" gene_df)).
    { apply rename_columns. by left. }
    split; [tauto|]. split; [apply rename_cells|]. split; [done|].
    split; [intros [[? _]|[? _]]%rename_columns; done|].
    split.
    + intros l Hl Hl0. rewrite rename_columns. tauto.
    + by destruct (normalize_cases
                     (rename "gene_symbol_0" "gene_symbol" gene_df))
        as [(_ & Hn & _)|[_ ->]].
  - split; [tauto|]. split; [done|]. split; [done|]. split; [tauto|].
    split; [done|].
    by destruct (normalize_cases gene_df) as [(H0 & H1 & _)|[_ ->]];
      [tauto|].
Qed.
